(** * KHRIV recipe chatbot: a shallow embedding of [chatbot.py]

    The development follows the Python source of the recipe assistant:
    the [RecipeChatbot] methods [get_response], [_enhance_user_query],
    [_extract_recipe_info], [_process_sources],
    [_generate_follow_up_suggestions], [_format_response],
    [_generate_recipe_description], [search_recipes],
    [_parse_recipe_document] and [_apply_filters], together with
    [RecipeDocumentManager.search_recipes] of [chroma_embeding.py].

    Conventions.
    - A Python [str] is a Rocq [string], one [ascii] per character; the
      character predicates ([isspace], [lower]), the white space of [int]
      and the escapes of [repr] are those of Python on the code points
      below 256.  The only characters of the source outside that range are
      the emoji of the answer templates; they are written as their UTF-8
      bytes and nothing below looks inside them.
    - A [dict] with string keys is a [gmap string _]; a dict whose keys are
      fixed by the code that builds it (a recipe card, a source entry, the
      response) is a record.
    - Python values that flow through metadata are the inductive [pyval];
      floats are not modelled.
    - Exceptions are values of [exn]; code that can raise returns
      [result A]; code that talks to the vector store or to the language
      model runs in the monad [M], which threads the trace of external
      calls. *)

From Stdlib Require Import ZArith Ascii String List Lia Bool.
From stdpp Require Import base gmap strings list pretty.

Local Open Scope Z_scope.

(** ** Python string builtins *)

Module PyStr.

(** [str.isspace] on one character (code points below 256). *)
Definition isspace (c : ascii) : bool :=
  let n := N_of_ascii c in
  (((9 <=? n) && (n <=? 13)) || ((28 <=? n) && (n <=? 32))
   || (n =? 133) || (n =? 160))%N.

(** [str.lower] on one character: A-Z, and the Latin-1 capitals. *)
Definition lower_char (c : ascii) : ascii :=
  let n := N_of_ascii c in
  if (((65 <=? n) && (n <=? 90))
      || ((192 <=? n) && (n <=? 222) && negb (n =? 215)))%N
  then ascii_of_N (n + 32) else c.

Fixpoint lower (s : string) : string :=
  match s with
  | EmptyString => EmptyString
  | String c s' => String (lower_char c) (lower s')
  end.

Definition is_empty (s : string) : bool :=
  match s with EmptyString => true | _ => false end.

Fixpoint lstrip (s : string) : string :=
  match s with
  | EmptyString => EmptyString
  | String c s' => if isspace c then lstrip s' else s
  end.

Fixpoint rstrip (s : string) : string :=
  match s with
  | EmptyString => EmptyString
  | String c s' =>
      let r := rstrip s' in
      if isspace c && is_empty r then EmptyString else String c r
  end.

(** [s.strip()] *)
Definition strip (s : string) : string := rstrip (lstrip s).

(** [s.startswith(p)] *)
Fixpoint startswith (p s : string) : bool :=
  match p, s with
  | EmptyString, _ => true
  | String a p', String b s' => Ascii.eqb a b && startswith p' s'
  | String _ _, EmptyString => false
  end.

(** [needle in hay] for two strings. *)
Fixpoint contains (needle hay : string) : bool :=
  startswith needle hay ||
  match hay with
  | EmptyString => false
  | String _ hay' => contains needle hay'
  end.

(** [any(w in s for w in words)] *)
Definition any_in (words : list string) (s : string) : bool :=
  existsb (fun w => contains w s) words.

(** [sep.join(l)] *)
Fixpoint join (sep : string) (l : list string) : string :=
  match l with
  | [] => ""
  | [x] => x
  | x :: l' => x +:+ sep +:+ join sep l'
  end.

(** [s.split(sep)] for a non-empty separator: the occurrences of [sep] are
    found from the left and do not overlap.  [skip] counts the characters of
    a separator still to be passed over, [cur] is the piece being built. *)
Fixpoint split_go (sep s : string) (skip : nat) (cur : string) : list string :=
  match s with
  | EmptyString => [cur]
  | String c s' =>
      match skip with
      | S k => split_go sep s' k cur
      | O =>
          if startswith sep s
          then cur :: split_go sep s' (String.length sep - 1) ""
          else split_go sep s' 0 (cur +:+ String c "")
      end
  end.

Definition split (sep s : string) : list string := split_go sep s 0 "".

(** [s.replace(old, new)] for a non-empty [old]. *)
Definition replace (old new s : string) : string := join new (split old s).

(** [s.split()]: the maximal runs of non-space characters. *)
Fixpoint split_ws_go (s cur : string) : list string :=
  match s with
  | EmptyString => if is_empty cur then [] else [cur]
  | String c s' =>
      if isspace c
      then (if is_empty cur then split_ws_go s' "" else cur :: split_ws_go s' "")
      else split_ws_go s' (cur +:+ String c "")
  end.

Definition split_ws (s : string) : list string := split_ws_go s "".

(** [s[:n]] *)
Fixpoint take_str (n : nat) (s : string) : string :=
  match n, s with
  | S k, String c s' => String c (take_str k s')
  | _, _ => EmptyString
  end.

(** Number of (possibly overlapping) places where [p] occurs in [s]. *)
Fixpoint occurrences (p s : string) : nat :=
  ((if startswith p s then 1 else 0) +
   match s with
   | EmptyString => 0
   | String _ s' => occurrences p s'
   end)%nat.

Definition is_digit (c : ascii) : bool :=
  let n := N_of_ascii c in ((48 <=? n) && (n <=? 57))%N.

Definition digit_val (c : ascii) : Z := Z.of_N (N_of_ascii c) - 48.

(** The digits of a decimal literal with single underscores between digits;
    [prev] tells that the previous character was a digit, [cnt] counts the
    digits read. *)
Fixpoint digits_go (s : string) (acc : Z) (prev : bool) (cnt : nat)
  : option (Z * nat) :=
  match s with
  | EmptyString => if prev then Some (acc, cnt) else None
  | String c s' =>
      if is_digit c then digits_go s' (10 * acc + digit_val c) true (S cnt)
      else if Ascii.eqb c "_" && prev then digits_go s' acc false cnt
      else None
  end.

(** The default of [sys.int_max_str_digits]: longer literals are refused. *)
Definition int_max_str_digits : nat := 4300.

(** The white space that [int] passes over around a literal: the six ASCII
    blanks, and of the characters from 127 on those that [str.isspace]
    accepts.  The separators U+001C to U+001F are white space for [strip]
    and [split], not for [int]. *)
Definition int_space (c : ascii) : bool :=
  let n := N_of_ascii c in
  (((9 <=? n) && (n <=? 13)) || (n =? 32) || (n =? 133) || (n =? 160))%N.

Fixpoint int_lstrip (s : string) : string :=
  match s with
  | EmptyString => EmptyString
  | String c s' => if int_space c then int_lstrip s' else s
  end.

Fixpoint int_rstrip (s : string) : string :=
  match s with
  | EmptyString => EmptyString
  | String c s' =>
      let r := int_rstrip s' in
      if int_space c && is_empty r then EmptyString else String c r
  end.

(** [int(s)] for a string, [None] where Python raises [ValueError]: white
    space, an optional sign, then the digits. *)
Definition parse_int (s : string) : option Z :=
  let body sign t :=
    match digits_go t 0 false 0 with
    | Some (v, cnt) =>
        if (cnt <=? int_max_str_digits)%nat then Some (sign * v) else None
    | None => None
    end in
  match int_rstrip (int_lstrip s) with
  | String "-" t => body (-1) t
  | String "+" t => body 1 t
  | t => body 1 t
  end.

End PyStr.

(** ** Python values, exceptions and effects *)

(** The values that recipe metadata and the dictionaries built from it hold.
    A list stands for any unhashable value. *)
Inductive pyval : Type :=
| PNone
| PBool (b : bool)
| PInt (n : Z)
| PStr (s : string)
| PList (l : list string).

Inductive exn_kind : Type :=
| KeyError | IndexError | TypeError | ValueError | AttributeError
| ExternalError.

(** An exception; [exn_msg] is what [str(e)] gives. *)
Record exn : Type := Exn { exn_kind_of : exn_kind; exn_msg : string }.

Inductive result (A : Type) : Type :=
| Ok (a : A)
| Raise (e : exn).
Arguments Ok {A} a.
Arguments Raise {A} e.

Definition rbind {A B} (r : result A) (k : A -> result B) : result B :=
  match r with
  | Ok a => k a
  | Raise e => Raise e
  end.

(** [try: r  except Exception: h] *)
Definition rcatch {A} (r : result A) (h : exn -> A) : A :=
  match r with
  | Ok a => a
  | Raise e => h e
  end.

Declare Scope py_scope.
Delimit Scope py_scope with py.
Notation "'let*' x := c 'in' k" := (rbind c (fun x => k))
  (at level 10, x name, c at level 100, k at level 200) : py_scope.

Module Py.

(** Truth value of an object, as [if x:] and [not x] take it. *)
Definition truthy (v : pyval) : bool :=
  match v with
  | PNone => false
  | PBool b => b
  | PInt n => negb (n =? 0)
  | PStr s => negb (PyStr.is_empty s)
  | PList l => match l with [] => false | _ => true end
  end.

(** Only lists are unhashable: they cannot enter a [set]. *)
Definition hashable (v : pyval) : bool :=
  match v with PList _ => false | _ => true end.

(** [a == b]; [True == 1] and [False == 0] hold in Python. *)
Definition eqb (a b : pyval) : bool :=
  match a, b with
  | PNone, PNone => true
  | PBool x, PBool y => Bool.eqb x y
  | PBool x, PInt n | PInt n, PBool x => (if x then 1 else 0) =? n
  | PInt n, PInt m => n =? m
  | PStr s, PStr t => String.eqb s t
  | PList l, PList k => bool_decide (l = k)
  | _, _ => false
  end.

(** [repr] of a string.  The text is put between single quotes, or
    between double quotes when it holds an apostrophe and no double quote;
    the quote in use and the backslash are escaped, tab, newline and
    carriage return are written with their letter, and the other
    characters that are not printable (the controls, U+007F to U+00A0 and
    the soft hyphen) as [\xhh]. *)
Definition apostrophe : ascii := ascii_of_N 39.
Definition double_quote : ascii := ascii_of_N 34.
Definition backslash : ascii := ascii_of_N 92.

Definition has_char (c : ascii) (s : string) : bool :=
  existsb (Ascii.eqb c) (list_ascii_of_string s).

Definition isprintable (c : ascii) : bool :=
  let n := N_of_ascii c in
  (((32 <=? n) && (n <=? 126)) || ((161 <=? n) && (n <=? 172))
   || ((174 <=? n) && (n <=? 255)))%N.

Definition hex_digit (n : N) : ascii :=
  if (n <? 10)%N then ascii_of_N (48 + n) else ascii_of_N (87 + n).

Definition repr_char (quote c : ascii) : string :=
  let n := N_of_ascii c in
  if Ascii.eqb c quote || Ascii.eqb c backslash
  then String backslash (String c "")
  else if (n =? 9)%N then String backslash "t"
  else if (n =? 10)%N then String backslash "n"
  else if (n =? 13)%N then String backslash "r"
  else if isprintable c then String c ""
  else String backslash
         (String "x" (String (hex_digit (n / 16))
                        (String (hex_digit (n mod 16)) ""))).

Fixpoint repr_body (quote : ascii) (s : string) : string :=
  match s with
  | EmptyString => EmptyString
  | String c s' => repr_char quote c +:+ repr_body quote s'
  end.

Definition repr_str (s : string) : string :=
  let quote :=
    if has_char apostrophe s && negb (has_char double_quote s)
    then double_quote else apostrophe in
  String quote (repr_body quote s +:+ String quote "").

(** [str(v)], as an f-string renders a value. *)
Definition str (v : pyval) : string :=
  match v with
  | PNone => "None"
  | PBool true => "True"
  | PBool false => "False"
  | PInt n => pretty n
  | PStr s => s
  | PList l => "[" +:+ PyStr.join ", " (map repr_str l) +:+ "]"
  end.

(** The name of the type of a value, as the messages of errors show it. *)
Definition type_name (v : pyval) : string :=
  match v with
  | PNone => "NoneType"
  | PBool _ => "bool"
  | PInt _ => "int"
  | PStr _ => "str"
  | PList _ => "list"
  end.

(** [int(v)]; the message of the [ValueError] shows at most 200 characters
    of the literal. *)
Definition int (v : pyval) : result Z :=
  match v with
  | PInt n => Ok n
  | PBool b => Ok (if b then 1 else 0)
  | PStr s =>
      match PyStr.parse_int s with
      | Some n => Ok n
      | None =>
          Raise (Exn ValueError
                   ("invalid literal for int() with base 10: "
                    +:+ PyStr.take_str 200 (repr_str s)))
      end
  | PNone | PList _ =>
      Raise (Exn TypeError
               ("int() argument must be a string, a bytes-like object or a real number, not "
                +:+ repr_str (type_name v)))
  end.

(** A method of [str] applied to an arbitrary value. *)
Definition as_str (meth : string) (v : pyval) : result string :=
  match v with
  | PStr s => Ok s
  | _ =>
      Raise (Exn AttributeError
               (repr_str (type_name v) +:+ " object has no attribute "
                +:+ repr_str meth))
  end.

(** [x in l] for a list of strings. *)
Definition in_list (x : string) (l : list string) : bool :=
  existsb (String.eqb x) l.

(** [any(x in l for x in xs)] *)
Definition any_in_list (xs l : list string) : bool :=
  existsb (fun x => in_list x l) xs.

(** [l[i]] *)
Definition index {A} (l : list A) (i : nat) : result A :=
  match nth_error l i with
  | Some a => Ok a
  | None => Raise (Exn IndexError "list index out of range")
  end.

(** [d[k]] *)
Definition getitem {V} (d : gmap string V) (k : string) : result V :=
  match d !! k with
  | Some v => Ok v
  | None => Raise (Exn KeyError (repr_str k))
  end.

(** [d.get(k, default)] *)
Definition get {V} (d : gmap string V) (k : string) (default : V) : V :=
  match d !! k with
  | Some v => v
  | None => default
  end.

(** [k in d] *)
Definition has_key {V} (d : gmap string V) (k : string) : bool :=
  match d !! k with Some _ => true | None => false end.

End Py.

(** *** External calls

    The chatbot reaches three services: the conversational retrieval chain,
    the language model and the vector collection.  Each call is recorded in a
    trace; what a service answers may depend on the calls made so far (the
    chain keeps the conversation memory). *)

Record Document : Type := mkDocument {
  page_content : string;
  metadata : gmap string pyval
}.

(** The dict that [conversation_chain.invoke] returns. *)
Record chain_result : Type := mkChainResult {
  cr_answer : option string;
  cr_source_documents : option (list Document)
}.

(** What [collection.query] returns: one list per query text. *)
Record query_result : Type := mkQueryResult {
  qr_documents : option (list (list string));
  qr_metadatas : option (list (list (gmap string pyval)))
}.

Inductive event : Type :=
| EvChainInvoke (question : string)
| EvLLMInvoke (prompt : string)
| EvCollectionQuery (query : string) (n_results : nat).

Definition trace : Type := list event.

Definition is_retrieval (ev : event) : bool :=
  match ev with
  | EvChainInvoke _ | EvCollectionQuery _ _ => true
  | EvLLMInvoke _ => false
  end.

(** Computations that may call out and may raise. *)
Definition M (A : Type) : Type := trace -> result A * trace.

Definition ret {A} (a : A) : M A := fun t => (Ok a, t).

Definition raise {A} (e : exn) : M A := fun t => (Raise e, t).

Definition bind {A B} (m : M A) (k : A -> M B) : M B :=
  fun t =>
    match m t with
    | (Ok a, t') => k a t'
    | (Raise e, t') => (Raise e, t')
    end.

Definition lift {A} (r : result A) : M A := fun t => (r, t).

(** [try: m  except Exception as e: h e] *)
Definition catch {A} (m : M A) (h : exn -> M A) : M A :=
  fun t =>
    match m t with
    | (Ok a, t') => (Ok a, t')
    | (Raise e, t') => h e t'
    end.

Declare Scope monad_scope.
Delimit Scope monad_scope with M.
Notation "'let*' x := c 'in' k" := (bind c (fun x => k))
  (at level 10, x name, c at level 100, k at level 200) : monad_scope.

(** ** The answer composer: pure helpers *)

Definition nl : string := String (ascii_of_N 10) "".
Definition dquote : string := String (ascii_of_N 34) "".

(** [_enhance_user_query] *)
Definition _enhance_user_query (user_input : string) : string :=
  let query := PyStr.lower user_input in
  let cuisines :=
    ["italian"; "mexican"; "asian"; "indian"; "american"; "chinese"; "thai"] in
  let enhancements :=
    (if PyStr.any_in ["have"; "using"; "with"; "got"] query
     then ["recipe ingredients"] else [])
    ++ (if PyStr.any_in ["quick"; "fast"; "easy"; "30 min"; "hour"] query
        then ["cooking time"] else [])
    ++ (if PyStr.any_in ["vegetarian"; "vegan"; "gluten-free"; "low-fat"] query
        then ["dietary"] else [])
    ++ (if PyStr.any_in cuisines query then ["cuisine"] else []) in
  match enhancements with
  | [] => user_input
  | _ => user_input +:+ " " +:+ PyStr.join " " enhancements
  end.

(** The dict built for each recipe by [_extract_recipe_info]: its keys are
    fixed, so it is a record, one field per key. *)
Record RecipeInfo : Type := mkRecipeInfo {
  ri_name : pyval;
  ri_rating : pyval;
  ri_prep_time : pyval;
  ri_cook_time : pyval;
  ri_total_time : pyval;
  ri_servings : pyval;
  ri_difficulty : pyval;
  ri_cuisine : pyval;
  ri_category : pyval;
  ri_main_ingredients : pyval;
  ri_cooking_methods : pyval;
  ri_dietary_info : pyval;
  ri_has_image : pyval;
  ri_source_url : pyval;
  ri_instructions : string;
  ri_image_url : pyval
}.

(** [metadata.get('recipe_name', metadata.get('title', 'Unknown Recipe'))] *)
Definition recipe_name_of (md : gmap string pyval) : pyval :=
  Py.get md "recipe_name" (Py.get md "title" (PStr "Unknown Recipe")).

(** The dict literal of [_extract_recipe_info]. *)
Definition recipe_info_of (doc : Document) : RecipeInfo :=
  let md := metadata doc in
  {| ri_name := recipe_name_of md;
     ri_rating := Py.get md "rating" (PStr "Not rated");
     ri_prep_time := Py.get md "prep_time_minutes" PNone;
     ri_cook_time := Py.get md "cook_time_minutes" PNone;
     ri_total_time := Py.get md "total_time_minutes" PNone;
     ri_servings := Py.get md "servings" PNone;
     ri_difficulty := Py.get md "difficulty_level" (PStr "Unknown");
     ri_cuisine := Py.get md "cuisine_type" (PStr "International");
     ri_category := Py.get md "main_category" (PStr "General");
     ri_main_ingredients := Py.get md "main_ingredients" (PList []);
     ri_cooking_methods := Py.get md "cooking_methods" (PList []);
     ri_dietary_info := Py.get md "dietary_info" (PList []);
     ri_has_image := Py.get md "has_image" (PBool false);
     ri_source_url := Py.get md "source_url" PNone;
     ri_instructions := page_content doc;
     ri_image_url := Py.get md "image_url" (PStr "") |}.

(** [seen_recipes] is a Python [set]: membership compares with [==], under
    which [True == 1], so the set is kept as the list of its members. *)
Definition seen_mem (v : pyval) (seen : list pyval) : bool :=
  existsb (Py.eqb v) seen.

(** The body of the [try] in the loop of [_extract_recipe_info], on one
    passage: the outcome ([Ok None] for [continue]) and the set after it.
    Testing an unhashable name against the set raises before the set is
    touched. *)
Definition extract_body (doc : Document) (seen : list pyval)
  : result (option RecipeInfo) * list pyval :=
  let recipe_name := recipe_name_of (metadata doc) in
  if negb (Py.hashable recipe_name)
  then (Raise (Exn TypeError "unhashable type: 'list'"), seen)
  else if seen_mem recipe_name seen then (Ok None, seen)
  else (Ok (Some (recipe_info_of doc)), seen ++ [recipe_name]).

Fixpoint extract_loop (docs : list Document) (seen : list pyval)
  : list RecipeInfo :=
  match docs with
  | [] => []
  | doc :: rest =>
      match extract_body doc seen with
      | (Ok (Some info), seen') => info :: extract_loop rest seen'
      | (Ok None, seen') => extract_loop rest seen'
      | (Raise _, seen') => extract_loop rest seen'
      end
  end.

(** [_extract_recipe_info] *)
Definition _extract_recipe_info (source_docs : list Document)
  : list RecipeInfo :=
  extract_loop (take 6 source_docs) [].

Record SourceEntry : Type := mkSourceEntry {
  se_source : pyval;
  se_recipe_name : pyval;
  se_content_preview : string
}.

Fixpoint process_loop (docs : list Document) (seen_sources : gset string)
  : list SourceEntry :=
  match docs with
  | [] => []
  | doc :: rest =>
      let source := Py.get (metadata doc) "source" (PStr "Recipe Database") in
      let recipe_name :=
        Py.get (metadata doc) "recipe_name" (PStr "Unknown Recipe") in
      let source_key := Py.str source +:+ "_" +:+ Py.str recipe_name in
      if bool_decide (source_key ∈ seen_sources)
      then process_loop rest seen_sources
      else
        {| se_source := source;
           se_recipe_name := recipe_name;
           se_content_preview :=
             if (150 <? String.length (page_content doc))%nat
             then PyStr.take_str 150 (page_content doc) +:+ "..."
             else page_content doc |}
        :: process_loop rest ({[source_key]} ∪ seen_sources)
  end.

(** [_process_sources] *)
Definition _process_sources (source_docs : list Document) : list SourceEntry :=
  take 5 (process_loop source_docs ∅).

(** [_generate_follow_up_suggestions] *)
Definition _generate_follow_up_suggestions
  (user_input : string) (recipes : list RecipeInfo) : list string :=
  let query := PyStr.lower user_input in
  let suggestions :=
    if PyStr.contains "ingredient" query || PyStr.contains "have" query then
      ["Show me the full recipe for the first suggestion";
       "What can I substitute if I'm missing an ingredient?";
       "How long will this take to prepare?"]
    else if PyStr.any_in ["quick"; "fast"; "easy"] query then
      ["Show me recipes under 30 minutes";
       "What are some meal prep options?";
       "Give me beginner-friendly recipes"]
    else
      match recipes with
      | first :: _ :: _ =>
          ["Tell me more about " +:+ Py.str (ri_name first);
           "Compare the difficulty of these recipes";
           "Which recipe has the highest rating?"]
      | _ => []
      end in
  let suggestions :=
    if (length suggestions <? 3)%nat then
      suggestions ++
      ["Show me ingredients and instructions";
       "What cuisine type would you recommend?";
       "Give me cooking tips for beginners"]
    else suggestions in
  take 3 suggestions.

(** ** The filtered search: parsing and filters *)

(** One turn of the loop over the sections of a document. *)
Definition parse_section (recipe_info : gmap string pyval) (section : string)
  : gmap string pyval :=
  if PyStr.startswith "Ingredients:" section then
    <["ingredients" :=
        PStr (PyStr.strip (PyStr.replace "Ingredients:" "" section))]> recipe_info
  else if PyStr.startswith "Instructions:" section then
    <["instructions" :=
        PStr (PyStr.strip (PyStr.replace "Instructions:" "" section))]> recipe_info
  else if PyStr.startswith "Nutrition Information:" section then
    <["nutrition" :=
        PStr (PyStr.strip (PyStr.replace "Nutrition Information:" "" section))]>
      recipe_info
  else recipe_info.

(** The body of the [try] of [_parse_recipe_document]. *)
Definition parse_body (doc : string) : result (gmap string pyval) :=
  (let sections := PyStr.split (nl +:+ nl) doc in
   let recipe_info := fold_left parse_section sections ∅ in
   let* recipe_info :=
     (if Py.has_key recipe_info "instructions" then
        let* v := Py.getitem recipe_info "instructions" in
        let* instructions := Py.as_str "lower" v in
        if PyStr.contains "serves" (PyStr.lower instructions) then
          let* after := Py.index (PyStr.split "serves" instructions) 1 in
          let* servings := Py.index (PyStr.split_ws after) 0 in
          Ok (<["servings" := PStr servings]> recipe_info)
        else Ok recipe_info
      else Ok recipe_info) in
   if Py.has_key recipe_info "instructions" then
     let* v := Py.getitem recipe_info "instructions" in
     let* instructions := Py.as_str "split" v in
     Ok (<["description" :=
             PStr (PyStr.join " " (take 20 (PyStr.split_ws instructions))
                   +:+ "...")]> recipe_info)
   else Ok recipe_info)%py.

(** [_parse_recipe_document]: any error gives the empty dict. *)
Definition _parse_recipe_document (doc : string) : gmap string pyval :=
  rcatch (parse_body doc) (fun _ => ∅).

(** [recipe_info.get('type', '').lower()] *)
Definition type_lower (recipe_info : gmap string pyval) : result string :=
  (let* t := Py.as_str "lower" (Py.get recipe_info "type" (PStr "")) in
   Ok (PyStr.lower t))%py.

Definition meal_times : list string := ["breakfast"; "lunch"; "dinner"].
Definition meal_types : list string := ["dessert"; "snacks"; "main"].
Definition serving_buckets : list string :=
  ["servings-1-2"; "servings-3-4"; "servings-5+"].

(** The body of the [try] of [_apply_filters], for a non-empty list of
    filters.  [and] does not evaluate its right operand when the left one is
    false, so the type is only read under the filters that look at it. *)
Definition apply_filters_body
  (recipe_info : gmap string pyval) (filters : list string) (cooking_time : Z)
  : result bool :=
  (let* contradicts_veg :=
     (if Py.in_list "veg" filters then
        let* t := type_lower recipe_info in Ok (PyStr.contains "non-veg" t)
      else Ok false) in
   if contradicts_veg then Ok false else
   let* contradicts_non_veg :=
     (if Py.in_list "non-veg" filters then
        let* t := type_lower recipe_info in Ok (PyStr.contains "veg" t)
      else Ok false) in
   if contradicts_non_veg then Ok false else
   let* meal_time_ok :=
     (if Py.any_in_list meal_times filters then
        let* t := type_lower recipe_info in Ok (PyStr.any_in meal_times t)
      else Ok true) in
   if negb meal_time_ok then Ok false else
   let* meal_type_ok :=
     (if Py.any_in_list meal_types filters then
        let* t := type_lower recipe_info in Ok (PyStr.any_in meal_types t)
      else Ok true) in
   if negb meal_type_ok then Ok false else
   let* too_long :=
     (if Py.has_key recipe_info "cooking_time" then
        let* v := Py.getitem recipe_info "cooking_time" in
        let* n := Py.int v in
        Ok (cooking_time <? n)
      else Ok false) in
   if too_long then Ok false else
   if Py.any_in_list serving_buckets filters then
     let* s := Py.as_str "split" (Py.get recipe_info "servings" (PStr "0")) in
     let* tok := Py.index (PyStr.split_ws s) 0 in
     let* servings := Py.int (PStr tok) in
     if Py.in_list "servings-1-2" filters && (2 <? servings) then Ok false
     else if Py.in_list "servings-3-4" filters
             && ((servings <? 3) || (4 <? servings)) then Ok false
     else if Py.in_list "servings-5+" filters && (servings <? 5) then Ok false
     else Ok true
   else Ok true)%py.

(** [_apply_filters]; [filters] is [None] when the caller leaves the
    default. *)
Definition _apply_filters
  (recipe_info : gmap string pyval) (filters : option (list string))
  (cooking_time : Z) : bool :=
  match filters with
  | None | Some [] => true
  | Some fl => rcatch (apply_filters_body recipe_info fl cooking_time)
                      (fun _ => true)
  end.

(** The dict appended to [filtered_recipes]. *)
Record RecipeCard : Type := mkRecipeCard {
  card_name : pyval;
  card_image : pyval;
  card_rating : pyval;
  card_type : string;
  card_servings : pyval;
  card_description : pyval
}.

(** ['veg' in filters] inside [search_recipes]: [None] is not iterable. *)
Definition veg_in (filters : option (list string)) : result bool :=
  match filters with
  | Some fl => Ok (Py.in_list "veg" fl)
  | None => Raise (Exn TypeError "argument of type 'NoneType' is not iterable")
  end.

(** The dict literal of [search_recipes], its entries evaluated in order. *)
Definition make_card
  (recipe_info md : gmap string pyval) (filters : option (list string))
  : result RecipeCard :=
  (let* name := Py.getitem md "name" in
   let image := Py.get md "image_url" (PStr "") in
   let* rating := Py.getitem md "rating" in
   let* veg := veg_in filters in
   Ok {| card_name := name;
         card_image := image;
         card_rating := rating;
         card_type := if veg then "Vegetarian" else "Non-Vegetarian";
         card_servings := Py.get recipe_info "servings" (PStr "N/A");
         card_description := Py.get recipe_info "description" (PStr "") |})%py.

(** The [for] loop of [search_recipes] over [zip(documents, metadatas)]. *)
Fixpoint filter_loop
  (batch : list (string * gmap string pyval))
  (filters : option (list string)) (cooking_time : Z)
  : result (list RecipeCard) :=
  match batch with
  | [] => Ok []
  | (doc, md) :: rest =>
      let recipe_info := _parse_recipe_document doc in
      if _apply_filters recipe_info filters cooking_time then
        (let* card := make_card recipe_info md filters in
         let* cards := filter_loop rest filters cooking_time in
         Ok (card :: cards))%py
      else filter_loop rest filters cooking_time
  end.

(** ** The methods that call out *)

(** The dict that [get_response] returns. *)
Record Response : Type := mkResponse {
  resp_answer : string;
  resp_sources : list SourceEntry;
  resp_recipes : list RecipeInfo;
  resp_suggestions : list string;
  resp_error : option string
}.

Definition greeting_response : Response :=
  {| resp_answer := "Hello! I'm your recipe assistant. Ask me about recipes, cooking tips, or tell me what ingredients you have and I'll suggest some delicious dishes you can make!";
     resp_sources := [];
     resp_recipes := [];
     resp_suggestions :=
       ["What ingredients do you have?"; "Show me quick dinner recipes";
        "I need a vegetarian meal"];
     resp_error := None |}.

Definition error_response (e : exn) : Response :=
  {| resp_answer := "I'm sorry, I encountered an issue while searching for recipes. Please try rephrasing your question or ask about a specific dish or ingredient.";
     resp_sources := [];
     resp_recipes := [];
     resp_suggestions :=
       ["Try asking about a specific ingredient"; "Search for a cuisine type";
        "Ask for cooking tips"];
     resp_error := Some (exn_msg e) |}.

Section Chatbot.

(** The three services; each sees the calls made before it. *)
Variable chain_invoke : trace -> string -> result chain_result.
Variable llm_invoke : trace -> string -> result string.
Variable collection_query : trace -> string -> nat -> result query_result.

(** [self.conversation_chain.invoke({"question": q})] *)
Definition call_chain (q : string) : M chain_result :=
  fun t => (chain_invoke t q, t ++ [EvChainInvoke q]).

(** [self.llm.invoke(prompt).content] *)
Definition call_llm (prompt : string) : M string :=
  fun t => (llm_invoke t prompt, t ++ [EvLLMInvoke prompt]).

(** [self.collection.query(query_texts=[q], n_results=n, ...)] *)
Definition call_collection (q : string) (n : nat) : M query_result :=
  fun t => (collection_query t q n, t ++ [EvCollectionQuery q n]).

(** [RecipeDocumentManager.search_recipes]: [None] on any error. *)
Definition dm_search_recipes (query : string) (n_results : nat)
  : M (option query_result) :=
  catch (let* results := call_collection query n_results in
         ret (Some results))%M
        (fun _ => ret None).

(** The body of the [try] of [search_recipes]. *)
Definition search_recipes_body
  (query : string) (filters : option (list string)) (cooking_time : Z)
  : M (list RecipeCard) :=
  (let* results := dm_search_recipes query 20 in
   match results with
   | None => ret []
   | Some results =>
       match qr_documents results with
       | None | Some [] => ret []
       | Some documents =>
           let* docs := lift (Py.index documents 0) in
           let* metas :=
             lift (match qr_metadatas results with
                   | Some metadatas => Py.index metadatas 0
                   | None =>
                       Raise (Exn TypeError "'NoneType' object is not subscriptable")
                   end) in
           let* filtered_recipes :=
             lift (filter_loop (zip docs metas) filters cooking_time) in
           ret (take 10 filtered_recipes)
       end
   end)%M.

(** [search_recipes] *)
Definition search_recipes
  (query : string) (filters : option (list string)) (cooking_time : Z)
  : M (list RecipeCard) :=
  catch (search_recipes_body query filters cooking_time) (fun _ => ret []).

Definition indent12 : string := "            ".

Definition description_prompt (recipe : RecipeInfo) : string :=
  "Write a concise, engaging description (150-200 words) for this recipe:" +:+ nl
  +:+ indent12 +:+ "Name: " +:+ Py.str (ri_name recipe) +:+ nl
  +:+ indent12 +:+ "Ingredients: " +:+ Py.str (ri_main_ingredients recipe) +:+ nl
  +:+ indent12 +:+ "Instructions: " +:+ ri_instructions recipe +:+ nl
  +:+ indent12 +:+ "Cooking Method: " +:+ Py.str (ri_cooking_methods recipe) +:+ nl
  +:+ indent12 +:+ "Cuisine: " +:+ Py.str (ri_cuisine recipe) +:+ nl
  +:+ indent12 +:+ "Category: " +:+ Py.str (ri_category recipe) +:+ nl
  +:+ indent12 +:+ nl
  +:+ indent12 +:+ "Focus on:" +:+ nl
  +:+ indent12 +:+ "1. Key ingredients and their roles" +:+ nl
  +:+ indent12 +:+ "2. Cooking technique highlights" +:+ nl
  +:+ indent12 +:+ "3. Flavor profile and texture" +:+ nl
  +:+ indent12 +:+ "4. Serving suggestions" +:+ nl
  +:+ indent12 +:+ "5. What makes this recipe special" +:+ nl
  +:+ indent12 +:+ nl
  +:+ indent12 +:+ "Keep it concise and avoid repetition.".

(** [_generate_recipe_description]: the model writes the description; on
    any error a one-line description is built from the recipe. *)
Definition _generate_recipe_description (recipe : RecipeInfo) : M string :=
  catch
    (let* content := call_llm (description_prompt recipe) in
     let description := PyStr.strip content in
     ret (if (200 <? String.length description)%nat
          then PyStr.join " " (take 200 (PyStr.split_ws description)) +:+ "..."
          else description))%M
    (fun _ =>
       ret ("A " +:+ Py.str (ri_cuisine recipe) +:+ " "
            +:+ Py.str (ri_category recipe) +:+ " that's "
            +:+ Py.str (ri_difficulty recipe) +:+ " difficult to prepare.")).

(** One turn of the loop of [_format_response]. *)
Definition format_entry (i : nat) (recipe : RecipeInfo) (answer : string)
  : M string :=
  (let time_info :=
     if Py.truthy (ri_total_time recipe)
     then " • ⏱️ " +:+ Py.str (ri_total_time recipe) +:+ " min"
     else if Py.truthy (ri_cook_time recipe)
     then " • ⏱️ " +:+ Py.str (ri_cook_time recipe) +:+ " min"
     else "" in
   let rating_info :=
     if Py.truthy (ri_rating recipe)
        && negb (Py.eqb (ri_rating recipe) (PStr "Not rated"))
     then " • ⭐ " +:+ Py.str (ri_rating recipe) +:+ "/5"
     else "" in
   let* description := _generate_recipe_description recipe in
   let image_url := ri_image_url recipe in
   let image_html :=
     if Py.truthy image_url
     then "<img src=" +:+ dquote +:+ Py.str image_url +:+ dquote
          +:+ " alt=" +:+ dquote +:+ Py.str (ri_name recipe) +:+ dquote
          +:+ " style=" +:+ dquote
          +:+ "max-width: 300px; border-radius: 8px; margin: 10px 0;"
          +:+ dquote +:+ ">"
     else "" in
   let answer :=
     answer +:+ pretty i +:+ ". **" +:+ Py.str (ri_name recipe) +:+ "** ("
     +:+ Py.str (ri_difficulty recipe) +:+ ")" +:+ time_info +:+ rating_info
     +:+ nl in
   let answer :=
     if Py.truthy image_url
     then answer +:+ "   " +:+ image_html +:+ nl else answer in
   ret (answer +:+ "   " +:+ description +:+ nl +:+ nl))%M.

Fixpoint format_loop (recipes : list RecipeInfo) (i : nat) (answer : string)
  : M string :=
  match recipes with
  | [] => ret answer
  | recipe :: rest =>
      (let* answer := format_entry i recipe answer in
       format_loop rest (S i) answer)%M
  end.

(** [_format_response] *)
Definition _format_response (answer : string) (recipes : list RecipeInfo)
  : M string :=
  match recipes with
  | [] => ret answer
  | _ =>
      if (1 <? length recipes)%nat then
        format_loop (take 3 recipes) 1
          (answer +:+ nl +:+ nl +:+ "📚 **Found " +:+ pretty (length recipes)
           +:+ " recipes for you:**" +:+ nl)
      else ret answer
  end.

(** The body of the [try] of [get_response]. *)
Definition get_response_body (user_input : string) : M Response :=
  (let processed_query := _enhance_user_query user_input in
   let* result := call_chain processed_query in
   let* answer :=
     lift (match cr_answer result with
           | Some a => Ok a
           | None => Raise (Exn KeyError "'answer'")
           end) in
   let source_docs := default [] (cr_source_documents result) in
   let recipes_info := _extract_recipe_info source_docs in
   let unique_sources := _process_sources source_docs in
   let suggestions := _generate_follow_up_suggestions user_input recipes_info in
   let* formatted_answer := _format_response answer recipes_info in
   ret {| resp_answer := formatted_answer;
          resp_sources := unique_sources;
          resp_recipes := recipes_info;
          resp_suggestions := suggestions;
          resp_error := None |})%M.

(** [get_response] *)
Definition get_response (user_input : string) : M Response :=
  if PyStr.is_empty (PyStr.strip user_input) then ret greeting_response
  else catch (get_response_body user_input)
             (fun e => ret (error_response e)).

End Chatbot.

(** ** Notions used in the statements *)

(** The suffixes of a string. *)
Fixpoint tails (s : string) : list string :=
  s :: match s with
       | EmptyString => []
       | String _ s' => tails s'
       end.

(** The phrase appended for an ingredient-intent query, and the words that
    signal such a query. *)
Definition phrase : string := "recipe ingredients".
Definition ingredient_words : list string := ["have"; "using"; "with"; "got"].

(** [==] identifies [True] with [1] and [False] with [0], nothing else. *)
Definition norm (v : pyval) : pyval :=
  match v with
  | PBool b => PInt (if b then 1 else 0)
  | _ => v
  end.

(** No two records of the list bear the same name. *)
Fixpoint names_distinct (l : list RecipeInfo) : Prop :=
  match l with
  | [] => True
  | a :: l' =>
      (forall b, In b l' -> Py.eqb (ri_name b) (ri_name a) = false)
      /\ names_distinct l'
  end.

(** A passage with neither a 'recipe_name' nor a 'title' in its metadata. *)
Definition nameless (doc : Document) : bool :=
  negb (Py.has_key (metadata doc) "recipe_name")
  && negb (Py.has_key (metadata doc) "title").

(** Every character of the string is white space. *)
Fixpoint all_space (s : string) : bool :=
  match s with
  | EmptyString => true
  | String c s' => PyStr.isspace c && all_space s'
  end.

(** ** Sample passages *)

Definition sample_dal : Document :=
  mkDocument "Simmer the lentils with turmeric."
    (<["recipe_name" := PStr "Dal"]> (<["rating" := PStr "4.5"]> ∅)).

Definition sample_dal_again : Document :=
  mkDocument "A second page about the same dish."
    (<["recipe_name" := PStr "Dal"]> (<["cuisine_type" := PStr "Indian"]> ∅)).

Definition sample_pho : Document :=
  mkDocument "Char the onion and ginger." (<["title" := PStr "Pho"]> ∅).

(** A passage whose name is a list: testing it against the set raises. *)
Definition sample_unhashable : Document :=
  mkDocument "Tags instead of a name."
    (<["recipe_name" := PList ["soup"; "stew"]]> ∅).

(** Passages as [add_recipe] stores them: the name is under the key 'name'. *)
Definition sample_soup : Document :=
  mkDocument "Lentil soup: boil, blend, season."
    (<["name" := PStr "Lentil Soup"]> (<["rating" := PStr "4"]> ∅)).

Definition sample_pie : Document :=
  mkDocument "Apple pie: slice, fill, bake."
    (<["name" := PStr "Apple Pie"]> (<["rating" := PStr "5"]> ∅)).

(** A passage that carries the fallback name as its own. *)
Definition sample_named_unknown : Document :=
  mkDocument "A stew nobody could name."
    (<["recipe_name" := PStr "Unknown Recipe"]> ∅).

(** ** Sample documents of the collection *)

(** The text that [format_recipe_text] stores for a recipe. *)
Definition recipe_text (name ingredients instructions nutrition : string)
  : string :=
  "Recipe: " +:+ name +:+ nl +:+ nl
  +:+ "Ingredients:" +:+ nl +:+ ingredients +:+ nl +:+ nl
  +:+ "Instructions:" +:+ nl +:+ instructions +:+ nl +:+ nl
  +:+ "Nutrition Information:" +:+ nl +:+ nutrition.

Definition burrito_text : string :=
  recipe_text "Breakfast Burrito" "eggs, tortilla"
    "Scramble the eggs and wrap. This serves 2 people." "300 kcal".

Definition stew_text : string :=
  recipe_text "Family Stew" "beef, carrots"
    "Brown the beef, add carrots, simmer. This serves four people." "450 kcal".

Definition salad_text : string :=
  recipe_text "Big Salad" "lettuce, tomato"
    "Chop and toss. This serves 6 guests." "120 kcal".

Definition card_metadata (name rating : string) : gmap string pyval :=
  <["name" := PStr name]> (<["rating" := PStr rating]> ∅).

(** One answer of the collection: the documents and their metadata. *)
Definition answer_with (batch : list (string * gmap string pyval))
  : result query_result :=
  Ok {| qr_documents := Some [batch.*1]; qr_metadatas := Some [batch.*2] |}.

(** The batch that the loop of [search_recipes] walks through, when the
    answer of the collection has one. *)
Definition first_batch (r : result query_result)
  : option (list (string * gmap string pyval)) :=
  match r with
  | Ok {| qr_documents := Some (docs :: _);
          qr_metadatas := Some (metas :: _) |} => Some (zip docs metas)
  | _ => None
  end.

(** A collection that answers every query with the same batch. *)
Definition sample_collection (batch : list (string * gmap string pyval))
  : trace -> string -> nat -> result query_result :=
  fun _ _ _ => answer_with batch.

Definition sample_batch : list (string * gmap string pyval) :=
  [(burrito_text, card_metadata "Breakfast Burrito" "4.5");
   (stew_text, card_metadata "Family Stew" "4");
   (salad_text, card_metadata "Big Salad" "3.5")].

(** The card of a parsed document under a list of filters, when it can be
    built. *)
Definition card_of (doc : string) (md : gmap string pyval) (fl : list string)
  : list RecipeCard :=
  match make_card (_parse_recipe_document doc) md (Some fl) with
  | Ok card => [card]
  | Raise _ => []
  end.

(** ** Sample services *)

(** A chain and a model that are down. *)
Definition chain_down : trace -> string -> result chain_result :=
  fun _ _ => Raise (Exn ExternalError "503 service unavailable").

Definition llm_down : trace -> string -> result string :=
  fun _ _ => Raise (Exn ExternalError "503 service unavailable").

(** A chain that answers with two passages about different dishes. *)
Definition chain_up : trace -> string -> result chain_result :=
  fun _ _ =>
    Ok {| cr_answer := Some "Try a dal or a pho.";
          cr_source_documents := Some [sample_dal; sample_pho] |}.

(** A collection whose metadata lack the name of the recipe. *)
Definition nameless_collection : trace -> string -> nat -> result query_result :=
  sample_collection [(burrito_text, ∅)].

(** ** Notions of the claims on the filtered search *)



(** Eleven stews, each of which 'serves four': under a servings filter the
    conversion of 'four' raises for every one of them. *)
Definition stew_batch : list (string * gmap string pyval) :=
  map (fun i : nat => (stew_text, card_metadata ("Stew " +:+ pretty i) "4"))
      (seq 1 11).

(** A stew followed by a salad whose metadata were lost. *)
Definition lost_batch : list (string * gmap string pyval) :=
  [(stew_text, card_metadata "Family Stew" "4"); (salad_text, ∅)].

(** ** Further notions of the statements *)

(** The key under which [_process_sources] remembers a passage, and the
    entry it builds for it. *)
Definition source_key_of (doc : Document) : string :=
  Py.str (Py.get (metadata doc) "source" (PStr "Recipe Database"))
  +:+ "_" +:+ Py.str (Py.get (metadata doc) "recipe_name" (PStr "Unknown Recipe")).

Definition source_entry_of (doc : Document) : SourceEntry :=
  {| se_source := Py.get (metadata doc) "source" (PStr "Recipe Database");
     se_recipe_name :=
       Py.get (metadata doc) "recipe_name" (PStr "Unknown Recipe");
     se_content_preview :=
       if (150 <? String.length (page_content doc))%nat
       then PyStr.take_str 150 (page_content doc) +:+ "..."
       else page_content doc |}.

Definition entry_key (e : SourceEntry) : string :=
  Py.str (se_source e) +:+ "_" +:+ Py.str (se_recipe_name e).

(** The words that [_enhance_user_query] looks for, by keyword. *)
Definition time_words : list string :=
  ["quick"; "fast"; "easy"; "30 min"; "hour"].
Definition dietary_words : list string :=
  ["vegetarian"; "vegan"; "gluten-free"; "low-fat"].
Definition cuisine_words : list string :=
  ["italian"; "mexican"; "asian"; "indian"; "american"; "chinese"; "thai"].

(** The keywords that [_enhance_user_query] appends for a lower-cased
    query, in the order of its four tests. *)
Definition enhancements_of (query : string) : list string :=
  (if PyStr.any_in ingredient_words query then ["recipe ingredients"] else [])
  ++ (if PyStr.any_in time_words query then ["cooking time"] else [])
  ++ (if PyStr.any_in dietary_words query then ["dietary"] else [])
  ++ (if PyStr.any_in cuisine_words query then ["cuisine"] else []).

(** The calls to the model that [_format_response] makes for a list of
    recipes. *)
Definition description_calls (recipes : list RecipeInfo) : list event :=
  map (fun recipe => EvLLMInvoke (description_prompt recipe))
      (if (1 <? length recipes)%nat then take 3 recipes else []).

(** The dict that [_parse_recipe_document] holds after its loop over the
    sections. *)
Definition parse_sections (doc : string) : gmap string pyval :=
  fold_left parse_section (PyStr.split (nl +:+ nl) doc) ∅.

(** The short description made of the instructions. *)
Definition description_of (instructions : string) : string :=
  PyStr.join " " (take 20 (PyStr.split_ws instructions)) +:+ "...".

(** The three tests of the servings buckets on a number of servings. *)
Definition bucket_ok (fl : list string) (servings : Z) : bool :=
  negb (Py.in_list "servings-1-2" fl && (2 <? servings))
  && negb (Py.in_list "servings-3-4" fl && ((servings <? 3) || (4 <? servings)))
  && negb (Py.in_list "servings-5+" fl && (servings <? 5)).

(** The cards of the recipes of a batch that pass the filters, in the order
    of the batch. *)
Definition passing_cards
  (batch : list (string * gmap string pyval)) (fl : list string)
  (cooking_time : Z) : list RecipeCard :=
  flat_map
    (fun '(doc, md) =>
       if _apply_filters (_parse_recipe_document doc) (Some fl) cooking_time
       then card_of doc md fl else [])
    batch.

(** Metadata from which a card can be built. *)
Definition card_ready (md : gmap string pyval) : bool :=
  Py.has_key md "name" && Py.has_key md "rating".

(** ** Ingestion: [RecipeDocumentManager] of [chroma_embeding.py]

    A row of the recipe table is the list of its cells.  On a list the body
    of [format_recipe_text] cannot raise, so its [except] branch, which
    takes a value without a length, is outside the model. *)

(** [recipe_data[i] if len(recipe_data) > i else default] *)
Definition item_or (recipe_data : list pyval) (i : nat) (default : pyval)
  : pyval :=
  if (i <? length recipe_data)%nat then nth i recipe_data default else default.

(** [format_recipe_text] *)
Definition format_recipe_text (recipe_data : list pyval) : string :=
  let name := item_or recipe_data 1 (PStr "Unknown Recipe") in
  let ingredients := item_or recipe_data 7 (PStr "") in
  let instructions := item_or recipe_data 8 (PStr "") in
  let nutrition := item_or recipe_data 12 (PStr "") in
  PyStr.strip
    (nl +:+ "Recipe: " +:+ Py.str name +:+ nl +:+ nl
     +:+ "Ingredients:" +:+ nl +:+ Py.str ingredients +:+ nl +:+ nl
     +:+ "Instructions:" +:+ nl +:+ Py.str instructions +:+ nl +:+ nl
     +:+ "Nutrition Information:" +:+ nl +:+ Py.str nutrition +:+ nl).

(** The metadata that [add_recipe] stores with a recipe. *)
Definition recipe_metadata (recipe_data : list pyval) : gmap string pyval :=
  <["name" := item_or recipe_data 1 (PStr "Unknown")]>
    (<["rating" := item_or recipe_data 9 (PStr "0")]>
       (<["url" := item_or recipe_data 10 (PStr "")]>
          (<["category" := item_or recipe_data 11 (PStr "")]>
             (<["image_url" := item_or recipe_data 14 (PStr "")]> ∅)))).

Section Ingestion.

(** The collection, as far as [add_recipe] uses it: the ids it holds, and
    the addition of one document, which may raise and gives the collection
    after the call. *)
Variable Store : Type.
Variable collection_ids : Store -> result (list string).
Variable collection_add :
  Store -> string -> string -> gmap string pyval -> result unit * Store.

(** The body of the [try] of [add_recipe], with the collection after it. *)
Definition add_recipe_body
  (recipe_data : list pyval) (recipe_id : option string) (store : Store)
  : result bool * Store :=
  let recipe_text := format_recipe_text recipe_data in
  match
    match recipe_id with
    | Some recipe_id => Ok recipe_id
    | None =>
        (let* ids := collection_ids store in
         Ok ("recipe_" +:+ pretty (length ids)))%py
    end
  with
  | Raise e => (Raise e, store)
  | Ok recipe_id =>
      match collection_add store recipe_id recipe_text
              (recipe_metadata recipe_data) with
      | (Raise e, store') => (Raise e, store')
      | (Ok _, store') =>
          (* logger.info(f"Added recipe: {recipe_data[0]}") *)
          ((let* _ := Py.index recipe_data 0 in Ok true)%py, store')
      end
  end.

(** [add_recipe]: [False] on any error. *)
Definition add_recipe
  (recipe_data : list pyval) (recipe_id : option string) (store : Store)
  : bool * Store :=
  let '(r, store') := add_recipe_body recipe_data recipe_id store in
  (rcatch r (fun _ => false), store').

End Ingestion.

(** A passage as the retriever hands it over when the collection was
    filled by [add_recipe]: its metadata are those of some row. *)
Definition stored_passage (doc : Document) : Prop :=
  exists recipe_data : list pyval, metadata doc = recipe_metadata recipe_data.

(** Sample rows of the recipe table. *)
Definition sample_row : list pyval :=
  [PInt 0; PStr "Apple Pie"; PStr "30 mins"; PStr "1 hr"; PStr "1 hr 30 mins";
   PInt 8; PStr "1 pie"; PStr "8 apples, 1 crust";
   PStr "Slice the apples. Fill the crust. Bake. This serves 8 people.";
   PStr "4.8"; PStr "https://example.org/pie"; PStr "/Desserts/Pies/";
   PStr "Total Fat 19g"; PStr "Prep 30 mins"; PStr "https://example.org/pie.jpg"].

Definition sample_short_row : list pyval := [PInt 1; PStr "Toast"].

(** A cell holds no blank line and neither starts nor ends with a newline
    (so it is not empty): between two newlines it shows no double one. *)
Definition tidy (cell : string) : bool :=
  negb (PyStr.contains (nl +:+ nl) (nl +:+ cell +:+ nl)).

Definition sample_plain_row : list pyval :=
  [PInt 0; PStr "Apple Pie"; PStr "30 mins"; PStr "1 hr"; PStr "1 hr 30 mins";
   PInt 8; PStr "1 pie"; PStr "8 apples, 1 crust";
   PStr " Slice the apples. Fill the crust. Bake. ";
   PStr "4.8"; PStr "https://example.org/pie"; PStr "/Desserts/Pies/";
   PStr "Total Fat 19g"].

(** The one-line description that [_generate_recipe_description] falls back
    to. *)
Definition fallback_description (recipe : RecipeInfo) : string :=
  "A " +:+ Py.str (ri_cuisine recipe) +:+ " " +:+ Py.str (ri_category recipe)
  +:+ " that's " +:+ Py.str (ri_difficulty recipe) +:+ " difficult to prepare.".

(** Sample collections for [add_recipe]: the store is the list of what was
    added, most recent first. *)
Definition sample_store : Type := list (string * string * gmap string pyval).

Definition sample_ids (store : sample_store) : result (list string) :=
  Ok (map (fun entry => entry.1.1) store).

Definition sample_add (store : sample_store) (id text : string)
  (md : gmap string pyval) : result unit * sample_store :=
  (Ok tt, (id, text, md) :: store).

(** Two passages whose names are lists: one string that holds an
    apostrophe, and two strings. *)
Definition sample_quoted : Document :=
  mkDocument "One name with an apostrophe."
    (<["recipe_name" := PList ["a', 'b"]]> ∅).

Definition sample_pair : Document :=
  mkDocument "Two names." (<["recipe_name" := PList ["a"; "b"]]> ∅).


(** What [collection.get()] returns, as far as it is read: the ids, and the
    metadata of each document ([None] for a document stored without), as
    the list of its items in the order of insertion. *)
Record collection_data : Type := mkCollectionData {
  cd_ids : list string;
  cd_metadatas : option (list (option (list (string * pyval))))
}.

(** ** The module-level entry points of [chatbot.py]

    [_chatbot_instance] is a global that holds the one chatbot of the
    process once it has been built.  An instance is kept as the services
    its methods reach.  The collection and the memory may change between
    two calls that leave no event in the trace: what [collection.get()]
    gives and what [memory.clear()] does are given by the time of the
    call, counted in lines read from the console. *)
Record Chatbot : Type := mkChatbot {
  cb_chain_invoke : trace -> string -> result chain_result;
  cb_llm_invoke : trace -> string -> result string;
  cb_collection_query : trace -> string -> nat -> result query_result;
  cb_collection_get : nat -> result collection_data;
  cb_memory_clear : nat -> result unit
}.

(** The dict that [chatbot_response] returns from its [except]. *)
Definition fallback_response (e : exn) : Response :=
  {| resp_answer := "I apologize, but I encountered an error. Please try rephrasing your question.";
     resp_sources := [];
     resp_recipes := [];
     resp_suggestions :=
       ["Try a different recipe search"; "Ask about cooking tips";
        "Search by ingredient"];
     resp_error := Some (exn_msg e) |}.

Definition missing_key : exn :=
  Exn ValueError "GOOGLE_API_KEY environment variable is not set".

Section Singleton.

(** [RecipeChatbot(google_api_key)]: the constructor gives an instance or
    raises what [_initialize_components] raised. *)
Variable RecipeChatbot : string -> result Chatbot.

(** [get_chatbot_instance]; [env_key] is [os.getenv("GOOGLE_API_KEY")] and
    [instance] the global, given back as the call leaves it. *)
Definition get_chatbot_instance
  (env_key : option string) (instance : option Chatbot)
  : result Chatbot * option Chatbot :=
  match instance with
  | Some chatbot => (Ok chatbot, instance)
  | None =>
      match env_key with
      | None => (Raise missing_key, None)
      | Some google_api_key =>
          if PyStr.is_empty google_api_key then (Raise missing_key, None)
          else
            match RecipeChatbot google_api_key with
            | Ok chatbot => (Ok chatbot, Some chatbot)
            | Raise e => (Raise e, None)
            end
      end
  end.

(** [chatbot_response] *)
Definition chatbot_response
  (user_input : string) (env_key : option string)
  (instance : option Chatbot) (tr : trace)
  : Response * option Chatbot * trace :=
  match get_chatbot_instance env_key instance with
  | (Ok chatbot, instance') =>
      match get_response (cb_chain_invoke chatbot) (cb_llm_invoke chatbot)
              user_input tr with
      | (Ok response, tr') => (response, instance', tr')
      | (Raise e, tr') => (fallback_response e, instance', tr')
      end
  | (Raise e, instance') => (fallback_response e, instance', tr)
  end.

(** ** The endpoints of [app.py]

    A handler returns the body handed to [jsonify] and the HTTP status.
    The body of a request is what [request.get_json()] gave: [None], or a
    JSON object whose values are kept as [pyval]. *)

Inductive chat_body : Type :=
| ChatError (error : string)
| ChatReply (response : Response)
| ChatFailure (error answer : string).

Definition chat_failure : chat_body :=
  ChatFailure "Internal server error"
    "I'm sorry, I encountered an error while processing your request. Please try again.".

(** [chat]: the handler of [POST /chat].  [response.get(key, default)]
    finds its key in every dict that [chatbot_response] returns. *)
Definition chat
  (data : option (gmap string pyval)) (env_key : option string)
  (instance : option Chatbot) (tr : trace)
  : chat_body * Z * option Chatbot * trace :=
  match data with
  | None => (ChatError "No message provided", 400, instance, tr)
  | Some data =>
      if bool_decide (data = ∅) || negb (Py.has_key data "message")
      then (ChatError "No message provided", 400, instance, tr)
      else
        match (let* message := Py.getitem data "message" in
               Py.as_str "strip" message)%py with
        | Raise _ => (chat_failure, 500, instance, tr)
        | Ok message =>
            let user_input := PyStr.strip message in
            if PyStr.is_empty user_input
            then (ChatError "Empty message", 400, instance, tr)
            else
              let '(response, instance', tr') :=
                chatbot_response user_input env_key instance tr in
              (ChatReply response, 200, instance', tr')
        end
  end.

Inductive suggest_body : Type :=
| SuggestError (error : string)
| SuggestReply (suggestions : list RecipeInfo) (answer : string) (count : nat)
| SuggestFailure (error : string) (suggestions : list RecipeInfo).

(** The characters of a string, as iterating over it gives them. *)
Fixpoint chars (s : string) : list string :=
  match s with
  | EmptyString => []
  | String c s' => String c EmptyString :: chars s'
  end.

(** [sep.join(v)]: a list of strings is joined, a string is joined
    character by character, the other values are not iterable. *)
Definition join_value (sep : string) (v : pyval) : result string :=
  match v with
  | PList l => Ok (PyStr.join sep l)
  | PStr s => Ok (PyStr.join sep (chars s))
  | _ => Raise (Exn TypeError "can only join an iterable")
  end.

(** [suggest_by_ingredients]: the handler of [POST /suggest]. *)
Definition suggest_by_ingredients
  (data : option (gmap string pyval)) (env_key : option string)
  (instance : option Chatbot) (tr : trace)
  : suggest_body * Z * option Chatbot * trace :=
  match data with
  | None => (SuggestFailure "Suggestion failed" [], 500, instance, tr)
  | Some data =>
      let ingredients := Py.get data "ingredients" (PList []) in
      if negb (Py.truthy ingredients)
      then (SuggestError "No ingredients provided", 400, instance, tr)
      else
        match join_value ", " ingredients with
        | Raise _ => (SuggestFailure "Suggestion failed" [], 500, instance, tr)
        | Ok joined =>
            let ingredient_query := "recipes with " +:+ joined in
            let '(response, instance', tr') :=
              chatbot_response ingredient_query env_key instance tr in
            (SuggestReply (resp_recipes response) (resp_answer response)
               (length (resp_recipes response)),
             200, instance', tr')
        end
  end.

End Singleton.

(** The body of a request to [/search] whose fields, when given, have the
    types the handler expects: a string, [null] or a list of strings, an
    integer.  [None] is a key left out. *)
Record SearchRequest : Type := mkSearchRequest {
  sq_query : option string;
  sq_filters : option (option (list string));
  sq_cooking_time : option Z
}.

Inductive search_body : Type :=
| SearchReply (recipes : list RecipeCard)
| SearchFailure (error : string).

(** The statistics are a dict whose items [main] prints in their order: it
    is kept as the list of its items. *)
Definition stats_dict : Type := list (string * pyval).

(** [d.get(key, default)] *)
Definition dict_get (d : stats_dict) (key : string) (default : pyval) : pyval :=
  match List.find (fun item => String.eqb item.1 key) d with
  | Some item => item.2
  | None => default
  end.

(** [RecipeDocumentManager.get_collection_stats]; [got] is what
    [self.collection.get()] gives. *)
Definition dm_get_collection_stats (got : result collection_data)
  : stats_dict :=
  rcatch
    (let* collection_data := got in
     let total_recipes := Z.of_nat (length (cd_ids collection_data)) in
     let* metadata_fields :=
       match cd_metadatas collection_data with
       | Some (first :: _) =>
           match first with
           | Some md => Ok (map fst md)
           | None =>
               Raise (Exn AttributeError
                        "'NoneType' object has no attribute 'keys'")
           end
       | Some [] | None => Ok []
       end in
     Ok [("total_recipes", PInt total_recipes);
         ("metadata_fields", PList metadata_fields)])%py
    (fun e => [("error", PStr (exn_msg e))]).

(** [RecipeChatbot.get_collection_stats] *)
Definition get_collection_stats (got : result collection_data) : stats_dict :=
  rcatch (Ok (dm_get_collection_stats got))
         (fun e => [("error", PStr (exn_msg e))]).

(** [RecipeChatbot.clear_memory]; [cleared] is what [self.memory.clear()]
    does. *)
Definition clear_memory (cleared : result unit) : bool :=
  rcatch (let* _ := cleared in Ok true)%py (fun _ => false).

(** The options that [get_available_filters] sends. *)
Record FilterOptions : Type := mkFilterOptions {
  fo_cuisine_types : list string;
  fo_categories : list string;
  fo_difficulty_levels : list string;
  fo_dietary_options : list string;
  fo_time_ranges : list (string * Z)
}.

Inductive filters_body : Type :=
| FiltersReply (options : FilterOptions)
| FiltersFailure (error : string).

(** [list(stats.get(key, {}).keys())]: no value of the stats is a dict. *)
Definition keys_of_entry (stats : stats_dict) (key : string)
  : result (list string) :=
  match List.find (fun item => String.eqb item.1 key) stats with
  | None => Ok []
  | Some item =>
      Raise (Exn AttributeError
               (Py.repr_str (Py.type_name item.2)
                +:+ " object has no attribute 'keys'"))
  end.

Section App.

(** The chatbot that [app.py] builds when it is loaded: its collection,
    what [collection.get()] gives and what [memory.clear()] does. *)
Variable collection_query : trace -> string -> nat -> result query_result.
Variable got : result collection_data.
Variable cleared : result unit.

(** [search]: the handler of [POST /search]. *)
Definition search (data : option SearchRequest) (tr : trace)
  : search_body * Z * trace :=
  match data with
  | None =>
      (SearchFailure "'NoneType' object has no attribute 'get'", 500, tr)
  | Some data =>
      let query := default "" (sq_query data) in
      let filters := default (Some []) (sq_filters data) in
      let cooking_time := default 30 (sq_cooking_time data) in
      match search_recipes collection_query query filters cooking_time tr with
      | (Ok results, tr') => (SearchReply results, 200, tr')
      | (Raise e, tr') => (SearchFailure (exn_msg e), 500, tr')
      end
  end.

(** [clear_conversation]: the handler of [POST /clear]. *)
Definition clear_conversation : gmap string pyval * Z :=
  rcatch
    (let* _ := Ok (clear_memory cleared) in
     Ok (<["status" := PStr "Memory cleared successfully"]> ∅, 200))%py
    (fun _ => (<["error" := PStr "Failed to clear memory"]> ∅, 500)).

(** [get_stats]: the handler of [GET /stats]. *)
Definition get_stats : stats_dict * Z :=
  rcatch (let* stats := Ok (get_collection_stats got) in Ok (stats, 200))%py
         (fun e => ([("error", PStr (exn_msg e))], 500)).

(** [health_check]: the handler of [GET /health]. *)
Definition health_check : gmap string pyval * Z :=
  rcatch
    (let* stats := Ok (get_collection_stats got) in
     Ok (<["status" := PStr "healthy"]>
           (<["database_status" := PStr "connected"]>
              (<["recipe_count" := dict_get stats "total_recipes" (PInt 0)]>
                 (<["timestamp" := PStr "2024-01-01"]> ∅))),
         200))%py
    (fun e =>
       (<["status" := PStr "unhealthy"]> (<["error" := PStr (exn_msg e)]> ∅),
        500)).

(** [get_available_filters]: the handler of [GET /filters]. *)
Definition get_available_filters : filters_body * Z :=
  rcatch
    (let* stats := Ok (get_collection_stats got) in
     let* cuisine_types := keys_of_entry stats "cuisine_types" in
     let* categories := keys_of_entry stats "categories" in
     Ok (FiltersReply
           {| fo_cuisine_types := cuisine_types;
              fo_categories := categories;
              fo_difficulty_levels := ["Easy"; "Medium"; "Hard"];
              fo_dietary_options :=
                ["vegetarian-friendly"; "dairy-free-option";
                 "gluten-free-option"; "low-fat"; "low-sodium"; "high-fiber"];
              fo_time_ranges :=
                [("Quick (under 30 min)", 30); ("Medium (30-60 min)", 60);
                 ("Long (1-2 hours)", 120); ("Extended (2+ hours)", 240)] |},
         200))%py
    (fun _ => (FiltersFailure "Failed to get filter options", 500)).

End App.

(** Sample states of the collection: one that cannot be reached, and one
    whose first document was stored without metadata. *)
Definition collection_unreachable : result collection_data :=
  Raise (Exn ExternalError "database is locked").

Definition collection_bare : result collection_data :=
  Ok {| cd_ids := ["recipe_0"; "recipe_1"];
        cd_metadatas := Some [None; Some [("name", PStr "Dal")]] |}.

Definition collection_filled : result collection_data :=
  Ok {| cd_ids := ["recipe_0"; "recipe_1"];
        cd_metadatas :=
          Some [Some [("name", PStr "Dal"); ("rating", PStr "4.5")];
                Some [("name", PStr "Pho"); ("rating", PStr "4")]] |}.

(** Sample instances: a chatbot whose chain answers and whose model is
    down, and a constructor that accepts one key. *)
Definition sample_chatbot : Chatbot :=
  mkChatbot chain_up llm_down (sample_collection sample_batch)
    (fun _ => collection_filled) (fun _ => Ok tt).

Definition sample_constructor (key : string) : result Chatbot :=
  if String.eqb key "valid-key" then Ok sample_chatbot
  else Raise (Exn ExternalError "API key not valid").

Definition sample_suggest_data : gmap string pyval :=
  <["ingredients" := PList ["eggs"; "rice"]]> ∅.


(** ** The console session: [main] of [chatbot.py]

    The session reads the lines of the console in turn; at the end of the
    input [input] raises [EOFError].  What is written is kept as the list
    of the calls to [print] and of the prompts of [input]; an interrupt
    from the keyboard is outside the model. *)
Inductive output : Type :=
| Printed (text : string)
| Prompted (text : string).

Definition you_prompt : output := Prompted "🧑‍🍳 You: ".

Definition error_line (e : exn) : output :=
  Printed ("❌ An error occurred: " +:+ exn_msg e).

Definition end_of_input : exn := Exn ExternalError "EOF when reading a line".

Definition goodbye : output :=
  Printed "👋 Happy cooking! Come back anytime for more recipe ideas!".

(** The lines printed for a response. *)
Definition print_response (response : Response) : list output :=
  [Printed (nl +:+ "🤖 Assistant: " +:+ resp_answer response)]
  ++ match resp_suggestions response with
     | [] => []
     | suggestions =>
         Printed (nl +:+ "💡 Try asking:")
         :: imap (fun i suggestion =>
                    Printed ("  " +:+ pretty (S i) +:+ ". " +:+ suggestion))
              suggestions
     end
  ++ [Printed ""].

(** The lines printed for the command 'stats'. *)
Definition print_stats (stats : stats_dict) : list output :=
  [Printed (nl +:+ "📊 Database Stats:")]
  ++ map (fun item => Printed ("  " +:+ item.1 +:+ ": " +:+ Py.str item.2))
       (List.filter (fun item => negb (String.eqb item.1 "error")) stats)
  ++ [Printed ""].

(** [if stats.get('categories'): print(...', '.join(stats['categories'][:5]))] *)
Definition categories_line (stats : stats_dict) : result (list output) :=
  let categories := dict_get stats "categories" PNone in
  if Py.truthy categories then
    (let* shown :=
       match categories with
       | PList l => Ok (PyStr.join ", " (take 5 l))
       | PStr s => Ok (PyStr.join ", " (chars (PyStr.take_str 5 s)))
       | _ =>
           Raise (Exn TypeError
                    (Py.repr_str (Py.type_name categories)
                     +:+ " object is not subscriptable"))
       end in
     Ok [Printed ("📁 Categories: " +:+ shown)])%py
  else Ok [].

Definition banner : list output :=
  [Printed (nl +:+ "🤖 Recipe Assistant ready! I can help you with:");
   Printed "  • Recipe suggestions based on ingredients you have";
   Printed "  • Cooking tips and techniques";
   Printed "  • Dietary restriction accommodations";
   Printed "  • Time-based meal planning";
   Printed (nl +:+ "Type 'quit' to exit, 'clear' to reset conversation, or 'stats' for database info." +:+ nl)].

(** The [while True] loop of [main], from the state in which [now] lines
    have been read, with the [except Exception] that ends it. *)
Fixpoint main_loop
  (chatbot : Chatbot) (lines : list string) (now : nat) (tr : trace)
  : list output * trace :=
  match lines with
  | [] => ([you_prompt; error_line end_of_input], tr)
  | line :: rest =>
      let user_input := PyStr.strip line in
      let now := S now in
      if Py.in_list (PyStr.lower user_input) ["quit"; "exit"; "q"]
      then ([you_prompt; goodbye], tr)
      else if String.eqb (PyStr.lower user_input) "clear" then
        let _ := clear_memory (cb_memory_clear chatbot now) in
        let '(out, tr') := main_loop chatbot rest now tr in
        (you_prompt
         :: Printed "🧹 Conversation cleared! What would you like to cook today?"
         :: out, tr')
      else if String.eqb (PyStr.lower user_input) "stats" then
        let stats := get_collection_stats (cb_collection_get chatbot now) in
        let '(out, tr') := main_loop chatbot rest now tr in
        (you_prompt :: print_stats stats ++ out, tr')
      else if PyStr.is_empty user_input then
        let '(out, tr') := main_loop chatbot rest now tr in
        (you_prompt :: out, tr')
      else
        match get_response (cb_chain_invoke chatbot) (cb_llm_invoke chatbot)
                user_input tr with
        | (Raise e, tr1) => ([you_prompt; error_line e], tr1)
        | (Ok response, tr1) =>
            let '(out, tr') := main_loop chatbot rest now tr1 in
            (you_prompt :: print_response response ++ out, tr')
        end
  end.

Section Main.

Variable RecipeChatbot : string -> result Chatbot.

(** [main]; [env_key] is [os.getenv("GOOGLE_API_KEY")] and [lines] the
    lines typed at the console. *)
Definition main (env_key : option string) (lines : list string)
  : list output * trace :=
  let no_key :=
    ([Printed "Error: GOOGLE_API_KEY environment variable is not set"], []) in
  match env_key with
  | None => no_key
  | Some google_api_key =>
      if PyStr.is_empty google_api_key then no_key
      else
        let out := [Printed "🍳 Initializing Enhanced Recipe Chatbot..."] in
        match RecipeChatbot google_api_key with
        | Raise e => (out ++ [error_line e], [])
        | Ok chatbot =>
            let stats := get_collection_stats (cb_collection_get chatbot 0) in
            let out :=
              out ++ [Printed ("📊 Recipe Database: "
                             +:+ Py.str (dict_get stats "total_recipes" (PInt 0))
                             +:+ " recipes loaded")] in
            match categories_line stats with
            | Raise e => (out ++ [error_line e], [])
            | Ok shown =>
                let '(session, tr) := main_loop chatbot lines 0 [] in
                (out ++ shown ++ banner ++ session, tr)
            end
        end
  end.

End Main.

(** The commands of the console, as the loop tells them apart. *)
Definition is_quit (line : string) : bool :=
  Py.in_list (PyStr.lower (PyStr.strip line)) ["quit"; "exit"; "q"].

Definition is_command (line : string) : bool :=
  String.eqb (PyStr.lower (PyStr.strip line)) "clear"
  || String.eqb (PyStr.lower (PyStr.strip line)) "stats".

(** The lines of a session before the first one that quits. *)
Fixpoint before_quit (lines : list string) : list string :=
  match lines with
  | [] => []
  | line :: rest => if is_quit line then [] else line :: before_quit rest
  end.

(** The questions of a session: its lines before the first that quits,
    without the commands and the blank lines. *)
Definition questions (lines : list string) : list string :=
  List.filter (fun line => negb (is_command line || all_space line))
    (before_quit lines).

Definition sample_session : list string :=
  ["  "; "STATS"; "any soup for a cold day?"; " Clear "; "what can I make with eggs";
   " Quit "; "never read"].

(** * Properties *)

(** ** The builtins on sample inputs *)

Example split_demo :
  PyStr.split "ab" "xabyabab" = ["x"; "y"; ""; ""]
  /\ PyStr.split "aa" "aaa" = [""; "a"]
  /\ PyStr.split "serves" "no such word" = ["no such word"]
  /\ PyStr.replace "Ingredients:" "" "Ingredients:
2 eggs" = "
2 eggs"
  /\ PyStr.split_ws "  a  bc
d " = ["a"; "bc"; "d"]
  /\ PyStr.strip "  a b
 " = "a b"
  /\ PyStr.lower "Have GOT" = "have got".
Proof. repeat split; reflexivity. Qed.

Example parse_int_demo :
  PyStr.parse_int " 42 " = Some 42
  /\ PyStr.parse_int "-7" = Some (-7)
  /\ PyStr.parse_int "1_000" = Some 1000
  /\ PyStr.parse_int "1__0" = None
  /\ PyStr.parse_int "four" = None
  /\ PyStr.parse_int "" = None
  /\ PyStr.parse_int "4-6" = None.
Proof. repeat split; reflexivity. Qed.

(** The unit separator U+001F is white space for [strip], not for [int];
    the no-break space U+00A0 is white space for both. *)
Example int_space_demo :
  PyStr.strip (String (ascii_of_N 31) "45") = "45"
  /\ PyStr.parse_int (String (ascii_of_N 31) "45") = None
  /\ PyStr.parse_int (String (ascii_of_N 160) "45") = Some 45
  /\ PyStr.parse_int " +4_5 " = Some 45.
Proof. repeat split; reflexivity. Qed.

Example py_values_demo :
  Py.eqb (PBool true) (PInt 1) = true
  /\ Py.str (PInt (-12)) = "-12"
  /\ Py.str (PList ["a"; "b"]) = "['a', 'b']"
  /\ Py.int (PStr "6 people") = Raise (Exn ValueError "invalid literal for int() with base 10: '6 people'")
  /\ Py.truthy (PStr "") = false.
Proof. repeat split; reflexivity. Qed.

Example enhance_demo :
  _enhance_user_query "I HAVE eggs, something quick and Italian"
  = "I HAVE eggs, something quick and Italian recipe ingredients cooking time cuisine"
  /\ _enhance_user_query "pancakes" = "pancakes".
Proof. split; reflexivity. Qed.

(** ** String facts *)

Lemma tails_tail a q p : In (String a q) (tails p) -> In q (tails p).
Proof.
  induction p as [|c p IH]; simpl.
  - intros [H | []]. discriminate.
  - intros [H | H].
    + injection H as _ ->. right. destruct q; simpl; auto.
    + right. apply IH. exact H.
Qed.

(** No occurrence of the phrase straddles the point where the enhancements
    are appended. *)
Lemma startswith_tail_app q rest s :
  In q (tails phrase) ->
  PyStr.startswith q (s +:+ " recipe ingredients" +:+ rest)
  = PyStr.startswith q s.
Proof.
  revert q. induction s as [|c s IH]; intros q Hq.
  - simpl in Hq.
    repeat (destruct Hq as [<- | Hq]; [reflexivity |]). destruct Hq.
  - destruct q as [|a q]; [reflexivity |].
    simpl. f_equal. apply IH. eapply tails_tail. exact Hq.
Qed.

Lemma occurrences_app rest s :
  PyStr.occurrences phrase (s +:+ " recipe ingredients" +:+ rest)
  = (PyStr.occurrences phrase s
     + PyStr.occurrences phrase (" recipe ingredients" +:+ rest))%nat.
Proof.
  induction s as [|c s IH].
  - reflexivity.
  - change (PyStr.occurrences phrase (String c s +:+ " recipe ingredients" +:+ rest))
      with ((if PyStr.startswith phrase (String c s +:+ " recipe ingredients" +:+ rest)
             then 1 else 0)
            + PyStr.occurrences phrase (s +:+ " recipe ingredients" +:+ rest))%nat.
    rewrite startswith_tail_app by (simpl; auto).
    rewrite IH.
    change (PyStr.occurrences phrase (String c s))
      with ((if PyStr.startswith phrase (String c s) then 1 else 0)
            + PyStr.occurrences phrase s)%nat.
    lia.
Qed.

Lemma startswith_inv p t :
  PyStr.startswith p t = true -> exists rest, t = p +:+ rest.
Proof.
  revert t. induction p as [|a p IH]; intros t H.
  - exists t. reflexivity.
  - destruct t as [|b t]; [discriminate |]. simpl in H.
    apply andb_prop in H as [Hab Hp]. apply Ascii.eqb_eq in Hab as ->.
    destruct (IH t Hp) as [rest ->]. exists rest. reflexivity.
Qed.

Lemma occurrences_appended t s :
  PyStr.startswith " recipe ingredients" t = true ->
  PyStr.occurrences phrase (s +:+ t)
  = (PyStr.occurrences phrase s + PyStr.occurrences phrase t)%nat.
Proof.
  intros H. destruct (startswith_inv _ _ H) as [rest ->].
  apply occurrences_app.
Qed.

Lemma startswith_app s t : PyStr.startswith s (s +:+ t) = true.
Proof.
  induction s as [|c s IH]; simpl; [reflexivity |].
  rewrite Ascii.eqb_refl. exact IH.
Qed.

(** ** Follow-up suggestions *)

(** C4. Whatever the user input and the extracted recipes, and whichever
    branch builds them (ingredient intent, quick/fast/easy, several recipes,
    or none of these), [_generate_follow_up_suggestions] returns exactly
    three suggestions. *)
Theorem suggestions_length_three (user_input : string) (recipes : list RecipeInfo) :
  length (_generate_follow_up_suggestions user_input recipes) = 3%nat.
Proof.
  unfold _generate_follow_up_suggestions.
  destruct (PyStr.contains "ingredient" (PyStr.lower user_input)
            || PyStr.contains "have" (PyStr.lower user_input)); [reflexivity |].
  destruct (PyStr.any_in ["quick"; "fast"; "easy"] (PyStr.lower user_input));
    [reflexivity |].
  destruct recipes as [|first [|second rest]]; reflexivity.
Qed.

(** The four branches, each on an input that takes it. *)
Example suggestions_branches :
  _generate_follow_up_suggestions "What can I make? I HAVE rice" []
  = ["Show me the full recipe for the first suggestion";
     "What can I substitute if I'm missing an ingredient?";
     "How long will this take to prepare?"]
  /\ _generate_follow_up_suggestions "something fast" []
     = ["Show me recipes under 30 minutes";
        "What are some meal prep options?";
        "Give me beginner-friendly recipes"]
  /\ _generate_follow_up_suggestions "soup"
       [recipe_info_of (mkDocument "a" {["recipe_name" := PStr "Dal"]});
        recipe_info_of (mkDocument "b" {["recipe_name" := PStr "Pho"]})]
     = ["Tell me more about Dal";
        "Compare the difficulty of these recipes";
        "Which recipe has the highest rating?"]
  /\ _generate_follow_up_suggestions "soup" []
     = ["Show me ingredients and instructions";
        "What cuisine type would you recommend?";
        "Give me cooking tips for beginners"].
Proof. repeat split; reflexivity. Qed.

(** ** Query enhancement *)

(** C6, as stated: with an ingredient-intent word in the input, the
    enhanced query would start with the input and hold the phrase
    "recipe ingredients" exactly once.  It fails on an input that already
    holds the phrase: the phrase is then in the query twice. *)
Lemma enhance_phrase_not_once :
  ~ (forall user_input : string,
       PyStr.any_in ingredient_words (PyStr.lower user_input) = true ->
       PyStr.startswith user_input (_enhance_user_query user_input) = true
       /\ PyStr.occurrences "recipe ingredients" (_enhance_user_query user_input)
          = 1%nat).
Proof.
  intros H.
  destruct (H "I have recipe ingredients" eq_refl) as [_ Hocc].
  vm_compute in Hocc. discriminate.
Qed.

Example enhance_phrase_twice :
  _enhance_user_query "I have recipe ingredients"
  = "I have recipe ingredients recipe ingredients".
Proof. reflexivity. Qed.

(** C6, amended.  With an ingredient-intent word in the lower-cased input,
    the enhanced query is the input, one space and the appended keywords;
    the appended part starts with "recipe ingredients" and holds it exactly
    once, however many ingredient words the input has; the whole query
    holds the phrase once more than the input does. *)
Theorem enhance_ingredient_intent (user_input : string) :
  PyStr.any_in ingredient_words (PyStr.lower user_input) = true ->
  exists appended : string,
    _enhance_user_query user_input = user_input +:+ " " +:+ appended
    /\ PyStr.startswith user_input (_enhance_user_query user_input) = true
    /\ PyStr.startswith "recipe ingredients" appended = true
    /\ PyStr.occurrences "recipe ingredients" appended = 1%nat
    /\ PyStr.occurrences "recipe ingredients" (_enhance_user_query user_input)
       = (PyStr.occurrences "recipe ingredients" user_input + 1)%nat.
Proof.
  intros Hw. unfold ingredient_words in Hw.
  cbv beta zeta delta [_enhance_user_query]. rewrite Hw. clear Hw.
  destruct (PyStr.any_in ["quick"; "fast"; "easy"; "30 min"; "hour"] _);
  destruct (PyStr.any_in ["vegetarian"; "vegan"; "gluten-free"; "low-fat"] _);
  destruct (PyStr.any_in _ _);
  cbn [app PyStr.join];
  (eexists; split; [reflexivity |];
   split; [apply startswith_app |];
   split; [reflexivity |];
   split; [reflexivity |];
   etransitivity; [apply occurrences_appended |]; reflexivity).
Qed.

Lemma enhance_ingredient_intent_witness :
  PyStr.any_in ingredient_words (PyStr.lower "I HAVE eggs, what goes with them?") = true
  /\ exists appended : string,
       _enhance_user_query "I HAVE eggs, what goes with them?"
       = "I HAVE eggs, what goes with them?" +:+ " " +:+ appended
       /\ PyStr.startswith "I HAVE eggs, what goes with them?"
            (_enhance_user_query "I HAVE eggs, what goes with them?") = true
       /\ PyStr.startswith "recipe ingredients" appended = true
       /\ PyStr.occurrences "recipe ingredients" appended = 1%nat
       /\ PyStr.occurrences "recipe ingredients"
            (_enhance_user_query "I HAVE eggs, what goes with them?")
          = (PyStr.occurrences "recipe ingredients"
               "I HAVE eggs, what goes with them?" + 1)%nat.
Proof.
  split; [reflexivity |].
  apply (enhance_ingredient_intent "I HAVE eggs, what goes with them?").
  reflexivity.
Defined.

(** ** Recipe extraction *)

Lemma eqb_norm a b : Py.eqb a b = true <-> norm a = norm b.
Proof.
  destruct a as [|[]|n|s|l], b as [|[]|m|t|k]; cbn [Py.eqb norm Bool.eqb];
    rewrite ?Z.eqb_eq, ?String.eqb_eq, ?bool_decide_eq_true;
    split; intros H; try reflexivity; try discriminate; try congruence.
Qed.

Lemma eqb_refl v : Py.eqb v v = true.
Proof. apply eqb_norm. reflexivity. Qed.

Lemma eqb_sym a b : Py.eqb a b = Py.eqb b a.
Proof.
  destruct (Py.eqb a b) eqn:Hab, (Py.eqb b a) eqn:Hba; try reflexivity.
  - apply eqb_norm in Hab. symmetry in Hab. apply eqb_norm in Hab. congruence.
  - apply eqb_norm in Hba. symmetry in Hba. apply eqb_norm in Hba. congruence.
Qed.

Lemma eqb_trans a b c :
  Py.eqb a b = true -> Py.eqb b c = true -> Py.eqb a c = true.
Proof. rewrite !eqb_norm. congruence. Qed.

Lemma eqb_str v s : Py.eqb v (PStr s) = true <-> v = PStr s.
Proof.
  destruct v as [|[]|n|t|l]; cbn [Py.eqb]; rewrite ?String.eqb_eq;
    split; intros H; try discriminate; congruence.
Qed.

Lemma seen_mem_app v seen x :
  seen_mem v (seen ++ [x]) = seen_mem v seen || Py.eqb v x.
Proof. unfold seen_mem. rewrite existsb_app. simpl. rewrite orb_false_r. reflexivity. Qed.

Lemma seen_mem_eqb v w seen :
  Py.eqb v w = true -> seen_mem w seen = true -> seen_mem v seen = true.
Proof.
  unfold seen_mem. intros Hvw Hw. apply existsb_exists in Hw as [x [Hx Hwx]].
  apply existsb_exists. exists x. split; [exact Hx |].
  eapply eqb_trans; eassumption.
Qed.

(** The three ways one passage can go through the loop body. *)
Lemma extract_loop_cons doc rest seen :
  let name := recipe_name_of (metadata doc) in
  (Py.hashable name = false
   /\ extract_loop (doc :: rest) seen = extract_loop rest seen)
  \/ (Py.hashable name = true /\ seen_mem name seen = true
      /\ extract_loop (doc :: rest) seen = extract_loop rest seen)
  \/ (Py.hashable name = true /\ seen_mem name seen = false
      /\ extract_loop (doc :: rest) seen
         = recipe_info_of doc :: extract_loop rest (seen ++ [name])).
Proof.
  simpl. unfold extract_body.
  destruct (Py.hashable (recipe_name_of (metadata doc))); simpl.
  - destruct (seen_mem (recipe_name_of (metadata doc)) seen); auto.
  - auto.
Qed.

Lemma hashable_eqb_false v w :
  Py.hashable v = true -> Py.hashable w = false -> Py.eqb v w = false.
Proof. destruct v, w; simpl; congruence. Qed.

(** Every record produced comes from a passage with a hashable name that
    was not seen before and that no earlier passage of the list bears. *)
Lemma extract_loop_origin docs seen info :
  In info (extract_loop docs seen) ->
  exists (i : nat) (doc : Document),
    docs !! i = Some doc /\ info = recipe_info_of doc
    /\ Py.hashable (recipe_name_of (metadata doc)) = true
    /\ seen_mem (recipe_name_of (metadata doc)) seen = false
    /\ forall (j : nat) (doc' : Document),
         (j < i)%nat -> docs !! j = Some doc' ->
         Py.eqb (recipe_name_of (metadata doc))
                (recipe_name_of (metadata doc')) = false.
Proof.
  revert seen. induction docs as [|d rest IH]; intros seen Hin; [destruct Hin |].
  destruct (extract_loop_cons d rest seen)
    as [[Hh Heq] | [[Hh [Hs Heq]] | [Hh [Hs Heq]]]]; rewrite Heq in Hin.
  - destruct (IH _ Hin) as (i & doc & Hi & -> & Hhd & Hsd & Hfirst).
    exists (S i), doc. repeat split; try assumption.
    intros [|j] doc' Hj Hl; simpl in Hl.
    + injection Hl as <-. apply hashable_eqb_false; assumption.
    + apply (Hfirst j); [lia | exact Hl].
  - destruct (IH _ Hin) as (i & doc & Hi & -> & Hhd & Hsd & Hfirst).
    exists (S i), doc. repeat split; try assumption.
    intros [|j] doc' Hj Hl; simpl in Hl.
    + injection Hl as <-.
      destruct (Py.eqb _ _) eqn:He; [| reflexivity].
      rewrite (seen_mem_eqb _ _ _ He Hs) in Hsd. discriminate.
    + apply (Hfirst j); [lia | exact Hl].
  - destruct Hin as [<- | Hin].
    + exists 0%nat, d. repeat split; try assumption. intros j doc' Hj. lia.
    + destruct (IH _ Hin) as (i & doc & Hi & -> & Hhd & Hsd & Hfirst).
      rewrite seen_mem_app in Hsd. apply orb_false_elim in Hsd as [Hsd Hne].
      exists (S i), doc. repeat split; try assumption.
      intros [|j] doc' Hj Hl; simpl in Hl.
      * injection Hl as <-. exact Hne.
      * apply (Hfirst j); [lia | exact Hl].
Qed.

(** Conversely, the first passage bearing a hashable, unseen name is kept. *)
Lemma extract_loop_keeps docs seen i doc :
  docs !! i = Some doc ->
  Py.hashable (recipe_name_of (metadata doc)) = true ->
  seen_mem (recipe_name_of (metadata doc)) seen = false ->
  (forall (j : nat) (doc' : Document),
     (j < i)%nat -> docs !! j = Some doc' ->
     Py.eqb (recipe_name_of (metadata doc))
            (recipe_name_of (metadata doc')) = false) ->
  In (recipe_info_of doc) (extract_loop docs seen).
Proof.
  revert seen i. induction docs as [|d rest IH]; intros seen i Hi Hh Hs Hfirst;
    [discriminate |].
  destruct i as [|i]; simpl in Hi.
  - injection Hi as ->.
    destruct (extract_loop_cons doc rest seen)
      as [[Hh' _] | [[_ [Hs' _]] | [_ [_ Heq]]]]; try congruence.
    rewrite Heq. left. reflexivity.
  - assert (Hne : Py.eqb (recipe_name_of (metadata doc))
                         (recipe_name_of (metadata d)) = false)
      by (apply (Hfirst 0%nat); [lia | reflexivity]).
    assert (Hrest : forall (j : nat) (doc' : Document),
               (j < i)%nat -> rest !! j = Some doc' ->
               Py.eqb (recipe_name_of (metadata doc))
                      (recipe_name_of (metadata doc')) = false)
      by (intros j doc' Hj Hl; apply (Hfirst (S j)); [lia | exact Hl]).
    destruct (extract_loop_cons d rest seen)
      as [[_ Heq] | [[_ [_ Heq]] | [_ [_ Heq]]]]; rewrite Heq.
    + eapply IH; eassumption.
    + eapply IH; eassumption.
    + right. eapply IH; try eassumption.
      rewrite seen_mem_app, Hs, Hne. reflexivity.
Qed.

Lemma extract_loop_distinct docs seen : names_distinct (extract_loop docs seen).
Proof.
  revert seen. induction docs as [|d rest IH]; intros seen; [exact I |].
  destruct (extract_loop_cons d rest seen)
    as [[_ Heq] | [[_ [_ Heq]] | [_ [_ Heq]]]]; rewrite Heq; try apply IH.
  split; [| apply IH].
  intros b Hb. apply extract_loop_origin in Hb
    as (i & doc & _ & -> & _ & Hs & _).
  rewrite seen_mem_app in Hs. apply orb_false_elim in Hs as [_ Hne].
  exact Hne.
Qed.

Lemma names_distinct_lookup l i j a b :
  names_distinct l -> i <> j -> l !! i = Some a -> l !! j = Some b ->
  Py.eqb (ri_name a) (ri_name b) = false.
Proof.
  revert i j. induction l as [|x l IH]; intros i j Hd Hij Hi Hj; [discriminate |].
  destruct Hd as [Hx Hd].
  destruct i as [|i], j as [|j]; simpl in Hi, Hj; try congruence.
  - injection Hi as ->. rewrite eqb_sym. apply Hx.
    apply list_elem_of_In. eapply list_elem_of_lookup_2. exact Hj.
  - injection Hj as ->. apply Hx.
    apply list_elem_of_In. eapply list_elem_of_lookup_2. exact Hi.
  - apply (IH i j); auto.
Qed.

Lemma names_distinct_count l x :
  names_distinct l -> In x l ->
  length (List.filter (fun b => Py.eqb (ri_name b) (ri_name x)) l) = 1%nat.
Proof.
  induction l as [|a l IH]; intros Hd Hin; [destruct Hin |].
  destruct Hd as [Ha Hd]. simpl.
  destruct Hin as [-> | Hin].
  - rewrite eqb_refl. simpl. f_equal.
    assert (Hnone : forall y, In y l -> Py.eqb (ri_name y) (ri_name x) = false)
      by exact Ha.
    clear -Hnone. induction l as [|y l IHl]; [reflexivity |].
    simpl. rewrite (Hnone y) by (left; reflexivity).
    apply IHl. intros z Hz. apply Hnone. right. exact Hz.
  - rewrite eqb_sym, (Ha x Hin). apply IH; assumption.
Qed.

Lemma extract_loop_length docs seen :
  (length (extract_loop docs seen) <= length docs)%nat.
Proof.
  revert seen. induction docs as [|d rest IH]; intros seen; [reflexivity |].
  destruct (extract_loop_cons d rest seen)
    as [[_ Heq] | [[_ [_ Heq]] | [_ [_ Heq]]]]; rewrite Heq; simpl;
    [specialize (IH seen) | specialize (IH seen)
     | specialize (IH (seen ++ [recipe_name_of (metadata d)]))]; lia.
Qed.

(** Passages whose name cannot be hashed leave no mark on the loop. *)
Lemma extract_loop_skips docs seen :
  extract_loop docs seen
  = extract_loop
      (List.filter (fun d => Py.hashable (recipe_name_of (metadata d))) docs)
      seen.
Proof.
  revert seen. induction docs as [|d rest IH]; intros seen; [reflexivity |].
  cbn [List.filter].
  destruct (extract_loop_cons d rest seen)
    as [[Hh Heq] | [[Hh [Hs Heq]] | [Hh [Hs Heq]]]]; rewrite Heq, Hh.
  - apply IH.
  - destruct (extract_loop_cons d
                (List.filter (fun d => Py.hashable (recipe_name_of (metadata d))) rest)
                seen)
      as [[Hh' _] | [[_ [_ Heq']] | [_ [Hs' _]]]];
      first [congruence | rewrite Heq'; apply IH].
  - destruct (extract_loop_cons d
                (List.filter (fun d => Py.hashable (recipe_name_of (metadata d))) rest)
                seen)
      as [[Hh' _] | [[_ [Hs' _]] | [_ [_ Heq']]]];
      first [congruence | rewrite Heq'; f_equal; apply IH].
Qed.

(** The records come in the order of the passages. *)
Lemma extract_loop_sublist docs seen :
  sublist (extract_loop docs seen) (recipe_info_of <$> docs).
Proof.
  revert seen. induction docs as [|d rest IH]; intros seen; [constructor |].
  rewrite fmap_cons.
  destruct (extract_loop_cons d rest seen)
    as [[_ Heq] | [[_ [_ Heq]] | [_ [_ Heq]]]]; rewrite Heq.
  - apply sublist_cons, IH.
  - apply sublist_cons, IH.
  - apply sublist_skip, IH.
Qed.

(** Among the passages up to a given one, the first that bears its name. *)
Lemma first_bearer (docs : list Document) (i : nat) (doc : Document) :
  docs !! i = Some doc ->
  exists (k : nat) (first : Document),
    (k <= i)%nat /\ docs !! k = Some first
    /\ Py.eqb (recipe_name_of (metadata first)) (recipe_name_of (metadata doc))
       = true
    /\ forall (j : nat) (doc' : Document),
         (j < k)%nat -> docs !! j = Some doc' ->
         Py.eqb (recipe_name_of (metadata first))
                (recipe_name_of (metadata doc')) = false.
Proof.
  revert doc. induction i as [i IH] using lt_wf_ind. intros doc Hi.
  destruct (existsb (fun d => Py.eqb (recipe_name_of (metadata doc))
                                     (recipe_name_of (metadata d)))
              (take i docs)) eqn:Hex.
  - apply existsb_exists in Hex as (d & Hin & Heq).
    apply list_elem_of_In, list_elem_of_lookup in Hin as [j Hj].
    apply lookup_take_Some in Hj as [Hj Hlt].
    destruct (IH j Hlt d Hj) as (k & first & Hk & Hfirst & Hname & Hmin).
    exists k, first. split; [lia |]. split; [exact Hfirst |].
    split; [| exact Hmin].
    apply (eqb_trans _ (recipe_name_of (metadata d))); [exact Hname |].
    rewrite eqb_sym. exact Heq.
  - exists i, doc. split; [lia |]. split; [exact Hi |].
    split; [apply eqb_refl |].
    intros j doc' Hj Hl.
    destruct (Py.eqb (recipe_name_of (metadata doc))
                     (recipe_name_of (metadata doc'))) eqn:Heq; [| reflexivity].
    assert (Hin : In doc' (take i docs)).
    { apply list_elem_of_In, list_elem_of_lookup. exists j.
      apply lookup_take_Some. split; assumption. }
    assert (Htrue : existsb (fun d => Py.eqb (recipe_name_of (metadata doc))
                                             (recipe_name_of (metadata d)))
                      (take i docs) = true)
      by (apply existsb_exists; exists doc'; split; assumption).
    congruence.
Qed.

(** C5. [_extract_recipe_info] reads at most the first six passages and
    yields at most one record per recipe name; every record is the one
    built from the first passage bearing its name, so of two passages with
    the same name only the first gives a record; a missing rating, cuisine
    or difficulty takes the default 'Not rated', 'International',
    'Unknown'; a passage on which the loop body raises (its name cannot be
    hashed) is skipped and the extraction goes on as if it were absent.
    Nothing else is dropped: among the first six passages the first bearer
    of every name that can be hashed gives a record, so every such name
    has its record, and the records come in the order of the passages. *)
Theorem extract_recipe_info_dedup (docs : list Document) (d1 d2 : Document) :
  let out := _extract_recipe_info docs in
  (out = _extract_recipe_info (take 6 docs) /\ (length out <= 6)%nat)
  /\ (forall (i j : nat) (a b : RecipeInfo),
        i <> j -> out !! i = Some a -> out !! j = Some b ->
        Py.eqb (ri_name a) (ri_name b) = false)
  /\ (forall info : RecipeInfo,
        In info out ->
        exists (i : nat) (doc : Document),
          (i < 6)%nat /\ docs !! i = Some doc /\ info = recipe_info_of doc
          /\ forall (j : nat) (doc' : Document),
               (j < i)%nat -> docs !! j = Some doc' ->
               Py.eqb (recipe_name_of (metadata doc))
                      (recipe_name_of (metadata doc')) = false)
  /\ (recipe_name_of (metadata d1) = recipe_name_of (metadata d2) ->
      Py.hashable (recipe_name_of (metadata d1)) = true ->
      _extract_recipe_info [d1; d2] = [recipe_info_of d1])
  /\ (forall doc : Document,
        (metadata doc !! "rating" = None ->
         ri_rating (recipe_info_of doc) = PStr "Not rated")
        /\ (metadata doc !! "cuisine_type" = None ->
            ri_cuisine (recipe_info_of doc) = PStr "International")
        /\ (metadata doc !! "difficulty_level" = None ->
            ri_difficulty (recipe_info_of doc) = PStr "Unknown"))
  /\ out = extract_loop
             (List.filter (fun d => Py.hashable (recipe_name_of (metadata d)))
                          (take 6 docs)) []
  /\ (forall (i : nat) (doc : Document),
        (i < 6)%nat -> docs !! i = Some doc ->
        Py.hashable (recipe_name_of (metadata doc)) = true ->
        (forall (j : nat) (doc' : Document),
           (j < i)%nat -> docs !! j = Some doc' ->
           Py.eqb (recipe_name_of (metadata doc))
                  (recipe_name_of (metadata doc')) = false) ->
        In (recipe_info_of doc) out)
  /\ (forall (i : nat) (doc : Document),
        (i < 6)%nat -> docs !! i = Some doc ->
        Py.hashable (recipe_name_of (metadata doc)) = true ->
        exists (k : nat) (first : Document),
          (k <= i)%nat /\ docs !! k = Some first
          /\ Py.eqb (recipe_name_of (metadata first))
                    (recipe_name_of (metadata doc)) = true
          /\ In (recipe_info_of first) out)
  /\ sublist out (recipe_info_of <$> take 6 docs).
Proof.
  cbv zeta. unfold _extract_recipe_info. repeat apply conj.
  - rewrite take_take. reflexivity.
  - etransitivity; [apply extract_loop_length |].
    rewrite length_take. lia.
  - intros i j a b. apply names_distinct_lookup, extract_loop_distinct.
  - intros info Hin.
    apply extract_loop_origin in Hin as (i & doc & Hi & -> & _ & _ & Hfirst).
    apply lookup_take_Some in Hi as [Hi Hlt].
    exists i, doc. repeat split; try assumption.
    intros j doc' Hj Hl. apply (Hfirst j); [exact Hj |].
    apply lookup_take_Some. split; [exact Hl | lia].
  - intros Hsame Hh. cbn [take].
    destruct (extract_loop_cons d1 [d2] [])
      as [[Hh' _] | [[_ [Hs' _]] | [_ [_ Heq]]]].
    + congruence.
    + discriminate Hs'.
    + rewrite Heq. f_equal.
      destruct (extract_loop_cons d2 [] ([] ++ [recipe_name_of (metadata d1)]))
        as [[Hh' _] | [[_ [_ Heq']] | [_ [Hs' _]]]].
      * congruence.
      * exact Heq'.
      * rewrite <- Hsame in Hs'. cbn [app seen_mem existsb] in Hs'.
        rewrite eqb_refl in Hs'. discriminate Hs'.
  - intros doc.
    repeat apply conj; intros Hnone;
      cbn [recipe_info_of ri_rating ri_cuisine ri_difficulty]; unfold Py.get;
      rewrite Hnone; reflexivity.
  - apply extract_loop_skips.
  - intros i doc Hi Hl Hh Hfirst.
    apply (extract_loop_keeps (take 6 docs) [] i doc);
      [apply lookup_take_Some; split; assumption | exact Hh | reflexivity |].
    intros j doc' Hj Hl'. apply lookup_take_Some in Hl' as [Hl' _].
    exact (Hfirst j doc' Hj Hl').
  - intros i doc Hi Hl Hh.
    destruct (first_bearer docs i doc Hl) as (k & first & Hk & Hfirst & Hname & Hmin).
    exists k, first. split; [exact Hk |]. split; [exact Hfirst |].
    split; [exact Hname |].
    apply (extract_loop_keeps (take 6 docs) [] k first).
    + apply lookup_take_Some. split; [exact Hfirst | lia].
    + destruct (Py.hashable (recipe_name_of (metadata first))) eqn:Hhf;
        [reflexivity |].
      rewrite eqb_sym in Hname.
      rewrite (hashable_eqb_false _ _ Hh Hhf) in Hname. discriminate Hname.
    + reflexivity.
    + intros j doc' Hj Hl'. apply lookup_take_Some in Hl' as [Hl' _].
      exact (Hmin j doc' Hj Hl').
  - apply extract_loop_sublist.
Qed.

Lemma extract_recipe_info_dedup_witness :
  recipe_name_of (metadata sample_dal) = recipe_name_of (metadata sample_dal_again)
  /\ Py.hashable (recipe_name_of (metadata sample_dal)) = true
  /\ _extract_recipe_info [sample_dal; sample_dal_again]
     = [recipe_info_of sample_dal]
  /\ (length (_extract_recipe_info
                [sample_dal; sample_unhashable; sample_pho; sample_dal_again])
      <= 6)%nat.
Proof.
  destruct (extract_recipe_info_dedup
              [sample_dal; sample_unhashable; sample_pho; sample_dal_again]
              sample_dal sample_dal_again)
    as [[_ Hlen] [_ [_ [Hsame _]]]].
  split; [reflexivity |]. split; [reflexivity |].
  split; [apply Hsame; reflexivity | exact Hlen].
Defined.

Example extract_demo :
  _extract_recipe_info
    [sample_dal; sample_unhashable; sample_pho; sample_dal_again]
  = [recipe_info_of sample_dal; recipe_info_of sample_pho]
  /\ ri_rating (recipe_info_of sample_pho) = PStr "Not rated"
  /\ ri_cuisine (recipe_info_of sample_pho) = PStr "International"
  /\ ri_difficulty (recipe_info_of sample_pho) = PStr "Unknown"
  /\ ri_name (recipe_info_of sample_pho) = PStr "Pho".
Proof. repeat split; reflexivity. Qed.

Example extract_first_six_only :
  _extract_recipe_info
    [sample_dal; sample_dal; sample_dal; sample_dal; sample_dal; sample_dal;
     sample_pho]
  = [recipe_info_of sample_dal].
Proof. reflexivity. Qed.

Lemma nameless_name doc :
  nameless doc = true ->
  recipe_name_of (metadata doc) = PStr "Unknown Recipe".
Proof.
  unfold nameless, recipe_name_of, Py.has_key, Py.get.
  destruct (metadata doc !! "recipe_name"); [discriminate |].
  destruct (metadata doc !! "title"); [discriminate | reflexivity].
Qed.

(** C10, as stated: of the passages without 'recipe_name' and 'title',
    the first would always give the record named 'Unknown Recipe'.  It
    does not when an earlier passage bears that name itself: then the
    record is that passage's, and the first nameless passage is dropped
    like the later ones. *)
Lemma nameless_first_not_kept :
  ~ (forall (docs : list Document) (i j : nat) (di dj : Document),
       (i < j)%nat -> docs !! i = Some di -> docs !! j = Some dj ->
       nameless di = true -> nameless dj = true ->
       (forall (k : nat) (dk : Document),
          (k < i)%nat -> docs !! k = Some dk -> nameless dk = false) ->
       In (recipe_info_of di) (_extract_recipe_info docs)).
Proof.
  intros H.
  specialize (H [sample_named_unknown; sample_soup; sample_pie] 1%nat 2%nat
                sample_soup sample_pie).
  assert (Hin : In (recipe_info_of sample_soup)
                   (_extract_recipe_info
                      [sample_named_unknown; sample_soup; sample_pie])).
  { apply H; try reflexivity; try lia.
    intros [|k] dk Hk Hl; [| lia].
    injection Hl as <-. reflexivity. }
  change (_extract_recipe_info [sample_named_unknown; sample_soup; sample_pie])
    with [recipe_info_of sample_named_unknown] in Hin.
  destruct Hin as [Heq | []].
  apply (f_equal ri_instructions) in Heq. discriminate Heq.
Qed.

Example nameless_collapse_demo :
  _extract_recipe_info [sample_soup; sample_pie] = [recipe_info_of sample_soup]
  /\ ri_name (recipe_info_of sample_soup) = PStr "Unknown Recipe"
  /\ _extract_recipe_info [sample_named_unknown; sample_soup; sample_pie]
     = [recipe_info_of sample_named_unknown].
Proof. repeat split; reflexivity. Qed.

(** C10, amended.  Among the first six passages, a passage without
    'recipe_name' and 'title' gets the name 'Unknown Recipe'; the first
    passage whose name is 'Unknown Recipe' (nameless, or so named in its
    metadata) gives the one record of that name, and every later nameless
    passage is dropped, whatever recipe it describes. *)
Theorem nameless_passages_collapse
  (docs : list Document) (i j : nat) (di dj : Document) :
  (i < j)%nat -> (j < 6)%nat ->
  docs !! i = Some di -> docs !! j = Some dj ->
  recipe_name_of (metadata di) = PStr "Unknown Recipe" ->
  nameless dj = true ->
  (forall (k : nat) (dk : Document),
     (k < i)%nat -> docs !! k = Some dk ->
     recipe_name_of (metadata dk) <> PStr "Unknown Recipe") ->
  let out := _extract_recipe_info docs in
  recipe_name_of (metadata dj) = PStr "Unknown Recipe"
  /\ In (recipe_info_of di) out
  /\ (forall info : RecipeInfo,
        In info out -> ri_name info = PStr "Unknown Recipe" ->
        info = recipe_info_of di)
  /\ length (List.filter
               (fun info => Py.eqb (ri_name info) (PStr "Unknown Recipe")) out)
     = 1%nat.
Proof.
  intros Hij Hj Hi Hdj Hname Hnl Hfirst out.
  assert (Hin : In (recipe_info_of di) out).
  { unfold out, _extract_recipe_info.
    apply (extract_loop_keeps _ _ i).
    - apply lookup_take_Some. split; [exact Hi | lia].
    - rewrite Hname. reflexivity.
    - reflexivity.
    - intros k dk Hk Hl. apply lookup_take_Some in Hl as [Hl _].
      rewrite Hname, eqb_sym.
      destruct (Py.eqb _ _) eqn:He; [| reflexivity].
      apply eqb_str in He. destruct (Hfirst k dk Hk Hl He). }
  split; [apply nameless_name; exact Hnl |].
  split; [exact Hin |].
  split.
  - intros info Hinfo Hnm. unfold out, _extract_recipe_info in Hinfo.
    apply extract_loop_origin in Hinfo
      as (i' & doc & Hi' & -> & _ & _ & Hfirst').
    apply lookup_take_Some in Hi' as [Hi' Hlt].
    change (recipe_name_of (metadata doc) = PStr "Unknown Recipe") in Hnm.
    destruct (lt_eq_lt_dec i' i) as [[Hlt' | ->] | Hgt].
    + destruct (Hfirst i' doc Hlt' Hi' Hnm).
    + congruence.
    + assert (Hne : Py.eqb (recipe_name_of (metadata doc))
                           (recipe_name_of (metadata di)) = false).
      { apply (Hfirst' i); [exact Hgt |].
        apply lookup_take_Some. split; [exact Hi | lia]. }
      rewrite Hnm, Hname, eqb_refl in Hne. discriminate Hne.
  - rewrite <- Hname.
    change (recipe_name_of (metadata di)) with (ri_name (recipe_info_of di)).
    apply names_distinct_count; [| exact Hin].
    apply extract_loop_distinct.
Qed.

Lemma nameless_passages_collapse_witness :
  let docs := [sample_dal; sample_soup; sample_pho; sample_pie] in
  recipe_name_of (metadata sample_pie) = PStr "Unknown Recipe"
  /\ In (recipe_info_of sample_soup) (_extract_recipe_info docs)
  /\ (forall info : RecipeInfo,
        In info (_extract_recipe_info docs) ->
        ri_name info = PStr "Unknown Recipe" ->
        info = recipe_info_of sample_soup)
  /\ length (List.filter
               (fun info => Py.eqb (ri_name info) (PStr "Unknown Recipe"))
               (_extract_recipe_info docs))
     = 1%nat.
Proof.
  apply (nameless_passages_collapse
           [sample_dal; sample_soup; sample_pho; sample_pie] 1%nat 3%nat
           sample_soup sample_pie);
    try reflexivity; try lia.
  intros [|k] dk Hk Hl; [| lia].
  injection Hl as <-. discriminate.
Defined.

(** ** Parsing: what a parsed recipe can hold *)

(** Case analysis on a scrutinee of the goal that holds no other [match]. *)
Ltac case_inner :=
  match goal with
  | |- context [match ?x with _ => _ end] =>
      lazymatch x with
      | context [match _ with _ => _ end] => fail
      | _ => destruct x eqn:?
      end
  end.

Lemma parse_section_lookup recipe_info section k :
  k <> "ingredients" -> k <> "instructions" -> k <> "nutrition" ->
  parse_section recipe_info section !! k = recipe_info !! k.
Proof.
  intros H1 H2 H3. unfold parse_section.
  repeat (destruct (PyStr.startswith _ section);
          [rewrite lookup_insert_ne by congruence; reflexivity |]).
  reflexivity.
Qed.

Lemma parse_sections_lookup sections recipe_info k :
  k <> "ingredients" -> k <> "instructions" -> k <> "nutrition" ->
  fold_left parse_section sections recipe_info !! k = recipe_info !! k.
Proof.
  intros H1 H2 H3. revert recipe_info.
  induction sections as [|section rest IH]; intros recipe_info; [reflexivity |].
  simpl. rewrite IH. apply parse_section_lookup; assumption.
Qed.

(** The parser sets at most the keys 'ingredients', 'instructions',
    'nutrition', 'servings' and 'description'. *)
Lemma parse_recipe_document_lookup doc k :
  k <> "ingredients" -> k <> "instructions" -> k <> "nutrition" ->
  k <> "servings" -> k <> "description" ->
  _parse_recipe_document doc !! k = None.
Proof.
  intros H1 H2 H3 H4 H5.
  unfold _parse_recipe_document, parse_body, rcatch, rbind.
  set (base := fold_left parse_section _ ∅).
  assert (Hbase : base !! k = None).
  { unfold base. rewrite parse_sections_lookup by assumption.
    apply lookup_empty. }
  repeat (case_inner; cbv beta iota);
    rewrite ?lookup_insert_ne by congruence;
    first [exact Hbase | apply lookup_empty].
Qed.

Lemma parse_no_type doc : _parse_recipe_document doc !! "type" = None.
Proof. apply parse_recipe_document_lookup; discriminate. Qed.

Lemma parse_no_cooking_time doc :
  _parse_recipe_document doc !! "cooking_time" = None.
Proof. apply parse_recipe_document_lookup; discriminate. Qed.

Example parse_demo :
  _parse_recipe_document burrito_text
  = <["description" := PStr "Scramble the eggs and wrap. This serves 2 people...."]>
      (<["servings" := PStr "2"]>
         (<["nutrition" := PStr "300 kcal"]>
            (<["instructions" := PStr "Scramble the eggs and wrap. This serves 2 people."]>
               (<["ingredients" := PStr "eggs, tortilla"]> ∅))))
  /\ _parse_recipe_document stew_text !! "servings" = Some (PStr "four")
  /\ _parse_recipe_document "Instructions: Serves 4" = ∅
  /\ _parse_recipe_document "no sections at all" = ∅.
Proof. repeat split; vm_compute; reflexivity. Qed.

(** ** The filters *)

Lemma type_lower_parsed doc : type_lower (_parse_recipe_document doc) = Ok "".
Proof. unfold type_lower, Py.get. rewrite parse_no_type. reflexivity. Qed.

Lemma any_in_list_nonempty xs fl :
  Py.any_in_list xs fl = true -> fl <> [].
Proof.
  intros H ->. unfold Py.any_in_list in H.
  induction xs as [|x xs IH]; simpl in H; [discriminate | auto].
Qed.

Lemma apply_filters_nonempty recipe_info fl cooking_time :
  fl <> [] ->
  _apply_filters recipe_info (Some fl) cooking_time
  = rcatch (apply_filters_body recipe_info fl cooking_time) (fun _ => true).
Proof. destruct fl; [congruence | reflexivity]. Qed.





Lemma in_list_filter (p : string -> bool) x fl :
  Py.in_list x (List.filter p fl) = p x && Py.in_list x fl.
Proof.
  unfold Py.in_list. induction fl as [|f fl IH]; simpl.
  - rewrite andb_false_r. reflexivity.
  - destruct (p f) eqn:Hp; simpl; rewrite IH.
    + destruct (String.eqb_spec x f) as [-> | Hne]; simpl.
      * rewrite Hp. reflexivity.
      * reflexivity.
    + destruct (String.eqb_spec x f) as [-> | Hne]; simpl.
      * rewrite Hp. reflexivity.
      * reflexivity.
Qed.

Section Search.

Variable collection_query : trace -> string -> nat -> result query_result.

(** [search_recipes] always returns, after one query to the collection:
    the first ten cards of the loop, or nothing when there is no batch or
    the loop raises. *)
Lemma search_recipes_eq query filters cooking_time tr :
  search_recipes collection_query query filters cooking_time tr
  = (Ok match first_batch (collection_query tr query 20) with
        | Some batch =>
            match filter_loop batch filters cooking_time with
            | Ok cards => take 10 cards
            | Raise _ => []
            end
        | None => []
        end,
     tr ++ [EvCollectionQuery query 20]).
Proof.
  unfold search_recipes, search_recipes_body, dm_search_recipes, catch, bind,
    call_collection, ret, lift, first_batch.
  destruct (collection_query tr query 20) as [[documents metadatas] | e];
    [| reflexivity].
  cbn [qr_documents qr_metadatas].
  destruct documents as [[|docs documents] |]; try reflexivity.
  destruct metadatas as [[|metas metadatas] |]; try reflexivity.
  cbn [Py.index nth_error].
  destruct (filter_loop (zip docs metas) filters cooking_time); reflexivity.
Qed.

End Search.

Lemma in_list_drop x xs fl :
  Py.in_list x xs = false ->
  Py.in_list x (List.filter (fun f => negb (Py.in_list f xs)) fl)
  = Py.in_list x fl.
Proof. intros H. rewrite in_list_filter, H. reflexivity. Qed.

Lemma in_list_dropped x xs fl :
  Py.in_list x xs = true ->
  Py.in_list x (List.filter (fun f => negb (Py.in_list f xs)) fl) = false.
Proof. intros H. rewrite in_list_filter, H. reflexivity. Qed.

Lemma any_in_list_drop xs ys fl :
  forallb (fun x => negb (Py.in_list x ys)) xs = true ->
  Py.any_in_list xs (List.filter (fun f => negb (Py.in_list f ys)) fl)
  = Py.any_in_list xs fl.
Proof.
  unfold Py.any_in_list. induction xs as [|x xs IH]; intros H; [reflexivity |].
  simpl in H. apply andb_prop in H as [Hx Hxs]. apply negb_true_iff in Hx.
  simpl. rewrite (in_list_drop _ _ _ Hx), (IH Hxs). reflexivity.
Qed.

Lemma any_in_list_dropped xs fl :
  Py.any_in_list xs (List.filter (fun f => negb (Py.in_list f xs)) fl) = false.
Proof.
  unfold Py.any_in_list. apply not_true_iff_false. intros H.
  apply existsb_exists in H as [x [Hx Hin]].
  rewrite in_list_filter in Hin. apply andb_prop in Hin as [Hneg _].
  apply negb_true_iff in Hneg.
  assert (Hmem : Py.in_list x xs = true).
  { unfold Py.in_list. apply existsb_exists. exists x.
    split; [exact Hx | apply String.eqb_refl]. }
  congruence.
Qed.

Lemma filter_loop_app pre post filters ct cards_pre cards_post :
  filter_loop pre filters ct = Ok cards_pre ->
  filter_loop post filters ct = Ok cards_post ->
  filter_loop (pre ++ post) filters ct = Ok (cards_pre ++ cards_post).
Proof.
  intros Hpre Hpost. revert cards_pre Hpre.
  induction pre as [|[doc md] pre IH]; intros cards_pre Hpre.
  - injection Hpre as <-. exact Hpost.
  - cbn [app filter_loop] in *.
    destruct (_apply_filters (_parse_recipe_document doc) filters ct).
    + destruct (make_card (_parse_recipe_document doc) md filters) as [card | e];
        [| discriminate Hpre].
      cbn [rbind] in *.
      destruct (filter_loop pre filters ct) as [cards | e]; [| discriminate Hpre].
      injection Hpre as <-. rewrite (IH cards eq_refl). reflexivity.
    + apply IH. exact Hpre.
Qed.

Lemma filter_loop_card_type batch filters ct cards card :
  filter_loop batch filters ct = Ok cards -> In card cards ->
  exists fl : list string,
    filters = Some fl
    /\ card_type card
       = if Py.in_list "veg" fl then "Vegetarian" else "Non-Vegetarian".
Proof.
  revert cards. induction batch as [|[doc md] rest IH]; intros cards Hloop Hin.
  - injection Hloop as <-. destruct Hin.
  - cbn [filter_loop] in Hloop.
    destruct (_apply_filters (_parse_recipe_document doc) filters ct);
      [| eapply IH; eassumption].
    destruct (make_card (_parse_recipe_document doc) md filters) as [c | e] eqn:Hc;
      [| discriminate Hloop].
    cbn [rbind] in Hloop.
    destruct (filter_loop rest filters ct) as [cs | e]; [| discriminate Hloop].
    injection Hloop as <-. destruct Hin as [<- | Hin]; [| eapply IH; eauto].
    unfold make_card, rbind in Hc.
    destruct (Py.getitem md "name"); [| discriminate Hc].
    destruct (Py.getitem md "rating"); [| discriminate Hc].
    destruct filters as [fl |]; [| discriminate Hc].
    cbn [veg_in] in Hc. injection Hc as <-. exists fl. split; reflexivity.
Qed.
(** Whatever the recipe, an exception in the tests means a pass. *)
Lemma apply_filters_raise_passes recipe_info fl cooking_time e :
  apply_filters_body recipe_info fl cooking_time = Raise e ->
  _apply_filters recipe_info (Some fl) cooking_time = true.
Proof.
  intros Hraise. destruct fl; [reflexivity |].
  unfold _apply_filters. rewrite Hraise. reflexivity.
Qed.

Section Filtered.

Variable collection_query : trace -> string -> nat -> result query_result.
Variable collection_query' : trace -> string -> nat -> result query_result.

(** C9. The type label of a card is fixed by the list of filters alone:
    'Vegetarian' when 'veg' is in the list, 'Non-Vegetarian' otherwise.
    All the cards of one result bear the same label, and so do the cards
    of two searches made with the same filters over different collections,
    queries and limits. *)
Theorem card_type_from_filters
  (query query' : string) (filters : option (list string))
  (cooking_time cooking_time' : Z) (tr tr' : trace)
  (cards cards' : list RecipeCard) (out_tr out_tr' : trace) :
  search_recipes collection_query query filters cooking_time tr
  = (Ok cards, out_tr) ->
  search_recipes collection_query' query' filters cooking_time' tr'
  = (Ok cards', out_tr') ->
  (forall card : RecipeCard,
     In card cards ->
     exists fl : list string,
       filters = Some fl
       /\ card_type card
          = if Py.in_list "veg" fl then "Vegetarian" else "Non-Vegetarian")
  /\ (forall card other : RecipeCard,
        In card cards -> In other cards -> card_type card = card_type other)
  /\ (forall card card' : RecipeCard,
        In card cards -> In card' cards' -> card_type card = card_type card').
Proof.
  intros Hrun Hrun'.
  assert (Hlabel : forall cq q ct t cs t',
             search_recipes cq q filters ct t = (Ok cs, t') ->
             forall card : RecipeCard,
               In card cs ->
               exists fl : list string,
                 filters = Some fl
                 /\ card_type card
                    = if Py.in_list "veg" fl
                      then "Vegetarian" else "Non-Vegetarian").
  { intros cq q ct t cs t' Hs card Hin.
    rewrite search_recipes_eq in Hs. injection Hs as <- _.
    destruct (first_batch _) as [batch |]; [| destruct Hin].
    destruct (filter_loop batch filters ct) as [all |] eqn:Hloop;
      [| destruct Hin].
    apply (filter_loop_card_type _ _ _ _ _ Hloop).
    apply list_elem_of_In. eapply subseteq_take.
    apply list_elem_of_In. exact Hin. }
  repeat apply conj.
  - exact (Hlabel _ _ _ _ _ _ Hrun).
  - intros card other Hc Ho.
    destruct (Hlabel _ _ _ _ _ _ Hrun card Hc) as (fl & Hfl & ->).
    destruct (Hlabel _ _ _ _ _ _ Hrun other Ho) as (fl' & Hfl' & ->).
    rewrite Hfl in Hfl'. injection Hfl' as <-. reflexivity.
  - intros card card' Hc Hc'.
    destruct (Hlabel _ _ _ _ _ _ Hrun card Hc) as (fl & Hfl & ->).
    destruct (Hlabel _ _ _ _ _ _ Hrun' card' Hc') as (fl' & Hfl' & ->).
    rewrite Hfl in Hfl'. injection Hfl' as <-. reflexivity.
Qed.

End Filtered.

(** Without the meal-time tag the same search returns its three recipes. *)
Example meal_time_search_demo :
  search_recipes (sample_collection sample_batch) "eggs" (Some ["veg"]) 30 []
  = (Ok (card_of burrito_text (card_metadata "Breakfast Burrito" "4.5") ["veg"]
         ++ card_of stew_text (card_metadata "Family Stew" "4") ["veg"]
         ++ card_of salad_text (card_metadata "Big Salad" "3.5") ["veg"]),
     [EvCollectionQuery "eggs" 20])
  /\ search_recipes (sample_collection sample_batch) "eggs"
       (Some ["veg"; "breakfast"]) 30 []
     = (Ok [], [EvCollectionQuery "eggs" 20])
  /\ length (card_of burrito_text (card_metadata "Breakfast Burrito" "4.5") ["veg"])
     = 1%nat.
Proof. repeat split; vm_compute; reflexivity. Qed.

Lemma card_type_from_filters_witness :
  let cards :=
    card_of burrito_text (card_metadata "Breakfast Burrito" "4.5") ["veg"]
    ++ card_of stew_text (card_metadata "Family Stew" "4") ["veg"]
    ++ card_of salad_text (card_metadata "Big Salad" "3.5") ["veg"] in
  let cards' := card_of salad_text (card_metadata "Big Salad" "3.5") ["veg"] in
  search_recipes (sample_collection sample_batch) "stew" (Some ["veg"]) 30 []
  = (Ok cards, [EvCollectionQuery "stew" 20])
  /\ search_recipes
       (sample_collection [(salad_text, card_metadata "Big Salad" "3.5")])
       "salad" (Some ["veg"]) 45 []
     = (Ok cards', [EvCollectionQuery "salad" 20])
  /\ (forall card card' : RecipeCard,
        In card cards -> In card' cards' -> card_type card = card_type card').
Proof.
  split; [vm_compute; reflexivity |]. split; [vm_compute; reflexivity |].
  exact (proj2 (proj2
    (card_type_from_filters
       (sample_collection sample_batch)
       (sample_collection [(salad_text, card_metadata "Big Salad" "3.5")])
       "stew" "salad" (Some ["veg"]) 30 45 [] []
       (card_of burrito_text (card_metadata "Breakfast Burrito" "4.5") ["veg"]
        ++ card_of stew_text (card_metadata "Family Stew" "4") ["veg"]
        ++ card_of salad_text (card_metadata "Big Salad" "3.5") ["veg"])
       (card_of salad_text (card_metadata "Big Salad" "3.5") ["veg"])
       [EvCollectionQuery "stew" 20] [EvCollectionQuery "salad" 20]
       eq_refl eq_refl))).
Defined.

Example card_type_demo :
  map card_type
    (card_of burrito_text (card_metadata "Breakfast Burrito" "4.5") ["veg"]
     ++ card_of stew_text (card_metadata "Family Stew" "4") ["non-veg"; "veg"]
     ++ card_of salad_text (card_metadata "Big Salad" "3.5") ["servings-5+"])
  = ["Vegetarian"; "Vegetarian"; "Non-Vegetarian"]
  /\ search_recipes (sample_collection sample_batch) "stew" None 30 []
     = (Ok [], [EvCollectionQuery "stew" 20]).
Proof. split; vm_compute; reflexivity. Qed.

(** The servings buckets and the unfiltered search, on the sample batch. *)
Example servings_buckets_demo :
  _apply_filters (_parse_recipe_document salad_text) (Some ["servings-3-4"]) 30
  = false
  /\ _apply_filters (_parse_recipe_document salad_text) (Some ["servings-5+"]) 30
     = true
  /\ _apply_filters (_parse_recipe_document burrito_text) (Some ["servings-1-2"]) 30
     = true
  /\ search_recipes (sample_collection sample_batch) "anything" (Some []) 30 []
     = (Ok (card_of burrito_text (card_metadata "Breakfast Burrito" "4.5") []
            ++ card_of stew_text (card_metadata "Family Stew" "4") []
            ++ card_of salad_text (card_metadata "Big Salad" "3.5") []),
        [EvCollectionQuery "anything" 20]).
Proof. repeat split; vm_compute; reflexivity. Qed.

(** A type that is not text makes the tests raise under a filter that reads
    it, and the recipe passes. *)
Example apply_filters_error_demo :
  apply_filters_body {["type" := PInt 3]} ["veg"] 30
  = Raise (Exn AttributeError "'int' object has no attribute 'lower'")
  /\ _apply_filters {["type" := PInt 3]} (Some ["veg"]) 30 = true
  /\ _apply_filters {["type" := PStr "Non-Veg"]} (Some ["veg"]) 30 = false
  /\ _apply_filters {["type" := PStr "Veg main"]} (Some ["veg"; "main"]) 30 = true.
Proof. repeat split; vm_compute; reflexivity. Qed.

(** ** The entry points *)

Lemma lstrip_all_space s : all_space s = true -> PyStr.lstrip s = "".
Proof.
  induction s as [|c s IH]; [reflexivity |]. simpl.
  intros H. apply andb_prop in H as [Hc Hs]. rewrite Hc. exact (IH Hs).
Qed.

Lemma strip_all_space s : all_space s = true -> PyStr.strip s = "".
Proof. intros H. unfold PyStr.strip. rewrite lstrip_all_space by exact H. reflexivity. Qed.

Lemma lstrip_head s :
  PyStr.lstrip s = ""
  \/ exists c r, PyStr.lstrip s = String c r /\ PyStr.isspace c = false.
Proof.
  induction s as [|c s IH]; [left; reflexivity |]. simpl.
  destruct (PyStr.isspace c) eqn:Hc; [exact IH |].
  right. exists c, s. split; [reflexivity | exact Hc].
Qed.

Lemma lstrip_empty_all_space s : PyStr.lstrip s = "" -> all_space s = true.
Proof.
  induction s as [|c s IH]; [reflexivity |]. simpl.
  destruct (PyStr.isspace c); [exact IH | discriminate].
Qed.

(** [not user_input.strip()] holds exactly for the blank inputs. *)
Lemma strip_empty_iff s :
  PyStr.is_empty (PyStr.strip s) = true <-> all_space s = true.
Proof.
  split.
  - unfold PyStr.strip. intros H.
    destruct (lstrip_head s) as [He | (c & r & He & Hc)].
    + apply lstrip_empty_all_space. exact He.
    + rewrite He in H. simpl in H. rewrite Hc in H. discriminate H.
  - intros H. rewrite strip_all_space by exact H. reflexivity.
Qed.

Section Answer.

Variable chain_invoke : trace -> string -> result chain_result.
Variable llm_invoke : trace -> string -> result string.
Variable collection_query : trace -> string -> nat -> result query_result.

(** C8. On an input that is empty or made of white space only,
    [get_response] returns the greeting with its three suggestions, no
    recipes, no sources and no error, and the trace of external calls is
    left as it was: neither the chain nor the collection nor the model is
    called. *)
Theorem blank_input_greets (user_input : string) (tr : trace) :
  all_space user_input = true ->
  get_response chain_invoke llm_invoke user_input tr = (Ok greeting_response, tr)
  /\ List.filter is_retrieval (get_response chain_invoke llm_invoke user_input tr).2
     = List.filter is_retrieval tr
  /\ resp_answer greeting_response
     = "Hello! I'm your recipe assistant. Ask me about recipes, cooking tips, or tell me what ingredients you have and I'll suggest some delicious dishes you can make!"
  /\ resp_suggestions greeting_response
     = ["What ingredients do you have?"; "Show me quick dinner recipes";
        "I need a vegetarian meal"]
  /\ resp_recipes greeting_response = []
  /\ resp_sources greeting_response = []
  /\ resp_error greeting_response = None.
Proof.
  intros Hblank. unfold get_response.
  rewrite strip_all_space by exact Hblank.
  repeat split.
Qed.

(** C3. [get_response] and [search_recipes] always return a value.  When
    the body of [get_response] raises, the response is the apology, with
    no recipes, no sources, three suggestions and the text of the error;
    when the body of [search_recipes] raises, the result is the empty
    list. *)
Theorem entry_points_never_raise
  (user_input query : string) (filters : option (list string))
  (cooking_time : Z) (tr : trace) :
  (exists (response : Response) (out_tr : trace),
     get_response chain_invoke llm_invoke user_input tr = (Ok response, out_tr)
     /\ forall (e : exn) (fail_tr : trace),
          all_space user_input = false ->
          get_response_body chain_invoke llm_invoke user_input tr
          = (Raise e, fail_tr) ->
          response = error_response e /\ out_tr = fail_tr)
  /\ (forall e : exn,
        resp_answer (error_response e)
        = "I'm sorry, I encountered an issue while searching for recipes. Please try rephrasing your question or ask about a specific dish or ingredient."
        /\ resp_recipes (error_response e) = []
        /\ resp_sources (error_response e) = []
        /\ length (resp_suggestions (error_response e)) = 3%nat
        /\ resp_error (error_response e) = Some (exn_msg e))
  /\ (exists (cards : list RecipeCard) (out_tr : trace),
        search_recipes collection_query query filters cooking_time tr
        = (Ok cards, out_tr)
        /\ forall (e : exn) (fail_tr : trace),
             search_recipes_body collection_query query filters cooking_time tr
             = (Raise e, fail_tr) ->
             cards = [] /\ out_tr = fail_tr).
Proof.
  repeat apply conj.
  - unfold get_response.
    destruct (PyStr.is_empty (PyStr.strip user_input)) eqn:Hblank.
    + exists greeting_response, tr. split; [reflexivity |].
      intros e fail_tr Hns _. apply strip_empty_iff in Hblank. congruence.
    + unfold catch.
      destruct (get_response_body chain_invoke llm_invoke user_input tr)
        as [[response | e] out_tr].
      * exists response, out_tr. split; [reflexivity |].
        intros e fail_tr _ H. discriminate H.
      * exists (error_response e), out_tr. split; [reflexivity |].
        intros e' fail_tr _ H. injection H as <- <-. split; reflexivity.
  - intros e. repeat split.
  - unfold search_recipes, catch.
    destruct (search_recipes_body collection_query query filters cooking_time tr)
      as [[cards | e] out_tr].
    + exists cards, out_tr. split; [reflexivity |].
      intros e fail_tr H. discriminate H.
    + exists [], out_tr. split; [reflexivity |].
      intros e' fail_tr H. injection H as _ <-. split; reflexivity.
Qed.

End Answer.

Lemma blank_input_greets_witness :
  all_space (" " +:+ nl +:+ "  ") = true
  /\ get_response chain_up llm_down (" " +:+ nl +:+ "  ")
       [EvChainInvoke "earlier question"]
     = (Ok greeting_response, [EvChainInvoke "earlier question"]).
Proof.
  split; [reflexivity |].
  apply (blank_input_greets chain_up llm_down (" " +:+ nl +:+ "  ")
           [EvChainInvoke "earlier question"]).
  reflexivity.
Defined.

Lemma entry_points_never_raise_witness :
  get_response chain_down llm_down "pasta tonight" []
  = (Ok (error_response (Exn ExternalError "503 service unavailable")),
     [EvChainInvoke "pasta tonight"])
  /\ search_recipes nameless_collection "burrito" (Some ["veg"]) 30 []
     = (Ok [], [EvCollectionQuery "burrito" 20]).
Proof.
  destruct (entry_points_never_raise chain_down llm_down nameless_collection
              "pasta tonight" "burrito" (Some ["veg"]) 30 [])
    as [(response & out_tr & Hget & Hfail) [_ (cards & out_tr' & Hsearch & Hfail')]].
  destruct (Hfail (Exn ExternalError "503 service unavailable")
                  [EvChainInvoke "pasta tonight"] eq_refl eq_refl) as [-> ->].
  destruct (Hfail' (Exn KeyError "'name'") [EvCollectionQuery "burrito" 20]
                   eq_refl) as [-> ->].
  split; assumption.
Defined.

(** A whole answer, the model being down: the descriptions fall back to the
    one-line text and the answer is still returned. *)
Example get_response_demo :
  exists answer : string,
    get_response chain_up llm_down "soup for a cold day" []
    = (Ok {| resp_answer := answer;
             resp_sources :=
               [{| se_source := PStr "Recipe Database";
                   se_recipe_name := PStr "Dal";
                   se_content_preview := "Simmer the lentils with turmeric." |};
                {| se_source := PStr "Recipe Database";
                   se_recipe_name := PStr "Unknown Recipe";
                   se_content_preview := "Char the onion and ginger." |}];
             resp_recipes := [recipe_info_of sample_dal; recipe_info_of sample_pho];
             resp_suggestions :=
               ["Tell me more about Dal";
                "Compare the difficulty of these recipes";
                "Which recipe has the highest rating?"];
             resp_error := None |},
       [EvChainInvoke "soup for a cold day";
        EvLLMInvoke (description_prompt (recipe_info_of sample_dal));
        EvLLMInvoke (description_prompt (recipe_info_of sample_pho))])
    /\ PyStr.contains
         "A International General that's Unknown difficult to prepare." answer
       = true.
Proof. eexists. split; vm_compute; reflexivity. Qed.

(** * Further properties *)

(** ** Source entries *)

Lemma string_length_app (a b : string) :
  String.length (a +:+ b) = (String.length a + String.length b)%nat.
Proof. induction a as [|c a IH]; simpl; [reflexivity | f_equal; exact IH]. Qed.

Lemma take_str_length n s : (String.length (PyStr.take_str n s) <= n)%nat.
Proof.
  revert s. induction n as [|n IH]; intros [|c s]; simpl; try lia.
  specialize (IH s). lia.
Qed.

Lemma process_loop_cons doc rest seen :
  process_loop (doc :: rest) seen
  = if bool_decide (source_key_of doc ∈ seen)
    then process_loop rest seen
    else source_entry_of doc :: process_loop rest ({[source_key_of doc]} ∪ seen).
Proof. reflexivity. Qed.

(** Every entry is built from a passage whose key was not seen before. *)
Lemma process_loop_origin docs seen e :
  e ∈ process_loop docs seen ->
  exists doc, doc ∈ docs /\ e = source_entry_of doc /\ source_key_of doc ∉ seen.
Proof.
  revert seen. induction docs as [|d rest IH]; intros seen He.
  - inversion He.
  - rewrite process_loop_cons in He. case_bool_decide as Hseen.
    + destruct (IH _ He) as (doc & Hd & -> & Hk).
      exists doc. split; [right; exact Hd | auto].
    + apply elem_of_cons in He as [-> | He].
      * exists d. split; [left | auto].
      * destruct (IH _ He) as (doc & Hd & -> & Hk).
        exists doc. split; [right; exact Hd |]. split; [reflexivity |].
        set_solver.
Qed.

Lemma process_loop_keys_NoDup docs seen :
  NoDup (entry_key <$> process_loop docs seen).
Proof.
  revert seen. induction docs as [|d rest IH]; intros seen; [constructor |].
  rewrite process_loop_cons. case_bool_decide as Hseen; [apply IH |].
  rewrite fmap_cons. constructor; [| apply IH].
  intros Hin. apply list_elem_of_fmap in Hin as (e & Hk & He).
  apply process_loop_origin in He as (doc & _ & -> & Hnot).
  change (entry_key (source_entry_of d)) with (source_key_of d) in Hk.
  change (entry_key (source_entry_of doc)) with (source_key_of doc) in Hk.
  rewrite Hk in Hnot. set_solver.
Qed.

(** X1. [_process_sources] returns at most five entries; each is built from
    one of the passages, its preview is the content itself when that has at
    most 150 characters and otherwise its first 150 characters followed by
    three dots, so a preview never exceeds 153 characters. *)
Theorem process_sources_bounds (source_docs : list Document) :
  (length (_process_sources source_docs) <= 5)%nat
  /\ forall e : SourceEntry,
       e ∈ _process_sources source_docs ->
       (String.length (se_content_preview e) <= 153)%nat
       /\ exists doc : Document,
            doc ∈ source_docs
            /\ se_source e = Py.get (metadata doc) "source" (PStr "Recipe Database")
            /\ se_recipe_name e
               = Py.get (metadata doc) "recipe_name" (PStr "Unknown Recipe")
            /\ ((String.length (page_content doc) <= 150)%nat ->
                se_content_preview e = page_content doc)
            /\ ((150 < String.length (page_content doc))%nat ->
                se_content_preview e
                = PyStr.take_str 150 (page_content doc) +:+ "...").
Proof.
  unfold _process_sources. split.
  - rewrite length_take. lia.
  - intros e He. apply subseteq_take in He.
    apply process_loop_origin in He as (doc & Hd & -> & _).
    split.
    + cbn [source_entry_of se_content_preview].
      destruct (Nat.ltb_spec 150 (String.length (page_content doc))) as [Hlong | Hshort].
      * rewrite string_length_app.
        pose proof (take_str_length 150 (page_content doc)) as Hpre.
        change (String.length "...") with 3%nat. lia.
      * lia.
    + exists doc. split; [exact Hd |]. split; [reflexivity |].
      split; [reflexivity |]. cbn [source_entry_of se_content_preview].
      split; intros Hlen.
      * destruct (Nat.ltb_spec 150 (String.length (page_content doc))); [lia | reflexivity].
      * destruct (Nat.ltb_spec 150 (String.length (page_content doc))); [reflexivity | lia].
Qed.

Lemma process_loop_take_keys_NoDup
  (n : nat) (docs : list Document) (seen : gset string) :
  NoDup (entry_key <$> take n (process_loop docs seen)).
Proof.
  rewrite fmap_take.
  eapply sublist_NoDup; [apply process_loop_keys_NoDup | apply sublist_take].
Qed.

(** X2. No two entries of [_process_sources] share the pair of source and
    recipe name, rendered as the key source_name: of the passages with the
    same key only one gives an entry. *)
Theorem process_sources_keys_distinct (source_docs : list Document) :
  NoDup (entry_key <$> _process_sources source_docs).
Proof.
  unfold _process_sources. apply process_loop_take_keys_NoDup.
Qed.

Example process_sources_demo :
  _process_sources [sample_dal; sample_dal_again; sample_soup; sample_pie]
  = [source_entry_of sample_dal; source_entry_of sample_soup]
  /\ entry_key (source_entry_of sample_soup) = "Recipe Database_Unknown Recipe".
Proof. split; vm_compute; reflexivity. Qed.

(** A list is rendered with the [repr] of its items: a string that holds an
    apostrophe goes between double quotes, so the two sample passages have
    different keys and both give an entry. *)
Example list_rendering_demo :
  Py.str (PList ["baker's yeast"; "flour"])
  = "[" +:+ dquote +:+ "baker's yeast" +:+ dquote +:+ ", 'flour']"
  /\ Py.str (PList ["a', 'b"]) = "[" +:+ dquote +:+ "a', 'b" +:+ dquote +:+ "]"
  /\ Py.str (PList ["a"; "b"]) = "['a', 'b']"
  /\ length (_process_sources [sample_quoted; sample_pair]) = 2%nat.
Proof. repeat split; vm_compute; reflexivity. Qed.

(** ** Query enhancement, beyond the ingredient words *)

Lemma enhance_unfold u :
  _enhance_user_query u
  = match enhancements_of (PyStr.lower u) with
    | [] => u
    | kws => u +:+ " " +:+ PyStr.join " " kws
    end.
Proof.
  change (_enhance_user_query u)
    with (match enhancements_of (PyStr.lower u) with
          | [] => u
          | _ => u +:+ " " +:+ PyStr.join " " (enhancements_of (PyStr.lower u))
          end).
  destruct (enhancements_of (PyStr.lower u)); reflexivity.
Qed.

Lemma string_app_empty_r (s : string) : s +:+ "" = s.
Proof.
  induction s as [|c s IH]; [reflexivity |].
  change (String c s +:+ "") with (String c (s +:+ "")). f_equal. exact IH.
Qed.

Lemma string_app_neq (s t : string) : t <> "" -> s +:+ t <> s.
Proof.
  intros Ht Heq. apply (f_equal String.length) in Heq.
  rewrite string_length_app in Heq. destruct t; [congruence | simpl in Heq; lia].
Qed.

Lemma enhancements_nil_iff q :
  enhancements_of q = []
  <-> PyStr.any_in ingredient_words q = false
      /\ PyStr.any_in time_words q = false
      /\ PyStr.any_in dietary_words q = false
      /\ PyStr.any_in cuisine_words q = false.
Proof.
  unfold enhancements_of.
  destruct (PyStr.any_in ingredient_words q), (PyStr.any_in time_words q),
    (PyStr.any_in dietary_words q), (PyStr.any_in cuisine_words q);
    simpl; split; intros H; try discriminate H; try (repeat split; reflexivity);
    destruct H as (H1 & H2 & H3 & H4); discriminate.
Qed.

(** X3. [_enhance_user_query] returns its input unchanged exactly when the
    lower-cased input holds none of the signal words; in every case the
    input is a prefix of the result; and what is appended depends on the
    input through its lower-cased text only, so two inputs that differ in
    case get the same keywords. *)
Theorem enhance_query_by_lowercase (user_input other_input : string) :
  (_enhance_user_query user_input = user_input
   <-> PyStr.any_in ingredient_words (PyStr.lower user_input) = false
       /\ PyStr.any_in time_words (PyStr.lower user_input) = false
       /\ PyStr.any_in dietary_words (PyStr.lower user_input) = false
       /\ PyStr.any_in cuisine_words (PyStr.lower user_input) = false)
  /\ PyStr.startswith user_input (_enhance_user_query user_input) = true
  /\ (PyStr.lower user_input = PyStr.lower other_input ->
      exists appended : string,
        _enhance_user_query user_input = user_input +:+ appended
        /\ _enhance_user_query other_input = other_input +:+ appended).
Proof.
  repeat apply conj.
  - intros Heq. apply enhancements_nil_iff. rewrite enhance_unfold in Heq.
    destruct (enhancements_of (PyStr.lower user_input)) as [|kw kws];
      [reflexivity |].
    exfalso. revert Heq. apply string_app_neq. discriminate.
  - intros Hnone. apply enhancements_nil_iff in Hnone.
    rewrite enhance_unfold, Hnone. reflexivity.
  - rewrite enhance_unfold.
    destruct (enhancements_of (PyStr.lower user_input)).
    + rewrite <- (string_app_empty_r user_input) at 2. apply startswith_app.
    + apply startswith_app.
  - intros Hlow. rewrite !enhance_unfold, <- Hlow.
    destruct (enhancements_of (PyStr.lower user_input)) as [|kw kws].
    + exists "". rewrite !string_app_empty_r. split; reflexivity.
    + eexists. split; reflexivity.
Qed.

Example enhance_all_signals :
  _enhance_user_query "Quick VEGAN Thai curry using tofu"
  = "Quick VEGAN Thai curry using tofu recipe ingredients cooking time dietary cuisine"
  /\ _enhance_user_query "chocolate cake" = "chocolate cake".
Proof. split; reflexivity. Qed.

(** ** Formatting the answer *)

Lemma startswith_app_r a b c :
  PyStr.startswith a b = true -> PyStr.startswith a (b +:+ c) = true.
Proof.
  revert b. induction a as [|x a IH]; intros b H; [reflexivity |].
  destruct b as [|y b]; [discriminate H |]. simpl in *.
  apply andb_prop in H as [Hxy Hab]. rewrite Hxy. exact (IH _ Hab).
Qed.

Lemma startswith_refl a : PyStr.startswith a a = true.
Proof.
  induction a as [|x a IH]; simpl; [reflexivity |].
  rewrite Ascii.eqb_refl. exact IH.
Qed.

Section Formatting.

Variable chain_invoke : trace -> string -> result chain_result.
Variable llm_invoke : trace -> string -> result string.

(** The description of a recipe is always produced, after one call to the
    model. *)
Lemma generate_recipe_description_ok recipe tr :
  exists description : string,
    _generate_recipe_description llm_invoke recipe tr
    = (Ok description, tr ++ [EvLLMInvoke (description_prompt recipe)]).
Proof.
  unfold _generate_recipe_description, catch, bind, call_llm, ret.
  destruct (llm_invoke tr (description_prompt recipe)); eexists; reflexivity.
Qed.

Lemma format_entry_ok i recipe answer tr :
  exists out : string,
    format_entry llm_invoke i recipe answer tr
    = (Ok out, tr ++ [EvLLMInvoke (description_prompt recipe)])
    /\ PyStr.startswith answer out = true.
Proof.
  unfold format_entry, bind.
  destruct (generate_recipe_description_ok recipe tr) as [d ->].
  unfold ret. eexists. split; [reflexivity |].
  apply startswith_app_r.
  destruct (Py.truthy (ri_image_url recipe));
    [apply startswith_app_r |]; apply startswith_app.
Qed.

Lemma format_loop_ok recipes i answer tr :
  exists out : string,
    format_loop llm_invoke recipes i answer tr
    = (Ok out,
       tr ++ map (fun recipe => EvLLMInvoke (description_prompt recipe)) recipes)
    /\ PyStr.startswith answer out = true.
Proof.
  revert i answer tr. induction recipes as [|recipe rest IH]; intros i answer tr.
  - exists answer. cbn [format_loop map]. unfold ret. rewrite app_nil_r.
    split; [reflexivity | apply startswith_refl].
  - cbn [format_loop map]. unfold bind.
    destruct (format_entry_ok i recipe answer tr) as (mid & -> & Hmid).
    destruct (IH (S i) mid (tr ++ [EvLLMInvoke (description_prompt recipe)]))
      as (out & -> & Hout).
    exists out. rewrite <- app_assoc. split; [reflexivity |].
    destruct (startswith_inv _ _ Hmid) as [x ->].
    destruct (startswith_inv _ _ Hout) as [y ->].
    apply startswith_app_r, startswith_app.
Qed.

Lemma format_response_ok
  (answer : string) (recipes : list RecipeInfo) (tr : trace) :
  exists out : string,
    _format_response llm_invoke answer recipes tr
    = (Ok out, tr ++ description_calls recipes)
    /\ PyStr.startswith answer out = true
    /\ ((length recipes <= 1)%nat -> out = answer)
    /\ (length (description_calls recipes) <= 3)%nat.
Proof.
  unfold _format_response, description_calls.
  assert (Hlen3 : forall l : list RecipeInfo, (length (take 3 l) <= 3)%nat)
    by (intros l; rewrite length_take; lia).
  destruct recipes as [|first rest].
  - exists answer. unfold ret. cbn [length Nat.ltb Nat.leb map]. rewrite app_nil_r.
    repeat split; [apply startswith_refl | cbn; lia].
  - destruct (Nat.ltb_spec 1 (length (first :: rest))) as [Hmany | Hone].
    + destruct (format_loop_ok (take 3 (first :: rest)) 1
                  (answer +:+ nl +:+ nl +:+ "📚 **Found "
                   +:+ pretty (length (first :: rest))
                   +:+ " recipes for you:**" +:+ nl) tr)
        as (out & -> & Hout).
      exists out. repeat split.
      * destruct (startswith_inv _ _ Hout) as [x ->].
        apply startswith_app_r, startswith_app.
      * intros Hle. lia.
      * rewrite length_map. apply Hlen3.
    + exists answer. unfold ret. cbn [map]. rewrite app_nil_r.
      repeat split; [apply startswith_refl | cbn; lia].
Qed.

(** X4. [_format_response] always returns, whatever the model does: with
    fewer than two recipes the answer comes back as it is and the model is
    not called; otherwise the model is asked once for each of the first
    three recipes, in order, and the answer given is a prefix of the answer
    returned. *)
Theorem format_response_total
  (answer : string) (recipes : list RecipeInfo) (tr : trace) :
  exists out : string,
    _format_response llm_invoke answer recipes tr
    = (Ok out, tr ++ description_calls recipes)
    /\ PyStr.startswith answer out = true
    /\ ((length recipes <= 1)%nat -> out = answer)
    /\ (length (description_calls recipes) <= 3)%nat.
Proof.
  apply format_response_ok.
Qed.

Lemma get_response_nonblank (user_input : string) (tr : trace) :
  all_space user_input = false ->
  exists (response : Response) (model_calls : list event),
    get_response chain_invoke llm_invoke user_input tr
    = (Ok response,
       tr ++ EvChainInvoke (_enhance_user_query user_input) :: model_calls)
    /\ Forall (fun ev => is_retrieval ev = false) model_calls
    /\ (length model_calls <= 3)%nat
    /\ match chain_invoke tr (_enhance_user_query user_input) with
       | Raise e => response = error_response e /\ model_calls = []
       | Ok result =>
           match cr_answer result with
           | None =>
               response = error_response (Exn KeyError "'answer'")
               /\ model_calls = []
           | Some answer =>
               let source_docs := default [] (cr_source_documents result) in
               resp_error response = None
               /\ resp_recipes response = _extract_recipe_info source_docs
               /\ resp_sources response = _process_sources source_docs
               /\ resp_suggestions response
                  = _generate_follow_up_suggestions user_input
                      (_extract_recipe_info source_docs)
               /\ PyStr.startswith answer (resp_answer response) = true
               /\ model_calls
                  = description_calls (_extract_recipe_info source_docs)
           end
       end.
Proof.
  intros Hblank. unfold get_response.
  destruct (PyStr.is_empty (PyStr.strip user_input)) eqn:Hs.
  { apply strip_empty_iff in Hs. congruence. }
  unfold catch, get_response_body, bind, call_chain, lift.
  destruct (chain_invoke tr (_enhance_user_query user_input)) as [result | e].
  - destruct (cr_answer result) as [answer |].
    + destruct (format_response_ok answer
                  (_extract_recipe_info (default [] (cr_source_documents result)))
                  (tr ++ [EvChainInvoke (_enhance_user_query user_input)]))
        as (out & -> & Hpre & _ & Hlen).
      unfold ret. eexists _, _. rewrite <- app_assoc. split; [reflexivity |].
      split.
      { unfold description_calls. apply Forall_forall. intros ev Hev.
        apply list_elem_of_In, in_map_iff in Hev as (r & <- & _). reflexivity. }
      split; [exact Hlen |]. cbv zeta. cbn [resp_error resp_recipes resp_sources
        resp_suggestions resp_answer]. repeat split. exact Hpre.
    + unfold ret. exists (error_response (Exn KeyError "'answer'")), [].
      repeat split; [constructor | cbn; lia].
  - unfold ret. exists (error_response e), [].
    repeat split; [constructor | cbn; lia].
Qed.

(** X5. On an input that is not blank [get_response] calls the chain once,
    first, with the enhanced query, and then only the model, at most three
    times.  The response is the apology exactly when the chain raises or
    answers without an 'answer'; once the chain has answered, the response
    carries no error, the recipes and sources extracted from its passages,
    three suggestions, and an answer that starts with the chain's. *)
Theorem get_response_calls (user_input : string) (tr : trace) :
  all_space user_input = false ->
  exists (response : Response) (model_calls : list event),
    get_response chain_invoke llm_invoke user_input tr
    = (Ok response,
       tr ++ EvChainInvoke (_enhance_user_query user_input) :: model_calls)
    /\ Forall (fun ev => is_retrieval ev = false) model_calls
    /\ (length model_calls <= 3)%nat
    /\ match chain_invoke tr (_enhance_user_query user_input) with
       | Raise e => response = error_response e /\ model_calls = []
       | Ok result =>
           match cr_answer result with
           | None =>
               response = error_response (Exn KeyError "'answer'")
               /\ model_calls = []
           | Some answer =>
               let source_docs := default [] (cr_source_documents result) in
               resp_error response = None
               /\ resp_recipes response = _extract_recipe_info source_docs
               /\ resp_sources response = _process_sources source_docs
               /\ resp_suggestions response
                  = _generate_follow_up_suggestions user_input
                      (_extract_recipe_info source_docs)
               /\ PyStr.startswith answer (resp_answer response) = true
               /\ model_calls
                  = description_calls (_extract_recipe_info source_docs)
           end
       end.
Proof.
  apply get_response_nonblank.
Qed.

End Formatting.

Lemma get_response_calls_witness :
  all_space "soup for a cold day" = false
  /\ exists (response : Response) (model_calls : list event),
       get_response chain_up llm_down "soup for a cold day" []
       = (Ok response,
          [] ++ EvChainInvoke (_enhance_user_query "soup for a cold day")
                :: model_calls)
       /\ resp_error response = None
       /\ length model_calls = 2%nat.
Proof.
  split; [reflexivity |].
  destruct (get_response_calls chain_up llm_down "soup for a cold day" [] eq_refl)
    as (response & model_calls & Hrun & _ & _ & Hcase).
  exists response, model_calls. split; [exact Hrun |].
  cbv beta iota zeta delta [chain_up cr_answer] in Hcase.
  destruct Hcase as (Herr & _ & _ & _ & _ & ->).
  split; [exact Herr | reflexivity].
Defined.

(** ** Parsing a stored document *)

Lemma string_app_assoc (a b c : string) : (a +:+ b) +:+ c = a +:+ (b +:+ c).
Proof.
  induction a as [|x a IH]; [reflexivity |].
  change (String x (a +:+ b) +:+ c = String x (a +:+ b +:+ c)).
  change (String x ((a +:+ b) +:+ c) = String x (a +:+ b +:+ c)).
  f_equal. exact IH.
Qed.

Lemma contains_cons sep c s :
  PyStr.contains sep (String c s) = false ->
  PyStr.startswith sep (String c s) = false /\ PyStr.contains sep s = false.
Proof. cbn [PyStr.contains]. intros H. apply orb_false_elim in H. exact H. Qed.

(** A string without the separator is not split. *)
Lemma split_go_no_occurrence sep s cur :
  PyStr.contains sep s = false -> PyStr.split_go sep s 0 cur = [cur +:+ s].
Proof.
  revert cur. induction s as [|c s IH]; intros cur H.
  - cbn [PyStr.split_go]. rewrite string_app_empty_r. reflexivity.
  - apply contains_cons in H as [Hhere Hrest].
    cbn [PyStr.split_go]. rewrite Hhere, (IH _ Hrest), string_app_assoc.
    reflexivity.
Qed.

Lemma split_no_occurrence sep s :
  PyStr.contains sep s = false -> PyStr.split sep s = [s].
Proof. intros H. unfold PyStr.split. rewrite split_go_no_occurrence by exact H. reflexivity. Qed.

Lemma insert_string_values (m : gmap string pyval) key s :
  (forall k v, m !! k = Some v -> exists t, v = PStr t) ->
  forall k v, <[key := PStr s]> m !! k = Some v -> exists t, v = PStr t.
Proof.
  intros Hm k v. destruct (decide (key = k)) as [-> | Hne].
  - rewrite lookup_insert_eq. intros H. injection H as <-. exists s. reflexivity.
  - rewrite lookup_insert_ne by exact Hne. apply Hm.
Qed.

(** The sections only store strings. *)
Lemma parse_sections_strings doc k v :
  parse_sections doc !! k = Some v -> exists s : string, v = PStr s.
Proof.
  unfold parse_sections.
  assert (Hinv : forall sections (m : gmap string pyval),
             (forall k v, m !! k = Some v -> exists s, v = PStr s) ->
             forall k v, fold_left parse_section sections m !! k = Some v ->
                         exists s, v = PStr s).
  { induction sections as [|section rest IH]; intros m Hm; [exact Hm |].
    cbn [fold_left]. apply IH. unfold parse_section.
    destruct (PyStr.startswith "Ingredients:" section);
      [apply insert_string_values; exact Hm |].
    destruct (PyStr.startswith "Instructions:" section);
      [apply insert_string_values; exact Hm |].
    destruct (PyStr.startswith "Nutrition Information:" section);
      [apply insert_string_values; exact Hm | exact Hm]. }
  apply Hinv. intros k' v' H. rewrite lookup_empty in H. discriminate H.
Qed.

(** [_parse_recipe_document], case by case on the instructions found. *)
Lemma parse_recipe_document_cases doc :
  match parse_sections doc !! "instructions" with
  | None => _parse_recipe_document doc = parse_sections doc
  | Some (PStr instructions) =>
      if PyStr.contains "serves" (PyStr.lower instructions) then
        match PyStr.split "serves" instructions with
        | _ :: after :: _ =>
            match PyStr.split_ws after with
            | servings :: _ =>
                _parse_recipe_document doc
                = <["description" := PStr (description_of instructions)]>
                    (<["servings" := PStr servings]> (parse_sections doc))
            | [] => _parse_recipe_document doc = ∅
            end
        | _ => _parse_recipe_document doc = ∅
        end
      else
        _parse_recipe_document doc
        = <["description" := PStr (description_of instructions)]>
            (parse_sections doc)
  | Some _ => _parse_recipe_document doc = ∅
  end.
Proof.
  unfold _parse_recipe_document, parse_body. fold (parse_sections doc).
  unfold Py.has_key, Py.getitem.
  destruct (parse_sections doc !! "instructions") as [v |] eqn:Hins;
    [| cbn [rbind rcatch]; rewrite Hins; reflexivity].
  destruct v as [| | |instructions|]; try reflexivity.
  cbn [rbind Py.as_str].
  destruct (PyStr.contains "serves" (PyStr.lower instructions)).
  - destruct (PyStr.split "serves" instructions) as [|before [|after more]];
      try reflexivity.
    cbn [Py.index nth_error rbind].
    destruct (PyStr.split_ws after) as [|servings rest]; [reflexivity |].
    cbn [Py.index nth_error rbind].
    rewrite lookup_insert_ne by discriminate. rewrite Hins. reflexivity.
  - cbn [rbind]. rewrite Hins. reflexivity.
Qed.

(** X6. What [_parse_recipe_document] returns holds strings only, under the
    keys 'ingredients', 'instructions', 'nutrition', 'servings' and
    'description' only; a description is there exactly when instructions
    are, and it is their first twenty words joined by single spaces and
    followed by three dots. *)
Theorem parse_recipe_document_shape (doc : string) :
  (forall (k : string) (v : pyval),
     _parse_recipe_document doc !! k = Some v ->
     (exists s : string, v = PStr s)
     /\ k ∈ ["ingredients"; "instructions"; "nutrition"; "servings";
             "description"])
  /\ (forall instructions : string,
        _parse_recipe_document doc !! "instructions" = Some (PStr instructions) ->
        _parse_recipe_document doc !! "description"
        = Some (PStr (PyStr.join " " (take 20 (PyStr.split_ws instructions))
                      +:+ "...")))
  /\ (_parse_recipe_document doc !! "instructions" = None ->
      _parse_recipe_document doc !! "description" = None).
Proof.
  assert (Hdesc : parse_sections doc !! "description" = None).
  { unfold parse_sections. rewrite parse_sections_lookup by discriminate.
    apply lookup_empty. }
  assert (Hserv : parse_sections doc !! "servings" = None).
  { unfold parse_sections. rewrite parse_sections_lookup by discriminate.
    apply lookup_empty. }
  pose proof (parse_recipe_document_cases doc) as Hcases.
  repeat apply conj.
  - intros k v Hk. split.
    + destruct (parse_sections doc !! "instructions") as [w |] eqn:Hins.
      * destruct w as [| | |instructions|];
          try (rewrite Hcases, lookup_empty in Hk; discriminate Hk).
        destruct (PyStr.contains "serves" (PyStr.lower instructions)).
        -- destruct (PyStr.split "serves" instructions) as [|before [|after more]];
             try (rewrite Hcases, lookup_empty in Hk; discriminate Hk).
           destruct (PyStr.split_ws after) as [|servings rest];
             try (rewrite Hcases, lookup_empty in Hk; discriminate Hk).
           rewrite Hcases in Hk.
           destruct (decide (k = "description")) as [-> | Hne1].
           { rewrite lookup_insert_eq in Hk. injection Hk as <-. eexists; reflexivity. }
           rewrite lookup_insert_ne in Hk by congruence.
           destruct (decide (k = "servings")) as [-> | Hne2].
           { rewrite lookup_insert_eq in Hk. injection Hk as <-. eexists; reflexivity. }
           rewrite lookup_insert_ne in Hk by congruence.
           eapply parse_sections_strings. exact Hk.
        -- rewrite Hcases in Hk.
           destruct (decide (k = "description")) as [-> | Hne1].
           { rewrite lookup_insert_eq in Hk. injection Hk as <-. eexists; reflexivity. }
           rewrite lookup_insert_ne in Hk by congruence.
           eapply parse_sections_strings. exact Hk.
      * rewrite Hcases in Hk. eapply parse_sections_strings. exact Hk.
    + destruct (decide (k = "ingredients")) as [-> | H1]; [set_solver |].
      destruct (decide (k = "instructions")) as [-> | H2]; [set_solver |].
      destruct (decide (k = "nutrition")) as [-> | H3]; [set_solver |].
      destruct (decide (k = "servings")) as [-> | H4]; [set_solver |].
      destruct (decide (k = "description")) as [-> | H5]; [set_solver |].
      rewrite parse_recipe_document_lookup in Hk by assumption. discriminate Hk.
  - intros instructions Hk.
    destruct (parse_sections doc !! "instructions") as [w |] eqn:Hins.
    + destruct w as [| | |instr|];
        try (rewrite Hcases, lookup_empty in Hk; discriminate Hk).
      destruct (PyStr.contains "serves" (PyStr.lower instr)).
      * destruct (PyStr.split "serves" instr) as [|before [|after more]];
          try (rewrite Hcases, lookup_empty in Hk; discriminate Hk).
        destruct (PyStr.split_ws after) as [|servings rest];
          try (rewrite Hcases, lookup_empty in Hk; discriminate Hk).
        rewrite Hcases in Hk |- *.
        rewrite !lookup_insert_ne in Hk by discriminate.
        rewrite Hins in Hk. injection Hk as <-.
        rewrite lookup_insert_eq. reflexivity.
      * rewrite Hcases in Hk |- *.
        rewrite !lookup_insert_ne in Hk by discriminate.
        rewrite Hins in Hk. injection Hk as <-.
        rewrite lookup_insert_eq. reflexivity.
    + rewrite Hcases, Hins in Hk. discriminate Hk.
  - intros Hk.
    destruct (parse_sections doc !! "instructions") as [w |] eqn:Hins.
    + destruct w as [| | |instr|];
        try (rewrite Hcases; apply lookup_empty).
      destruct (PyStr.contains "serves" (PyStr.lower instr)).
      * destruct (PyStr.split "serves" instr) as [|before [|after more]];
          try (rewrite Hcases; apply lookup_empty).
        destruct (PyStr.split_ws after) as [|servings rest];
          try (rewrite Hcases; apply lookup_empty).
        rewrite Hcases in Hk. rewrite !lookup_insert_ne in Hk by discriminate.
        congruence.
      * rewrite Hcases in Hk. rewrite !lookup_insert_ne in Hk by discriminate.
        congruence.
    + rewrite Hcases. exact Hdesc.
Qed.

(** X7. The serving count is looked for without regard to case but cut out
    with regard to it: when the instructions hold 'serves' only in another
    case ('Serves 4'), the whole parse fails and [_parse_recipe_document]
    returns the empty dict, so the card of the recipe has servings 'N/A'
    and an empty description. *)
Theorem parse_capital_serves_loses_all
  (doc instructions : string) (md : gmap string pyval)
  (filters : option (list string)) (card : RecipeCard) :
  parse_sections doc !! "instructions" = Some (PStr instructions) ->
  PyStr.contains "serves" (PyStr.lower instructions) = true ->
  PyStr.contains "serves" instructions = false ->
  make_card (_parse_recipe_document doc) md filters = Ok card ->
  _parse_recipe_document doc = ∅
  /\ card_servings card = PStr "N/A"
  /\ card_description card = PStr "".
Proof.
  intros Hins Hlow Hexact Hcard.
  assert (Hempty : _parse_recipe_document doc = ∅).
  { pose proof (parse_recipe_document_cases doc) as Hcases.
    rewrite Hins, Hlow, (split_no_occurrence _ _ Hexact) in Hcases.
    exact Hcases. }
  split; [exact Hempty |].
  rewrite Hempty in Hcard. unfold make_card, rbind in Hcard.
  destruct (Py.getitem md "name"); [| discriminate Hcard].
  destruct (Py.getitem md "rating"); [| discriminate Hcard].
  destruct (veg_in filters); [| discriminate Hcard].
  injection Hcard as <-. split; reflexivity.
Qed.

Lemma parse_capital_serves_loses_all_witness :
  _parse_recipe_document
    (recipe_text "Pancakes" "flour, milk" "Whisk and fry. Serves 4." "200 kcal")
  = ∅
  /\ card_servings
       {| card_name := PStr "Pancakes"; card_image := PStr "";
          card_rating := PStr "5"; card_type := "Non-Vegetarian";
          card_servings := PStr "N/A"; card_description := PStr "" |}
     = PStr "N/A"
  /\ card_description
       {| card_name := PStr "Pancakes"; card_image := PStr "";
          card_rating := PStr "5"; card_type := "Non-Vegetarian";
          card_servings := PStr "N/A"; card_description := PStr "" |}
     = PStr "".
Proof.
  apply (parse_capital_serves_loses_all
           (recipe_text "Pancakes" "flour, milk" "Whisk and fry. Serves 4." "200 kcal")
           "Whisk and fry. Serves 4." (card_metadata "Pancakes" "5") (Some []));
    vm_compute; reflexivity.
Defined.

(** ** The filters, test by test *)

Lemma startswith_contains p s : PyStr.startswith p s = true -> PyStr.contains p s = true.
Proof. intros H. destruct s; cbn [PyStr.contains]; rewrite H; reflexivity. Qed.

Lemma startswith_drop a b s :
  PyStr.startswith (a +:+ b) s = true -> PyStr.contains b s = true.
Proof.
  revert s. induction a as [|x a IH]; intros s H.
  - apply startswith_contains. exact H.
  - destruct s as [|y s]; [discriminate H |].
    change (Ascii.eqb x y && PyStr.startswith (a +:+ b) s = true) in H.
    apply andb_prop in H as [_ H]. cbn [PyStr.contains].
    rewrite (IH _ H). apply orb_true_r.
Qed.

(** A text that holds [a ++ b] holds [b]. *)
Lemma contains_drop a b s :
  PyStr.contains (a +:+ b) s = true -> PyStr.contains b s = true.
Proof.
  induction s as [|y s IH]; cbn [PyStr.contains]; intros H.
  - rewrite orb_false_r in H. apply startswith_drop in H. exact H.
  - apply orb_prop in H as [H | H].
    + apply startswith_drop in H. exact H.
    + rewrite (IH H). apply orb_true_r.
Qed.

Lemma apply_filters_body_membership recipe_info fl fl' cooking_time :
  (forall x : string, Py.in_list x fl = Py.in_list x fl') ->
  apply_filters_body recipe_info fl cooking_time
  = apply_filters_body recipe_info fl' cooking_time.
Proof.
  intros Hmem. unfold apply_filters_body, Py.any_in_list.
  assert (Hany : forall xs, existsb (fun x => Py.in_list x fl) xs
                            = existsb (fun x => Py.in_list x fl') xs).
  { intros xs. induction xs as [|x xs IH]; [reflexivity |].
    simpl. rewrite Hmem, IH. reflexivity. }
  rewrite !Hany, !Hmem. reflexivity.
Qed.

(** X8. The verdict of [_apply_filters] depends on the list of filters only
    through which tags it holds: order and repetition do not matter. *)
Theorem apply_filters_by_membership
  (recipe_info : gmap string pyval) (fl fl' : list string) (cooking_time : Z) :
  (forall x : string, Py.in_list x fl = Py.in_list x fl') ->
  _apply_filters recipe_info (Some fl) cooking_time
  = _apply_filters recipe_info (Some fl') cooking_time.
Proof.
  intros Hmem.
  destruct fl as [|f fl], fl' as [|f' fl']; try reflexivity.
  - specialize (Hmem f'). cbn in Hmem. rewrite String.eqb_refl in Hmem.
    discriminate Hmem.
  - specialize (Hmem f). cbn in Hmem. rewrite String.eqb_refl in Hmem.
    discriminate Hmem.
  - unfold _apply_filters.
    rewrite (apply_filters_body_membership _ _ _ _ Hmem). reflexivity.
Qed.

Lemma apply_filters_by_membership_witness :
  _apply_filters (_parse_recipe_document salad_text)
    (Some ["veg"; "servings-5+"; "veg"]) 30
  = _apply_filters (_parse_recipe_document salad_text)
      (Some ["servings-5+"; "veg"]) 30.
Proof.
  apply (apply_filters_by_membership (_parse_recipe_document salad_text)
           ["veg"; "servings-5+"; "veg"] ["servings-5+"; "veg"] 30).
  intros x. cbn [Py.in_list existsb].
  destruct (String.eqb x "veg"), (String.eqb x "servings-5+"); reflexivity.
Defined.

(** X9. With 'non-veg' among the filters [_apply_filters] rejects every
    recipe whose type mentions 'veg', and a type that says 'non-veg' does:
    a recipe typed 'Non-Veg' is rejected under the filter 'veg' and under
    the filter 'non-veg' alike. *)
Theorem diet_filters_reject_non_veg
  (recipe_info : gmap string pyval) (fl : list string) (cooking_time : Z)
  (t : string) :
  type_lower recipe_info = Ok t ->
  PyStr.contains "non-veg" t = true ->
  Py.in_list "veg" fl = true \/ Py.in_list "non-veg" fl = true ->
  _apply_filters recipe_info (Some fl) cooking_time = false.
Proof.
  intros Ht Hnon Hfl.
  assert (Hveg : PyStr.contains "veg" t = true)
    by (apply (contains_drop "non-" "veg"); exact Hnon).
  assert (Hne : fl <> []) by (intros ->; destruct Hfl as [H | H]; discriminate H).
  rewrite apply_filters_nonempty by exact Hne.
  unfold apply_filters_body. rewrite Ht. cbn [rbind]. rewrite Hnon, Hveg.
  destruct (Py.in_list "veg" fl); [reflexivity |].
  destruct (Py.in_list "non-veg" fl); [reflexivity |].
  destruct Hfl as [H | H]; discriminate H.
Qed.

Lemma diet_filters_reject_non_veg_witness :
  _apply_filters {["type" := PStr "Non-Veg"]} (Some ["non-veg"]) 30 = false.
Proof.
  apply (diet_filters_reject_non_veg {["type" := PStr "Non-Veg"]} ["non-veg"] 30
           "non-veg"); [reflexivity | reflexivity | right; reflexivity].
Defined.

Lemma apply_filters_body_parsed doc fl cooking_time :
  apply_filters_body (_parse_recipe_document doc) fl cooking_time
  = if Py.any_in_list meal_times fl then Ok false
    else if Py.any_in_list meal_types fl then Ok false
    else if Py.any_in_list serving_buckets fl then
      (let* s := Py.as_str "split"
                   (Py.get (_parse_recipe_document doc) "servings" (PStr "0")) in
       let* tok := Py.index (PyStr.split_ws s) 0 in
       let* servings := Py.int (PStr tok) in
       Ok (bucket_ok fl servings))%py
    else Ok true.
Proof.
  unfold apply_filters_body. rewrite type_lower_parsed.
  unfold Py.has_key. rewrite parse_no_cooking_time. cbn [rbind].
  change (PyStr.contains "non-veg" "") with false.
  change (PyStr.contains "veg" "") with false.
  change (PyStr.any_in meal_times "") with false.
  change (PyStr.any_in meal_types "") with false.
  destruct (Py.in_list "veg" fl), (Py.in_list "non-veg" fl),
    (Py.any_in_list meal_times fl), (Py.any_in_list meal_types fl),
    (Py.any_in_list serving_buckets fl); cbn [rbind negb]; try reflexivity;
    unfold rbind;
    destruct (Py.as_str "split" _) as [s |]; try reflexivity;
    destruct (Py.index (PyStr.split_ws s) 0) as [tok |]; try reflexivity;
    destruct (Py.int (PStr tok)) as [n |]; try reflexivity;
    unfold bucket_ok;
    destruct (Py.in_list "servings-1-2" fl), (Py.in_list "servings-3-4" fl),
      (Py.in_list "servings-5+" fl), (2 <? n), (n <? 3), (4 <? n), (n <? 5);
    reflexivity.
Qed.

(** X10. For a recipe read from a stored document, the dietary flags, the
    cooking-time limit and any unknown tag reject nothing: when the filters
    hold no meal-time, meal-type or servings tag, [_apply_filters] accepts
    the recipe. *)
Theorem parsed_recipe_passes_other_tags
  (doc : string) (fl : list string) (cooking_time : Z) :
  Py.any_in_list meal_times fl = false ->
  Py.any_in_list meal_types fl = false ->
  Py.any_in_list serving_buckets fl = false ->
  _apply_filters (_parse_recipe_document doc) (Some fl) cooking_time = true.
Proof.
  intros Htime Htype Hserv. destruct fl as [|f fl]; [reflexivity |].
  unfold _apply_filters.
  rewrite apply_filters_body_parsed, Htime, Htype, Hserv. reflexivity.
Qed.

Lemma parsed_recipe_passes_other_tags_witness :
  _apply_filters (_parse_recipe_document stew_text)
    (Some ["non-veg"; "veg"; "gluten-free"]) 5 = true.
Proof.
  apply (parsed_recipe_passes_other_tags stew_text
           ["non-veg"; "veg"; "gluten-free"] 5); reflexivity.
Defined.

(** X11. For a recipe read from a stored document whose serving count is
    an integer, and filters without meal-time and meal-type tags but with a
    servings bucket, the verdict is the conjunction of the requested
    buckets: at most 2 for 'servings-1-2', 3 or 4 for 'servings-3-4', at
    least 5 for 'servings-5+'.  Two different buckets requested together
    therefore reject the recipe, whatever its count. *)
Theorem servings_buckets_verdict
  (doc : string) (fl : list string) (cooking_time : Z)
  (s tok : string) (rest : list string) (n : Z) :
  Py.any_in_list meal_times fl = false ->
  Py.any_in_list meal_types fl = false ->
  Py.any_in_list serving_buckets fl = true ->
  Py.get (_parse_recipe_document doc) "servings" (PStr "0") = PStr s ->
  PyStr.split_ws s = tok :: rest ->
  PyStr.parse_int tok = Some n ->
  _apply_filters (_parse_recipe_document doc) (Some fl) cooking_time
  = bucket_ok fl n
  /\ (Py.in_list "servings-1-2" fl = true -> bucket_ok fl n = true -> n <= 2)
  /\ (Py.in_list "servings-3-4" fl = true -> bucket_ok fl n = true -> 3 <= n <= 4)
  /\ (Py.in_list "servings-5+" fl = true -> bucket_ok fl n = true -> 5 <= n)
  /\ (Py.in_list "servings-1-2" fl && Py.in_list "servings-3-4" fl
      || Py.in_list "servings-1-2" fl && Py.in_list "servings-5+" fl
      || Py.in_list "servings-3-4" fl && Py.in_list "servings-5+" fl = true ->
      bucket_ok fl n = false).
Proof.
  intros Htime Htype Hserv Hs Htok Hn. repeat apply conj.
  - rewrite apply_filters_nonempty by (eapply any_in_list_nonempty; exact Hserv).
    rewrite apply_filters_body_parsed, Htime, Htype, Hserv, Hs.
    cbn [Py.as_str rbind]. rewrite Htok. cbn [Py.index nth_error rbind Py.int].
    rewrite Hn. reflexivity.
  - unfold bucket_ok. intros -> H.
    destruct (Z.ltb_spec 2 n); [discriminate H | lia].
  - unfold bucket_ok. intros -> H.
    destruct (Z.ltb_spec n 3), (Z.ltb_spec 4 n);
      rewrite ?andb_false_r in H; try discriminate H; lia.
  - unfold bucket_ok. intros -> H.
    destruct (Z.ltb_spec n 5); rewrite ?andb_false_r in H;
      [discriminate H | lia].
  - unfold bucket_ok.
    destruct (Py.in_list "servings-1-2" fl), (Py.in_list "servings-3-4" fl),
      (Py.in_list "servings-5+" fl); cbn [andb orb negb]; intros H;
      try discriminate H;
      destruct (Z.ltb_spec 2 n), (Z.ltb_spec n 3), (Z.ltb_spec 4 n),
        (Z.ltb_spec n 5); cbn [andb orb negb]; try reflexivity; lia.
Qed.

Lemma servings_buckets_verdict_witness :
  _apply_filters (_parse_recipe_document salad_text)
    (Some ["servings-5+"; "veg"]) 30
  = bucket_ok ["servings-5+"; "veg"] 6
  /\ bucket_ok ["servings-5+"; "veg"] 6 = true
  /\ _apply_filters (_parse_recipe_document salad_text)
       (Some ["servings-5+"; "servings-3-4"]) 30 = false.
Proof.
  destruct (servings_buckets_verdict salad_text ["servings-5+"; "veg"] 30
              "6" "6" [] 6 eq_refl eq_refl eq_refl eq_refl eq_refl eq_refl)
    as [Hv _].
  destruct (servings_buckets_verdict salad_text ["servings-5+"; "servings-3-4"] 30
              "6" "6" [] 6 eq_refl eq_refl eq_refl eq_refl eq_refl eq_refl)
    as (Hv' & _ & _ & _ & Hboth).
  split; [exact Hv |]. split; [reflexivity |].
  rewrite Hv'. apply Hboth. reflexivity.
Defined.

(** A recipe without a serving count is counted as serving none. *)
Example servings_default_demo :
  Py.get (_parse_recipe_document "Ingredients: salt") "servings" (PStr "0")
  = PStr "0"
  /\ _apply_filters (_parse_recipe_document "Ingredients: salt")
       (Some ["servings-1-2"]) 30 = true
  /\ _apply_filters (_parse_recipe_document "Ingredients: salt")
       (Some ["servings-3-4"]) 30 = false.
Proof. repeat split; vm_compute; reflexivity. Qed.

(** ** The filtered search as a whole *)

Lemma make_card_ready recipe_info md fl :
  card_ready md = true ->
  exists card, make_card recipe_info md (Some fl) = Ok card.
Proof.
  unfold card_ready, Py.has_key, make_card, Py.getitem. intros H.
  destruct (md !! "name"); [| discriminate H].
  destruct (md !! "rating"); [| discriminate H].
  eexists. reflexivity.
Qed.

Lemma make_card_not_ready recipe_info md filters :
  card_ready md = false ->
  exists e, make_card recipe_info md filters = Raise e.
Proof.
  unfold card_ready, Py.has_key, make_card, Py.getitem. intros H.
  destruct (md !! "name"); [| eexists; reflexivity].
  destruct (md !! "rating"); [discriminate H | eexists; reflexivity].
Qed.

Lemma filter_loop_ready batch fl cooking_time :
  forallb (fun '(doc, md) => card_ready md) batch = true ->
  filter_loop batch (Some fl) cooking_time
  = Ok (passing_cards batch fl cooking_time).
Proof.
  induction batch as [|[doc md] rest IH]; intros Hall; [reflexivity |].
  cbn [forallb] in Hall. apply andb_prop in Hall as [Hmd Hrest].
  cbn [filter_loop passing_cards flat_map].
  fold (passing_cards rest fl cooking_time).
  destruct (_apply_filters (_parse_recipe_document doc) (Some fl) cooking_time).
  - unfold card_of.
    destruct (make_card_ready (_parse_recipe_document doc) md fl Hmd) as [card ->].
    cbn [rbind]. rewrite (IH Hrest). reflexivity.
  - rewrite (IH Hrest). reflexivity.
Qed.

Lemma filter_loop_raises batch filters cooking_time doc md :
  In (doc, md) batch ->
  _apply_filters (_parse_recipe_document doc) filters cooking_time = true ->
  card_ready md = false ->
  exists e, filter_loop batch filters cooking_time = Raise e.
Proof.
  intros Hin Hpass Hmd. induction batch as [|[d m] rest IH]; [destruct Hin |].
  cbn [filter_loop]. destruct Hin as [Heq | Hin].
  - injection Heq as -> ->. rewrite Hpass.
    destruct (make_card_not_ready (_parse_recipe_document doc) md filters Hmd)
      as [e ->].
    exists e. reflexivity.
  - destruct (IH Hin) as [e He]. rewrite He.
    destruct (_apply_filters (_parse_recipe_document d) filters cooking_time);
      [| exists e; reflexivity].
    destruct (make_card (_parse_recipe_document d) m filters) as [c | e'];
      [exists e | exists e']; reflexivity.
Qed.

Section SearchMore.

Variable collection_query : trace -> string -> nat -> result query_result.

(** X12. With 'dessert', 'snacks' or 'main' among the filters the filtered
    search returns no recipe: the parser never sets a type, so the
    meal-type test rejects every recipe read from a document. *)
Theorem meal_type_filter_empties_search
  (query : string) (fl : list string) (cooking_time : Z) (tr : trace)
  (doc : string) :
  Py.any_in_list meal_types fl = true ->
  _apply_filters (_parse_recipe_document doc) (Some fl) cooking_time = false
  /\ search_recipes collection_query query (Some fl) cooking_time tr
     = (Ok [], tr ++ [EvCollectionQuery query 20]).
Proof.
  intros Hfl.
  assert (Hdoc : forall d,
             _apply_filters (_parse_recipe_document d) (Some fl) cooking_time
             = false).
  { intros d.
    rewrite apply_filters_nonempty by (eapply any_in_list_nonempty; exact Hfl).
    rewrite apply_filters_body_parsed, Hfl.
    destruct (Py.any_in_list meal_times fl); reflexivity. }
  split; [apply Hdoc |].
  rewrite search_recipes_eq. destruct (first_batch _) as [batch |]; [| reflexivity].
  assert (Hloop : filter_loop batch (Some fl) cooking_time = Ok []).
  { induction batch as [|[d m] rest IH]; [reflexivity |].
    cbn [filter_loop]. rewrite Hdoc. exact IH. }
  rewrite Hloop. reflexivity.
Qed.

(** X13. [search_recipes] makes one query to the collection, for twenty
    documents, and returns at most ten cards; it returns none when the
    collection raises, when it answers without documents, and when the
    filters are left at their default [None]. *)
Theorem search_recipes_shape
  (query : string) (filters : option (list string)) (cooking_time : Z)
  (tr : trace) :
  exists cards : list RecipeCard,
    search_recipes collection_query query filters cooking_time tr
    = (Ok cards, tr ++ [EvCollectionQuery query 20])
    /\ (length cards <= 10)%nat
    /\ (filters = None -> cards = [])
    /\ (first_batch (collection_query tr query 20) = None -> cards = []).
Proof.
  rewrite search_recipes_eq. eexists. split; [reflexivity |].
  destruct (first_batch _) as [batch |]; [| repeat split; cbn; lia].
  destruct (filter_loop batch filters cooking_time) as [cards |] eqn:Hloop;
    [| repeat split; cbn; lia].
  repeat split.
  - rewrite length_take. lia.
  - intros ->. destruct cards as [|card cards]; [reflexivity |].
    destruct (filter_loop_card_type _ _ _ _ card Hloop (or_introl eq_refl))
      as (fl & Hfl & _).
    discriminate Hfl.
  - intros H. discriminate H.
Qed.

(** X14. When the metadata of every document of the batch hold a name and a
    rating, the search returns the cards of the recipes that pass the
    filters, in the order of the batch, cut to the first ten. *)
Theorem search_recipes_ready
  (query : string) (fl : list string) (cooking_time : Z) (tr : trace)
  (batch : list (string * gmap string pyval)) :
  first_batch (collection_query tr query 20) = Some batch ->
  forallb (fun '(doc, md) => card_ready md) batch = true ->
  search_recipes collection_query query (Some fl) cooking_time tr
  = (Ok (take 10 (passing_cards batch fl cooking_time)),
     tr ++ [EvCollectionQuery query 20]).
Proof.
  intros Hbatch Hready.
  rewrite search_recipes_eq, Hbatch, (filter_loop_ready _ _ _ Hready).
  reflexivity.
Qed.

(** X15. One recipe that passes the filters and whose metadata lack the
    name or the rating empties the whole result, wherever it stands in the
    batch: the error of building its card ends the search. *)
Theorem search_recipes_incomplete_metadata
  (query : string) (filters : option (list string)) (cooking_time : Z)
  (tr : trace) (batch : list (string * gmap string pyval))
  (doc : string) (md : gmap string pyval) :
  first_batch (collection_query tr query 20) = Some batch ->
  In (doc, md) batch ->
  _apply_filters (_parse_recipe_document doc) filters cooking_time = true ->
  card_ready md = false ->
  search_recipes collection_query query filters cooking_time tr
  = (Ok [], tr ++ [EvCollectionQuery query 20]).
Proof.
  intros Hbatch Hin Hpass Hmd.
  rewrite search_recipes_eq, Hbatch.
  destruct (filter_loop_raises _ _ _ _ _ Hin Hpass Hmd) as [e ->].
  reflexivity.
Qed.

End SearchMore.

Lemma meal_type_filter_empties_search_witness :
  _apply_filters (_parse_recipe_document burrito_text) (Some ["main"; "veg"]) 30
  = false
  /\ search_recipes (sample_collection sample_batch) "stew"
       (Some ["main"; "veg"]) 30 []
     = (Ok [], [] ++ [EvCollectionQuery "stew" 20]).
Proof.
  apply (meal_type_filter_empties_search (sample_collection sample_batch)
           "stew" ["main"; "veg"] 30 [] burrito_text).
  reflexivity.
Defined.

Lemma search_recipes_ready_witness :
  search_recipes (sample_collection sample_batch) "stew" (Some ["servings-1-2"]) 30 []
  = (Ok (take 10 (passing_cards sample_batch ["servings-1-2"] 30)),
     [] ++ [EvCollectionQuery "stew" 20])
  /\ length (passing_cards sample_batch ["servings-1-2"] 30) = 2%nat.
Proof.
  split; [| vm_compute; reflexivity].
  apply (search_recipes_ready (sample_collection sample_batch) "stew"
           ["servings-1-2"] 30 [] sample_batch); vm_compute; reflexivity.
Defined.

Lemma search_recipes_incomplete_metadata_witness :
  search_recipes
    (sample_collection (sample_batch ++ [(salad_text, {["name" := PStr "Salad"]})]))
    "salad" (Some ["veg"]) 30 []
  = (Ok [], [] ++ [EvCollectionQuery "salad" 20]).
Proof.
  apply (search_recipes_incomplete_metadata
           (sample_collection
              (sample_batch ++ [(salad_text, {["name" := PStr "Salad"]})]))
           "salad" (Some ["veg"]) 30 []
           (sample_batch ++ [(salad_text, {["name" := PStr "Salad"]})])
           salad_text {["name" := PStr "Salad"]});
    [vm_compute; reflexivity | | vm_compute; reflexivity | vm_compute; reflexivity].
  apply in_or_app. right. left. reflexivity.
Defined.

(** ** What [add_recipe] stores, and what the chatbot makes of it *)

Lemma recipe_metadata_lookup recipe_data :
  recipe_metadata recipe_data !! "name" = Some (item_or recipe_data 1 (PStr "Unknown"))
  /\ recipe_metadata recipe_data !! "rating" = Some (item_or recipe_data 9 (PStr "0"))
  /\ recipe_metadata recipe_data !! "image_url"
     = Some (item_or recipe_data 14 (PStr ""))
  /\ recipe_metadata recipe_data !! "recipe_name" = None
  /\ recipe_metadata recipe_data !! "title" = None
  /\ recipe_metadata recipe_data !! "source" = None.
Proof.
  unfold recipe_metadata.
  repeat split;
    repeat first [rewrite lookup_insert_eq; reflexivity
                 | rewrite lookup_insert_ne by discriminate
                 | apply lookup_empty].
Qed.

Lemma stored_passage_nameless doc :
  stored_passage doc ->
  recipe_name_of (metadata doc) = PStr "Unknown Recipe"
  /\ source_key_of doc = "Recipe Database_Unknown Recipe".
Proof.
  intros [recipe_data Hmd].
  destruct (recipe_metadata_lookup recipe_data) as (_ & _ & _ & Hrn & Ht & Hs).
  unfold recipe_name_of, source_key_of, Py.get. rewrite Hmd, Hrn, Ht, Hs.
  split; reflexivity.
Qed.

Lemma NoDup_all_equal (l : list string) (x : string) :
  NoDup l -> (forall y, y ∈ l -> y = x) -> (length l <= 1)%nat.
Proof.
  intros Hnd Hall.
  destruct l as [|a [|b l]]; cbn; try lia.
  exfalso. apply NoDup_cons in Hnd as [Ha _]. apply Ha.
  rewrite (Hall a) by set_solver. rewrite <- (Hall b) by set_solver. set_solver.
Qed.

(** X16. The metadata that [add_recipe] stores hold the name of the recipe
    under 'name', never under 'recipe_name' or 'title', and hold no
    'source'.  So when the retrieved passages carry these metadata, all of
    them are named 'Unknown Recipe': [_extract_recipe_info] keeps at most
    one recipe, that of the first passage, [_process_sources] at most one
    source, and the answer is never given the list of recipes that needs
    two of them. *)
Theorem stored_passages_collapse (source_docs : list Document) :
  (forall doc : Document, doc ∈ source_docs -> stored_passage doc) ->
  (length (_extract_recipe_info source_docs) <= 1)%nat
  /\ (forall info : RecipeInfo,
        In info (_extract_recipe_info source_docs) ->
        ri_name info = PStr "Unknown Recipe"
        /\ exists first : Document,
             source_docs !! 0%nat = Some first /\ info = recipe_info_of first)
  /\ (length (_process_sources source_docs) <= 1)%nat
  /\ (forall e : SourceEntry,
        e ∈ _process_sources source_docs ->
        se_source e = PStr "Recipe Database"
        /\ se_recipe_name e = PStr "Unknown Recipe")
  /\ description_calls (_extract_recipe_info source_docs) = [].
Proof.
  intros Hstored.
  assert (Hname : forall info,
             In info (_extract_recipe_info source_docs) ->
             ri_name info = PStr "Unknown Recipe"
             /\ exists first, source_docs !! 0%nat = Some first
                              /\ info = recipe_info_of first).
  { intros info Hin. unfold _extract_recipe_info in Hin.
    apply extract_loop_origin in Hin as (i & doc & Hi & -> & _ & _ & Hfirst).
    apply lookup_take_Some in Hi as [Hi Hlt].
    assert (Hdoc : recipe_name_of (metadata doc) = PStr "Unknown Recipe").
    { apply stored_passage_nameless, Hstored.
      eapply list_elem_of_lookup_2. exact Hi. }
    split; [exact Hdoc |].
    destruct i as [|i]; [exists doc; split; [exact Hi | reflexivity] |].
    exfalso.
    destruct (source_docs !! 0%nat) as [d0 |] eqn:H0.
    - assert (Hd0 : recipe_name_of (metadata d0) = PStr "Unknown Recipe").
      { apply stored_passage_nameless, Hstored.
        eapply list_elem_of_lookup_2. exact H0. }
      assert (Ht0 : take 6 source_docs !! 0%nat = Some d0)
        by (apply lookup_take_Some; split; [exact H0 | lia]).
      specialize (Hfirst 0%nat d0 (Nat.lt_0_succ i) Ht0).
      rewrite Hdoc, Hd0 in Hfirst. discriminate Hfirst.
    - apply lookup_lt_Some in Hi. apply lookup_ge_None in H0. lia. }
  assert (Hlen : (length (_extract_recipe_info source_docs) <= 1)%nat).
  { destruct (_extract_recipe_info source_docs) as [|a [|b l]] eqn:Hout;
      cbn; try lia.
    exfalso.
    pose proof (extract_loop_distinct (take 6 source_docs) []) as Hd.
    fold (_extract_recipe_info source_docs) in Hd. rewrite Hout in Hd.
    destruct Hd as [Hd _]. specialize (Hd b (or_introl eq_refl)).
    destruct (Hname a (or_introl eq_refl)) as [Ha _].
    destruct (Hname b (or_intror (or_introl eq_refl))) as [Hb _].
    rewrite Ha, Hb in Hd. discriminate Hd. }
  assert (Hsrc : forall e, e ∈ _process_sources source_docs ->
                           se_source e = PStr "Recipe Database"
                           /\ se_recipe_name e = PStr "Unknown Recipe").
  { intros e He. unfold _process_sources in He. apply subseteq_take in He.
    apply process_loop_origin in He as (doc & Hd & -> & _).
    destruct (Hstored doc Hd) as [recipe_data Hmd].
    destruct (recipe_metadata_lookup recipe_data) as (_ & _ & _ & Hrn & _ & Hs).
    cbn [source_entry_of se_source se_recipe_name]. unfold Py.get.
    rewrite Hmd, Hrn, Hs. split; reflexivity. }
  repeat apply conj; try assumption.
  - rewrite <- (length_fmap entry_key).
    apply (NoDup_all_equal _ "Recipe Database_Unknown Recipe").
    + unfold _process_sources. apply process_loop_take_keys_NoDup.
    + intros y Hy. apply list_elem_of_fmap in Hy as (e & -> & He).
      destruct (Hsrc e He) as [Hs Hn]. unfold entry_key. rewrite Hs, Hn.
      reflexivity.
  - unfold description_calls.
    destruct (Nat.ltb_spec 1 (length (_extract_recipe_info source_docs)));
      [lia | reflexivity].
Qed.

Lemma stored_passages_collapse_witness :
  let docs :=
    [mkDocument (format_recipe_text sample_row) (recipe_metadata sample_row);
     mkDocument (format_recipe_text sample_short_row)
       (recipe_metadata sample_short_row)] in
  (length (_extract_recipe_info docs) <= 1)%nat
  /\ (length (_process_sources docs) <= 1)%nat
  /\ description_calls (_extract_recipe_info docs) = [].
Proof.
  cbv zeta.
  destruct (stored_passages_collapse
              [mkDocument (format_recipe_text sample_row)
                 (recipe_metadata sample_row);
               mkDocument (format_recipe_text sample_short_row)
                 (recipe_metadata sample_short_row)])
    as (Hlen & _ & Hsrc & _ & Hcalls).
  - intros doc Hdoc.
    apply elem_of_cons in Hdoc as [-> | Hdoc]; [exists sample_row; reflexivity |].
    apply elem_of_cons in Hdoc as [-> | Hdoc];
      [exists sample_short_row; reflexivity | inversion Hdoc].
  - split; [exact Hlen |]. split; [exact Hsrc | exact Hcalls].
Defined.

Section StoredSearch.

Variable collection_query : trace -> string -> nat -> result query_result.

(** X17. A card can always be built for a recipe stored by [add_recipe]:
    when the metadata of the batch are those of rows of the table, the
    search returns the cards of the recipes that pass the filters, and the
    name and the rating of a card are the second and the tenth cell of its
    row, or 'Unknown' and '0' for a shorter row. *)
Theorem search_stored_recipes
  (query : string) (fl : list string) (cooking_time : Z) (tr : trace)
  (batch : list (string * gmap string pyval)) :
  first_batch (collection_query tr query 20) = Some batch ->
  (forall doc md, In (doc, md) batch ->
                  exists recipe_data, md = recipe_metadata recipe_data) ->
  search_recipes collection_query query (Some fl) cooking_time tr
  = (Ok (take 10 (passing_cards batch fl cooking_time)),
     tr ++ [EvCollectionQuery query 20])
  /\ forall (doc : string) (recipe_data : list pyval),
       exists card : RecipeCard,
         make_card (_parse_recipe_document doc) (recipe_metadata recipe_data)
           (Some fl) = Ok card
         /\ card_name card = item_or recipe_data 1 (PStr "Unknown")
         /\ card_rating card = item_or recipe_data 9 (PStr "0")
         /\ card_image card = item_or recipe_data 14 (PStr "").
Proof.
  intros Hbatch Hrows. split.
  - rewrite search_recipes_eq, Hbatch.
    rewrite (filter_loop_ready batch fl cooking_time); [reflexivity |].
    apply forallb_forall. intros [doc md] Hin.
    destruct (Hrows doc md Hin) as [recipe_data ->].
    destruct (recipe_metadata_lookup recipe_data) as (Hn & Hr & _).
    unfold card_ready, Py.has_key. rewrite Hn, Hr. reflexivity.
  - intros doc recipe_data.
    destruct (recipe_metadata_lookup recipe_data) as (Hn & Hr & Hi & _).
    unfold make_card, Py.getitem, Py.get. rewrite Hn, Hr, Hi.
    eexists. split; [reflexivity |]. repeat split.
Qed.

End StoredSearch.

Lemma search_stored_recipes_witness :
  let batch := [(format_recipe_text sample_row, recipe_metadata sample_row);
                (format_recipe_text sample_short_row,
                 recipe_metadata sample_short_row)] in
  search_recipes (sample_collection batch) "pie" (Some ["veg"]) 30 []
  = (Ok (take 10 (passing_cards batch ["veg"] 30)),
     [] ++ [EvCollectionQuery "pie" 20])
  /\ map card_name (passing_cards batch ["veg"] 30)
     = [PStr "Apple Pie"; PStr "Toast"].
Proof.
  cbv zeta. split; [| vm_compute; reflexivity].
  apply (search_stored_recipes
           (sample_collection
              [(format_recipe_text sample_row, recipe_metadata sample_row);
               (format_recipe_text sample_short_row,
                recipe_metadata sample_short_row)])
           "pie" ["veg"] 30 []); [vm_compute; reflexivity |].
  intros doc md [Heq | [Heq | []]]; injection Heq as <- <-;
    [exists sample_row | exists sample_short_row]; reflexivity.
Defined.

(** ** From a row to its text and back *)

Lemma append_cons c (a b : string) : String c a +:+ b = String c (a +:+ b).
Proof. reflexivity. Qed.

Lemma append_nil (b : string) : "" +:+ b = b.
Proof. reflexivity. Qed.

Lemma is_empty_app (a b : string) :
  PyStr.is_empty b = false -> PyStr.is_empty (a +:+ b) = false.
Proof. destruct a; [intros H; exact H | reflexivity]. Qed.

Lemma rstrip_cons c s :
  PyStr.rstrip (String c s)
  = if PyStr.isspace c && PyStr.is_empty (PyStr.rstrip s)
    then "" else String c (PyStr.rstrip s).
Proof. reflexivity. Qed.

Lemma rstrip_app (x z : string) :
  PyStr.is_empty (PyStr.rstrip z) = false ->
  PyStr.rstrip (x +:+ z) = x +:+ PyStr.rstrip z.
Proof.
  intros Hz. induction x as [|c x IH]; [reflexivity |].
  rewrite append_cons, rstrip_cons, IH, (is_empty_app _ _ Hz), andb_false_r.
  reflexivity.
Qed.

Lemma rstrip_idem s : PyStr.rstrip (PyStr.rstrip s) = PyStr.rstrip s.
Proof.
  induction s as [|c s IH]; [reflexivity |].
  rewrite rstrip_cons.
  destruct (PyStr.isspace c && PyStr.is_empty (PyStr.rstrip s)) eqn:Hc;
    [reflexivity |].
  rewrite rstrip_cons, IH, Hc. reflexivity.
Qed.

Lemma rstrip_empty_all_space s :
  PyStr.is_empty (PyStr.rstrip s) = true -> all_space s = true.
Proof.
  induction s as [|c s IH]; [reflexivity |].
  rewrite rstrip_cons. cbn [all_space].
  destruct (PyStr.isspace c); cbn [andb].
  - destruct (PyStr.is_empty (PyStr.rstrip s)); [intros _; apply IH; reflexivity |].
    intros H; discriminate H.
  - intros H; discriminate H.
Qed.

Lemma rstrip_snoc_space c s :
  PyStr.isspace c = true ->
  PyStr.rstrip (s +:+ String c "") = PyStr.rstrip s.
Proof.
  intros Hc. induction s as [|x s IH].
  - rewrite append_nil, rstrip_cons, Hc. reflexivity.
  - rewrite append_cons, !rstrip_cons, IH. reflexivity.
Qed.

Lemma lstrip_rstrip_comm s :
  PyStr.lstrip (PyStr.rstrip s) = PyStr.rstrip (PyStr.lstrip s).
Proof.
  induction s as [|c s IH]; [reflexivity |].
  rewrite rstrip_cons. cbn [PyStr.lstrip].
  destruct (PyStr.isspace c) eqn:Hc; cbn [andb].
  - destruct (PyStr.is_empty (PyStr.rstrip s)) eqn:He.
    + apply rstrip_empty_all_space in He.
      rewrite (lstrip_all_space _ He). reflexivity.
    + cbn [PyStr.lstrip]. rewrite Hc. exact IH.
  - cbn [PyStr.lstrip]. rewrite Hc, rstrip_cons, Hc. reflexivity.
Qed.

(** Stripping twice is stripping once. *)
Lemma strip_rstrip s : PyStr.strip (PyStr.rstrip s) = PyStr.strip s.
Proof.
  unfold PyStr.strip. rewrite lstrip_rstrip_comm, rstrip_idem. reflexivity.
Qed.

Lemma strip_between_newlines s : PyStr.strip (nl +:+ s +:+ nl) = PyStr.strip s.
Proof.
  unfold PyStr.strip.
  change (PyStr.lstrip (nl +:+ s +:+ nl)) with (PyStr.lstrip (s +:+ nl)).
  rewrite <- !lstrip_rstrip_comm. unfold nl.
  rewrite rstrip_snoc_space by reflexivity. reflexivity.
Qed.

Lemma rstrip_prefix s : exists z, s = PyStr.rstrip s +:+ z.
Proof.
  induction s as [|c s [z Hz]]; [exists ""; reflexivity |].
  rewrite rstrip_cons.
  destruct (PyStr.isspace c && PyStr.is_empty (PyStr.rstrip s)).
  - exists (String c s). reflexivity.
  - exists z. rewrite append_cons, <- Hz. reflexivity.
Qed.

Lemma contains_app_l p x z :
  PyStr.contains p x = true -> PyStr.contains p (x +:+ z) = true.
Proof.
  induction x as [|c x IH]; cbn [PyStr.contains]; intros H.
  - rewrite orb_false_r in H. destruct p; [| discriminate H].
    destruct z; reflexivity.
  - rewrite append_cons. cbn [PyStr.contains].
    apply orb_prop in H as [H | H].
    + rewrite <- append_cons, (startswith_app_r _ _ z H). reflexivity.
    + rewrite (IH H). apply orb_true_r.
Qed.

Lemma contains_rstrip p s :
  PyStr.contains p s = false -> PyStr.contains p (PyStr.rstrip s) = false.
Proof.
  intros H. destruct (PyStr.contains p (PyStr.rstrip s)) eqn:Hr; [| reflexivity].
  destruct (rstrip_prefix s) as [z Hz].
  rewrite Hz, (contains_app_l _ _ z Hr) in H. discriminate H.
Qed.

(** A character that the pattern does not hold separates the search. *)
Lemma startswith_before_absent p c x y :
  forallb (fun a => negb (Ascii.eqb a c)) (list_ascii_of_string p) = true ->
  PyStr.startswith p (x +:+ String c y) = PyStr.startswith p x.
Proof.
  revert x. induction p as [|a p IH]; intros x Hp; [reflexivity |].
  cbn [list_ascii_of_string forallb] in Hp. apply andb_prop in Hp as [Ha Hp].
  destruct x as [|b x].
  - rewrite append_nil. cbn [PyStr.startswith].
    apply negb_true_iff in Ha. rewrite Ha. reflexivity.
  - rewrite append_cons. cbn [PyStr.startswith]. rewrite (IH x Hp). reflexivity.
Qed.

Lemma contains_absent_char p c x y :
  p <> "" ->
  forallb (fun a => negb (Ascii.eqb a c)) (list_ascii_of_string p) = true ->
  PyStr.contains p (x +:+ String c y) = PyStr.contains p x || PyStr.contains p y.
Proof.
  intros Hne Hp. induction x as [|b x IH].
  - rewrite append_nil. cbn [PyStr.contains].
    rewrite <- (append_nil (String c y)) at 1.
    rewrite (startswith_before_absent p c "" y Hp).
    destruct p; [congruence | reflexivity].
  - rewrite append_cons. cbn [PyStr.contains].
    rewrite <- append_cons, (startswith_before_absent p c _ y Hp), IH.
    rewrite orb_assoc. reflexivity.
Qed.

(** A prefix without newlines adds no blank line. *)
Lemma contains_blank_after h x :
  forallb (fun a => negb (Ascii.eqb a "010")) (list_ascii_of_string h) = true ->
  PyStr.contains (nl +:+ nl) (h +:+ x) = PyStr.contains (nl +:+ nl) x.
Proof.
  intros Hh. induction h as [|a h IH]; [reflexivity |].
  cbn [list_ascii_of_string forallb] in Hh. apply andb_prop in Hh as [Ha Hh].
  rewrite append_cons. cbn [PyStr.contains].
  rewrite (IH Hh).
  change (PyStr.startswith (nl +:+ nl) (String a (h +:+ x)))
    with (Ascii.eqb "010" a && PyStr.startswith nl (h +:+ x)).
  apply negb_true_iff in Ha. rewrite Ascii.eqb_sym, Ha. reflexivity.
Qed.

Lemma startswith_app_long p x y :
  (String.length p <= String.length x)%nat ->
  PyStr.startswith p (x +:+ y) = PyStr.startswith p x.
Proof.
  revert x. induction p as [|a p IH]; intros x Hlen; [reflexivity |].
  destruct x as [|b x]; [simpl in Hlen; lia |].
  rewrite append_cons. cbn [PyStr.startswith]. rewrite IH; [reflexivity |].
  simpl in Hlen. lia.
Qed.

(** The first blank line of a text ends its first section. *)
Lemma split_go_section a b cur :
  PyStr.contains (nl +:+ nl) (a +:+ nl) = false ->
  PyStr.split_go (nl +:+ nl) (a +:+ (nl +:+ nl) +:+ b) 0 cur
  = (cur +:+ a) :: PyStr.split_go (nl +:+ nl) b 0 "".
Proof.
  revert cur. induction a as [|c a IH]; intros cur Ha.
  - rewrite string_app_empty_r. reflexivity.
  - rewrite append_cons in Ha. apply contains_cons in Ha as [Hhere Hrest].
    rewrite append_cons. cbn [PyStr.split_go].
    assert (Hno : PyStr.startswith (nl +:+ nl) (String c (a +:+ (nl +:+ nl) +:+ b))
                  = false).
    { rewrite <- Hhere.
      change (a +:+ (nl +:+ nl) +:+ b) with (a +:+ nl +:+ (nl +:+ b)).
      rewrite <- (string_app_assoc a nl (nl +:+ b)), <- !append_cons.
      apply startswith_app_long.
      rewrite (string_length_app (String c a) nl).
      change (String.length (nl +:+ nl)) with 2%nat.
      change (String.length nl) with 1%nat.
      change (String.length (String c a)) with (S (String.length a)). lia. }
    rewrite Hno, (IH _ Hrest), string_app_assoc. reflexivity.
Qed.

(** After a header that opens the text the rest is searched on its own. *)
Lemma split_go_skip sep p x cur :
  PyStr.split_go sep (p +:+ x) (String.length p) cur = PyStr.split_go sep x 0 cur.
Proof.
  induction p as [|c p IH]; [reflexivity |].
  rewrite append_cons. cbn [String.length PyStr.split_go]. exact IH.
Qed.

Lemma replace_header h x :
  h <> "" -> PyStr.contains h x = false -> PyStr.replace h "" (h +:+ x) = x.
Proof.
  intros Hne Hx. unfold PyStr.replace, PyStr.split.
  destruct h as [|c h]; [congruence |].
  rewrite append_cons. cbn [PyStr.split_go].
  rewrite <- append_cons, startswith_app.
  cbn [String.length Nat.sub]. rewrite Nat.sub_0_r, split_go_skip.
  rewrite split_go_no_occurrence by exact Hx. reflexivity.
Qed.

Lemma strip_recipe_text name ingredients instructions nutrition :
  PyStr.strip
    (nl +:+ "Recipe: " +:+ name +:+ nl +:+ nl
     +:+ "Ingredients:" +:+ nl +:+ ingredients +:+ nl +:+ nl
     +:+ "Instructions:" +:+ nl +:+ instructions +:+ nl +:+ nl
     +:+ "Nutrition Information:" +:+ nl +:+ nutrition +:+ nl)
  = ("Recipe: " +:+ name) +:+ (nl +:+ nl)
    +:+ (("Ingredients:" +:+ nl +:+ ingredients) +:+ (nl +:+ nl)
         +:+ (("Instructions:" +:+ nl +:+ instructions) +:+ (nl +:+ nl)
              +:+ ("Nutrition Information:"
                   +:+ PyStr.rstrip (nl +:+ nutrition +:+ nl)))).
Proof.
  unfold PyStr.strip.
  change (PyStr.lstrip (nl +:+ "Recipe: " +:+ ?x)) with ("Recipe: " +:+ x).
  transitivity
    (PyStr.rstrip
       (("Recipe: " +:+ name +:+ nl +:+ nl
         +:+ "Ingredients:" +:+ nl +:+ ingredients +:+ nl +:+ nl
         +:+ "Instructions:" +:+ nl +:+ instructions +:+ nl +:+ nl)
        +:+ ("Nutrition Information:" +:+ nl +:+ nutrition +:+ nl))).
  { f_equal. rewrite !string_app_assoc. reflexivity. }
  rewrite rstrip_app by reflexivity.
  change (PyStr.rstrip ("Nutrition Information:" +:+ nl +:+ nutrition +:+ nl))
    with ("Nutrition Information:" +:+ PyStr.rstrip (nl +:+ nutrition +:+ nl)).
  rewrite !string_app_assoc. reflexivity.
Qed.

Lemma tidy_section h cell :
  forallb (fun a => negb (Ascii.eqb a "010")) (list_ascii_of_string h) = true ->
  tidy cell = true ->
  PyStr.contains (nl +:+ nl) ((h +:+ nl +:+ cell) +:+ nl) = false.
Proof.
  intros Hh Ht. unfold tidy in Ht. apply negb_true_iff in Ht.
  rewrite !string_app_assoc, contains_blank_after by exact Hh. exact Ht.
Qed.

Lemma tidy_name h cell :
  forallb (fun a => negb (Ascii.eqb a "010")) (list_ascii_of_string h) = true ->
  tidy cell = true ->
  PyStr.contains (nl +:+ nl) ((h +:+ cell) +:+ nl) = false.
Proof.
  intros Hh Ht. unfold tidy in Ht. apply negb_true_iff in Ht.
  rewrite !string_app_assoc, contains_blank_after by exact Hh.
  change (nl +:+ cell +:+ nl) with (String "010" (cell +:+ nl)) in Ht.
  apply contains_cons in Ht as [_ Ht]. exact Ht.
Qed.

Lemma header_after_newline h cell :
  h <> "" ->
  forallb (fun a => negb (Ascii.eqb a "010")) (list_ascii_of_string h) = true ->
  PyStr.contains h cell = false ->
  PyStr.contains h (nl +:+ cell +:+ nl) = false.
Proof.
  intros Hne Hh Hc.
  change (nl +:+ cell +:+ nl)
    with ("" +:+ String "010" (cell +:+ String "010" "")).
  rewrite (contains_absent_char h "010" "" _ Hne Hh).
  rewrite (contains_absent_char h "010" cell "" Hne Hh), Hc.
  destruct h; [congruence | reflexivity].
Qed.

Lemma section_cell h cell :
  h <> "" ->
  forallb (fun a => negb (Ascii.eqb a "010")) (list_ascii_of_string h) = true ->
  PyStr.contains h cell = false ->
  PyStr.strip (PyStr.replace h "" (h +:+ nl +:+ cell)) = PyStr.strip cell.
Proof.
  intros Hne Hh Hc.
  assert (Hnl : PyStr.contains h (nl +:+ cell) = false).
  { pose proof (header_after_newline h cell Hne Hh Hc) as H.
    destruct (PyStr.contains h (nl +:+ cell)) eqn:Hx; [| reflexivity].
    rewrite <- string_app_assoc, (contains_app_l _ _ nl Hx) in H.
    discriminate H. }
  rewrite (replace_header h _ Hne Hnl). reflexivity.
Qed.

Lemma last_section_cell h cell :
  h <> "" ->
  forallb (fun a => negb (Ascii.eqb a "010")) (list_ascii_of_string h) = true ->
  PyStr.contains h cell = false ->
  PyStr.strip (PyStr.replace h "" (h +:+ PyStr.rstrip (nl +:+ cell +:+ nl)))
  = PyStr.strip cell.
Proof.
  intros Hne Hh Hc.
  rewrite replace_header;
    [| exact Hne
     | apply contains_rstrip, header_after_newline; assumption].
  rewrite strip_rstrip. apply strip_between_newlines.
Qed.

(** X18. The text that [format_recipe_text] makes of a row is read back by
    the parser: when the name, ingredients, instructions and nutrition
    cells hold no blank line, neither start nor end with a newline and do
    not hold the header of their own section, the sections found are
    exactly these three cells, stripped; and unless the instructions
    mention 'serves', what [_parse_recipe_document] returns is these
    sections and the description made of the instructions. *)
Theorem format_then_parse (recipe_data : list pyval) :
  let name := Py.str (item_or recipe_data 1 (PStr "Unknown Recipe")) in
  let ingredients := Py.str (item_or recipe_data 7 (PStr "")) in
  let instructions := Py.str (item_or recipe_data 8 (PStr "")) in
  let nutrition := Py.str (item_or recipe_data 12 (PStr "")) in
  let sections : gmap string pyval :=
    <["nutrition" := PStr (PyStr.strip nutrition)]>
      (<["instructions" := PStr (PyStr.strip instructions)]>
         (<["ingredients" := PStr (PyStr.strip ingredients)]> ∅)) in
  tidy name = true -> tidy ingredients = true ->
  tidy instructions = true -> tidy nutrition = true ->
  PyStr.contains "Ingredients:" ingredients = false ->
  PyStr.contains "Instructions:" instructions = false ->
  PyStr.contains "Nutrition Information:" nutrition = false ->
  parse_sections (format_recipe_text recipe_data) = sections
  /\ (PyStr.contains "serves" (PyStr.lower (PyStr.strip instructions)) = false ->
      _parse_recipe_document (format_recipe_text recipe_data)
      = <["description" := PStr (description_of (PyStr.strip instructions))]>
          sections).
Proof.
  intros name ingredients instructions nutrition sections
    Hname Hing Hins Hnut Hhing Hhins Hhnut.
  assert (Hsections : parse_sections (format_recipe_text recipe_data) = sections).
  { unfold parse_sections, format_recipe_text.
    fold name ingredients instructions nutrition.
    rewrite strip_recipe_text. unfold PyStr.split.
    rewrite split_go_section by (apply tidy_name; [reflexivity | exact Hname]).
    rewrite split_go_section by (apply tidy_section; [reflexivity | exact Hing]).
    rewrite split_go_section by (apply tidy_section; [reflexivity | exact Hins]).
    rewrite split_go_no_occurrence.
    2:{ rewrite contains_blank_after by reflexivity.
        apply contains_rstrip. unfold tidy in Hnut.
        apply negb_true_iff in Hnut. exact Hnut. }
    rewrite !append_nil. cbn [fold_left].
    change (parse_section ∅ ("Recipe: " +:+ name)) with (∅ : gmap string pyval).
    change (parse_section ∅ ("Ingredients:" +:+ nl +:+ ingredients))
      with (<["ingredients" :=
                PStr (PyStr.strip
                        (PyStr.replace "Ingredients:" ""
                           ("Ingredients:" +:+ nl +:+ ingredients)))]>
              (∅ : gmap string pyval)).
    rewrite section_cell by first [discriminate | reflexivity | assumption].
    change (parse_section ?m ("Instructions:" +:+ nl +:+ instructions))
      with (<["instructions" :=
                PStr (PyStr.strip
                        (PyStr.replace "Instructions:" ""
                           ("Instructions:" +:+ nl +:+ instructions)))]> m).
    rewrite section_cell by first [discriminate | reflexivity | assumption].
    change (parse_section ?m
              ("Nutrition Information:"
               +:+ PyStr.rstrip (nl +:+ nutrition +:+ nl)))
      with (<["nutrition" :=
                PStr (PyStr.strip
                        (PyStr.replace "Nutrition Information:" ""
                           ("Nutrition Information:"
                            +:+ PyStr.rstrip (nl +:+ nutrition +:+ nl))))]> m).
    rewrite last_section_cell by first [discriminate | reflexivity | assumption].
    reflexivity. }
  split; [exact Hsections |].
  intros Hserves.
  pose proof (parse_recipe_document_cases (format_recipe_text recipe_data))
    as Hcases.
  rewrite Hsections in Hcases. unfold sections in Hcases at 1.
  rewrite lookup_insert_ne, lookup_insert_eq in Hcases by discriminate.
  rewrite Hserves in Hcases. exact Hcases.
Qed.

Lemma format_then_parse_witness :
  parse_sections (format_recipe_text sample_plain_row)
  = <["nutrition" := PStr "Total Fat 19g"]>
      (<["instructions" := PStr "Slice the apples. Fill the crust. Bake."]>
         (<["ingredients" := PStr "8 apples, 1 crust"]> ∅))
  /\ _parse_recipe_document (format_recipe_text sample_plain_row)
     = <["description" := PStr "Slice the apples. Fill the crust. Bake...."]>
         (<["nutrition" := PStr "Total Fat 19g"]>
            (<["instructions" := PStr "Slice the apples. Fill the crust. Bake."]>
               (<["ingredients" := PStr "8 apples, 1 crust"]> ∅))).
Proof.
  destruct (format_then_parse sample_plain_row
              eq_refl eq_refl eq_refl eq_refl eq_refl eq_refl eq_refl)
    as [Hsections Hparse].
  split; [exact Hsections | exact (Hparse eq_refl)].
Defined.

(** An empty cell breaks the reading: after empty ingredients the next
    section starts with a newline and is not recognised. *)
Example format_short_row_demo :
  format_recipe_text sample_short_row
  = "Recipe: Toast" +:+ nl +:+ nl +:+ "Ingredients:" +:+ nl +:+ nl +:+ nl
    +:+ "Instructions:" +:+ nl +:+ nl +:+ nl +:+ "Nutrition Information:"
  /\ _parse_recipe_document (format_recipe_text sample_short_row)
     = <["ingredients" := PStr ""]> ∅
  /\ _parse_recipe_document (format_recipe_text sample_row) !! "servings"
     = Some (PStr "8").
Proof. repeat split; vm_compute; reflexivity. Qed.

Lemma item_or_short recipe_data i default :
  (length recipe_data <= i)%nat -> item_or recipe_data i default = default.
Proof.
  intros H. unfold item_or.
  destruct (Nat.ltb_spec i (length recipe_data)); [lia | reflexivity].
Qed.

(** X19. A row of fewer than eight cells has no ingredients, instructions
    or nutrition cell: its text holds the three headers with nothing under
    them, and the parser reads from it empty ingredients and nothing else,
    since the sections after the first empty one start with a newline. *)
Theorem format_short_row (recipe_data : list pyval) :
  (length recipe_data <= 7)%nat ->
  tidy (Py.str (item_or recipe_data 1 (PStr "Unknown Recipe"))) = true ->
  format_recipe_text recipe_data
  = "Recipe: " +:+ Py.str (item_or recipe_data 1 (PStr "Unknown Recipe"))
    +:+ nl +:+ nl +:+ "Ingredients:" +:+ nl +:+ nl +:+ nl
    +:+ "Instructions:" +:+ nl +:+ nl +:+ nl +:+ "Nutrition Information:"
  /\ _parse_recipe_document (format_recipe_text recipe_data)
     = <["ingredients" := PStr ""]> ∅.
Proof.
  intros Hlen Hname.
  assert (Htext : format_recipe_text recipe_data
                  = ("Recipe: "
                     +:+ Py.str (item_or recipe_data 1 (PStr "Unknown Recipe")))
                    +:+ (nl +:+ nl)
                    +:+ ("Ingredients:" +:+ nl +:+ nl +:+ nl
                         +:+ "Instructions:" +:+ nl +:+ nl +:+ nl
                         +:+ "Nutrition Information:")).
  { unfold format_recipe_text.
    rewrite (item_or_short recipe_data 7), (item_or_short recipe_data 8),
      (item_or_short recipe_data 12) by lia.
    cbn [Py.str]. rewrite strip_recipe_text. reflexivity. }
  split.
  - rewrite Htext, string_app_assoc. reflexivity.
  - pose proof (parse_recipe_document_cases (format_recipe_text recipe_data))
      as Hcases.
    assert (Hsections : parse_sections (format_recipe_text recipe_data)
                        = <["ingredients" := PStr ""]> ∅).
    { unfold parse_sections, PyStr.split. rewrite Htext.
      rewrite split_go_section by (apply tidy_name; [reflexivity | exact Hname]).
      rewrite append_nil. reflexivity. }
    rewrite Hsections in Hcases.
    rewrite lookup_insert_ne, lookup_empty in Hcases by discriminate.
    rewrite Hcases. reflexivity.
Qed.

Lemma format_short_row_witness :
  format_recipe_text sample_short_row
  = "Recipe: " +:+ "Toast"
    +:+ nl +:+ nl +:+ "Ingredients:" +:+ nl +:+ nl +:+ nl
    +:+ "Instructions:" +:+ nl +:+ nl +:+ nl +:+ "Nutrition Information:"
  /\ _parse_recipe_document (format_recipe_text sample_short_row)
     = <["ingredients" := PStr ""]> ∅.
Proof.
  apply (format_short_row sample_short_row); [cbn; lia | reflexivity].
Defined.

Section IngestionProps.

Variable Store : Type.
Variable collection_ids : Store -> result (list string).
Variable collection_add :
  Store -> string -> string -> gmap string pyval -> result unit * Store.

(** X20. [add_recipe] reports [True] only when the collection accepted the
    text and the metadata of the row, under the given id or under
    'recipe_' followed by the number of ids in the collection; it leaves
    the collection as that call left it.  For an empty row it reports
    [False] even when the addition succeeded: the row is stored and the
    caller is told it was not. *)
Theorem add_recipe_outcome
  (recipe_data : list pyval) (recipe_id : option string) (store : Store) :
  (add_recipe Store collection_ids collection_add recipe_data recipe_id store).1
  = true ->
  recipe_data <> []
  /\ exists id : string,
       collection_add store id (format_recipe_text recipe_data)
         (recipe_metadata recipe_data)
       = (Ok tt,
          (add_recipe Store collection_ids collection_add recipe_data recipe_id
             store).2)
       /\ match recipe_id with
          | Some given => id = given
          | None =>
              exists ids, collection_ids store = Ok ids
                          /\ id = "recipe_" +:+ pretty (length ids)
          end.
Proof.
  unfold add_recipe, add_recipe_body. intros Hok.
  destruct recipe_data as [|cell cells].
  - exfalso. destruct recipe_id as [given |].
    + destruct (collection_add store given _ _) as [[[] | e] store'];
        discriminate Hok.
    + destruct (collection_ids store) as [ids | e]; [| discriminate Hok].
      cbn [rbind] in Hok.
      destruct (collection_add store _ _ _) as [[[] | e] store'];
        discriminate Hok.
  - split; [discriminate |]. destruct recipe_id as [given |].
    + exists given.
      destruct (collection_add store given _ _) as [[[] | e] store'];
        [| discriminate Hok].
      split; reflexivity.
    + destruct (collection_ids store) as [ids | e]; [| discriminate Hok].
      cbn [rbind] in *.
      exists ("recipe_" +:+ pretty (length ids)).
      destruct (collection_add store _ _ _) as [[[] | e] store'];
        [| discriminate Hok].
      split; [reflexivity |]. exists ids. split; reflexivity.
Qed.

(** The empty row: stored, and reported as not stored. *)
Lemma add_recipe_empty_row (recipe_id : string) (store store' : Store) :
  collection_add store recipe_id (format_recipe_text []) (recipe_metadata [])
  = (Ok tt, store') ->
  add_recipe Store collection_ids collection_add [] (Some recipe_id) store
  = (false, store').
Proof.
  intros Hadd. unfold add_recipe, add_recipe_body. rewrite Hadd. reflexivity.
Qed.

End IngestionProps.

Lemma add_recipe_outcome_witness :
  (add_recipe sample_store sample_ids sample_add sample_row None
     [("recipe_0", "text", ∅)]).1 = true
  /\ exists id : string,
       sample_add [("recipe_0", "text", ∅)] id (format_recipe_text sample_row)
         (recipe_metadata sample_row)
       = (Ok tt,
          (add_recipe sample_store sample_ids sample_add sample_row None
             [("recipe_0", "text", ∅)]).2)
       /\ id = "recipe_1".
Proof.
  split; [reflexivity |].
  destruct (add_recipe_outcome sample_store sample_ids sample_add sample_row None
              [("recipe_0", "text", ∅)] eq_refl)
    as (_ & id & Hadd & ids & Hids & Hid).
  exists id. split; [exact Hadd |].
  injection Hids as <-. exact Hid.
Defined.

Example add_recipe_empty_row_demo :
  add_recipe sample_store sample_ids sample_add [] (Some "recipe_7") []
  = (false, [("recipe_7", format_recipe_text [], recipe_metadata [])])
  /\ recipe_metadata [] !! "name" = Some (PStr "Unknown").
Proof. split; reflexivity. Qed.

Section Description.

Variable llm_invoke : trace -> string -> result string.

(** X21. [_generate_recipe_description] always gives a description, after
    one call to the model.  When the model raises it is the one-line text
    built from cuisine, category and difficulty; when the model's text,
    stripped, has at most 200 characters it is that text; a longer text is
    cut to its first 200 words, joined by single spaces, and given three
    dots, so a text of more than 200 characters but at most 200 words comes
    back whole, with its white space normalised and the dots added. *)
Theorem generate_recipe_description_cases (recipe : RecipeInfo) (tr : trace) :
  exists description : string,
    _generate_recipe_description llm_invoke recipe tr
    = (Ok description, tr ++ [EvLLMInvoke (description_prompt recipe)])
    /\ match llm_invoke tr (description_prompt recipe) with
       | Raise _ => description = fallback_description recipe
       | Ok content =>
           ((String.length (PyStr.strip content) <= 200)%nat ->
            description = PyStr.strip content)
           /\ ((200 < String.length (PyStr.strip content))%nat ->
               description
               = PyStr.join " " (take 200 (PyStr.split_ws (PyStr.strip content)))
                 +:+ "..."
               /\ ((length (PyStr.split_ws (PyStr.strip content)) <= 200)%nat ->
                   description
                   = PyStr.join " " (PyStr.split_ws (PyStr.strip content))
                     +:+ "..."))
       end.
Proof.
  unfold _generate_recipe_description, catch, bind, call_llm, ret.
  destruct (llm_invoke tr (description_prompt recipe)) as [content | e].
  - eexists. split; [reflexivity |].
    destruct (Nat.ltb_spec 200 (String.length (PyStr.strip content))).
    + split; [lia |]. intros _. split; [reflexivity |].
      intros Hwords. rewrite take_ge by exact Hwords. reflexivity.
    + split; [reflexivity | lia].
  - eexists. split; reflexivity.
Qed.

End Description.

(** ** The module-level entry points and the endpoints *)

Lemma lstrip_idem s : PyStr.lstrip (PyStr.lstrip s) = PyStr.lstrip s.
Proof.
  destruct (lstrip_head s) as [-> | (c & r & -> & Hc)]; [reflexivity |].
  cbn [PyStr.lstrip]. rewrite Hc. reflexivity.
Qed.

Lemma strip_idem s : PyStr.strip (PyStr.strip s) = PyStr.strip s.
Proof.
  unfold PyStr.strip at 2. rewrite strip_rstrip.
  unfold PyStr.strip. rewrite lstrip_idem. reflexivity.
Qed.

Lemma all_space_strip s : all_space (PyStr.strip s) = all_space s.
Proof.
  destruct (all_space s) eqn:Hs.
  - rewrite (strip_all_space s Hs). reflexivity.
  - destruct (all_space (PyStr.strip s)) eqn:Hst; [| reflexivity].
    apply strip_empty_iff in Hst. rewrite strip_idem in Hst.
    apply strip_empty_iff in Hst. congruence.
Qed.

(** [get_response] returns a response on every input, with at most six
    recipes; on a blank input it is the greeting, and no service is
    called. *)
Lemma get_response_returns chain_invoke llm_invoke user_input tr :
  exists (response : Response) (calls : list event),
    get_response chain_invoke llm_invoke user_input tr
    = (Ok response, tr ++ calls)
    /\ (length (resp_recipes response) <= 6)%nat
    /\ (all_space user_input = true -> calls = [])
    /\ (all_space user_input = false ->
        exists model_calls,
          calls = EvChainInvoke (_enhance_user_query user_input) :: model_calls
          /\ Forall (fun ev => is_retrieval ev = false) model_calls
          /\ (length model_calls <= 3)%nat).
Proof.
  destruct (all_space user_input) eqn:Hs.
  - exists greeting_response, []. unfold get_response.
    rewrite (proj2 (strip_empty_iff user_input) Hs), app_nil_r.
    repeat split; [cbn; lia |]. intros H. discriminate H.
  - destruct (get_response_nonblank chain_invoke llm_invoke user_input tr Hs)
      as (response & model_calls & Hrun & Hall & Hlen & Hcase).
    exists response, (EvChainInvoke (_enhance_user_query user_input) :: model_calls).
    split; [exact Hrun |]. split.
    + destruct (chain_invoke tr (_enhance_user_query user_input))
        as [result | e]; [| destruct Hcase as [-> _]; cbn; lia].
      destruct (cr_answer result);
        [| destruct Hcase as [-> _]; cbn; lia].
      cbv zeta in Hcase. destruct Hcase as (_ & -> & _).
      unfold _extract_recipe_info.
      etransitivity; [apply extract_loop_length |]. rewrite length_take. lia.
    + split; [intros H; discriminate H |].
      intros _. exists model_calls. repeat split; assumption.
Qed.

Section SingletonProps.

Variable RecipeChatbot : string -> result Chatbot.

(** With an instance at hand [chatbot_response] is [get_response] on it. *)
Lemma chatbot_response_instance user_input env_key chatbot tr :
  exists (response : Response) (calls : list event),
    get_response (cb_chain_invoke chatbot) (cb_llm_invoke chatbot) user_input tr
    = (Ok response, tr ++ calls)
    /\ chatbot_response RecipeChatbot user_input env_key (Some chatbot) tr
       = (response, Some chatbot, tr ++ calls)
    /\ (length (resp_recipes response) <= 6)%nat
    /\ (all_space user_input = false ->
        exists model_calls,
          calls = EvChainInvoke (_enhance_user_query user_input) :: model_calls
          /\ Forall (fun ev => is_retrieval ev = false) model_calls
          /\ (length model_calls <= 3)%nat).
Proof.
  destruct (get_response_returns (cb_chain_invoke chatbot)
              (cb_llm_invoke chatbot) user_input tr)
    as (response & calls & Hrun & Hsix & _ & Hcalls).
  exists response, calls. split; [exact Hrun |]. split; [| split; assumption].
  unfold chatbot_response, get_chatbot_instance. rewrite Hrun. reflexivity.
Qed.

(** Without an instance [chatbot_response] builds one from the key of the
    environment, or answers with its own apology and leaves the global
    empty. *)
Lemma chatbot_response_first user_input env_key tr :
  match env_key with
  | None =>
      chatbot_response RecipeChatbot user_input env_key None tr
      = (fallback_response missing_key, None, tr)
  | Some key =>
      if PyStr.is_empty key
      then chatbot_response RecipeChatbot user_input env_key None tr
           = (fallback_response missing_key, None, tr)
      else
        match RecipeChatbot key with
        | Raise e =>
            chatbot_response RecipeChatbot user_input env_key None tr
            = (fallback_response e, None, tr)
        | Ok chatbot =>
            chatbot_response RecipeChatbot user_input env_key None tr
            = chatbot_response RecipeChatbot user_input env_key (Some chatbot) tr
        end
  end.
Proof.
  unfold chatbot_response, get_chatbot_instance.
  destruct env_key as [key |]; [| reflexivity].
  destruct (PyStr.is_empty key); [reflexivity |].
  destruct (RecipeChatbot key); reflexivity.
Qed.

End SingletonProps.

(** X22. Once the global instance exists, [chatbot_response] is
    [get_response] on that instance: the key of the environment and the
    constructor are not looked at again, the instance stays, and the apology
    of [chatbot_response] itself is not reached, since [get_response] does
    not raise.  Without an instance one is built and kept only when the key
    is set and the constructor succeeds; otherwise the answer is that
    apology with the text of the error, no service is called and the global
    stays empty, so that the next call tries again. *)
Theorem chatbot_response_singleton
  (RecipeChatbot RecipeChatbot' : string -> result Chatbot)
  (user_input : string) (env_key env_key' : option string) (tr : trace) :
  (forall chatbot : Chatbot,
     exists (response : Response) (out_tr : trace),
       get_response (cb_chain_invoke chatbot) (cb_llm_invoke chatbot)
         user_input tr
       = (Ok response, out_tr)
       /\ chatbot_response RecipeChatbot user_input env_key (Some chatbot) tr
          = (response, Some chatbot, out_tr)
       /\ chatbot_response RecipeChatbot' user_input env_key' (Some chatbot) tr
          = (response, Some chatbot, out_tr))
  /\ (forall (response : Response) (instance : option Chatbot) (out_tr : trace),
        chatbot_response RecipeChatbot user_input env_key None tr
        = (response, instance, out_tr) ->
        match instance with
        | Some chatbot =>
            exists key : string,
              env_key = Some key /\ PyStr.is_empty key = false
              /\ RecipeChatbot key = Ok chatbot
              /\ get_response (cb_chain_invoke chatbot) (cb_llm_invoke chatbot)
                   user_input tr
                 = (Ok response, out_tr)
        | None =>
            out_tr = tr
            /\ exists e : exn,
                 response = fallback_response e
                 /\ match env_key with
                    | None => e = missing_key
                    | Some key =>
                        if PyStr.is_empty key then e = missing_key
                        else RecipeChatbot key = Raise e
                    end
        end).
Proof.
  split.
  - intros chatbot.
    destruct (chatbot_response_instance RecipeChatbot user_input env_key
                chatbot tr) as (response & calls & Hrun & Hone & _).
    destruct (chatbot_response_instance RecipeChatbot' user_input env_key'
                chatbot tr) as (response' & calls' & Hrun' & Htwo & _).
    rewrite Hrun in Hrun'. injection Hrun' as <- Hcalls.
    exists response, (tr ++ calls). split; [exact Hrun |].
    split; [exact Hone |]. rewrite Htwo, <- Hcalls. reflexivity.
  - intros response instance out_tr Hrun.
    pose proof (chatbot_response_first RecipeChatbot user_input env_key tr)
      as Hfirst.
    destruct env_key as [key |].
    + revert Hfirst. destruct (PyStr.is_empty key) eqn:Hkey; intros Hfirst.
      * rewrite Hfirst in Hrun. injection Hrun as <- <- <-.
        split; [reflexivity |]. exists missing_key. split; reflexivity.
      * revert Hfirst.
        destruct (RecipeChatbot key) as [chatbot | e] eqn:Hnew; intros Hfirst.
        -- rewrite Hfirst in Hrun.
           destruct (chatbot_response_instance RecipeChatbot user_input
                       (Some key) chatbot tr)
             as (r & calls & Hget & Hresp & _).
           rewrite Hresp in Hrun. injection Hrun as <- <- <-.
           exists key. repeat split; assumption.
        -- rewrite Hfirst in Hrun. injection Hrun as <- <- <-.
           split; [reflexivity |]. exists e. split; reflexivity.
    + rewrite Hfirst in Hrun. injection Hrun as <- <- <-.
      split; [reflexivity |]. exists missing_key. split; reflexivity.
Qed.

(** X23. [POST /chat]: a body without a message is refused with status 400,
    and so is a message that is blank, before the chatbot is reached, so
    the greeting of [get_response] is never sent from here; a message that
    is not a string gives status 500.  Every other message is answered with
    status 200, whatever happens behind: the chain is asked once, with the
    enhanced form of the stripped message, or, when no chatbot can be
    built, no service is called and the body is the apology of
    [chatbot_response]. *)
Theorem chat_endpoint
  (RecipeChatbot : string -> result Chatbot)
  (data : option (gmap string pyval)) (env_key : option string)
  (instance : option Chatbot) (tr : trace) :
  match data ≫= (fun d => d !! "message") with
  | None =>
      chat RecipeChatbot data env_key instance tr
      = (ChatError "No message provided", 400, instance, tr)
  | Some (PStr message) =>
      if all_space message
      then chat RecipeChatbot data env_key instance tr
           = (ChatError "Empty message", 400, instance, tr)
      else
        exists (response : Response) (instance' : option Chatbot)
               (calls : list event),
          chatbot_response RecipeChatbot (PyStr.strip message) env_key
            instance tr
          = (response, instance', tr ++ calls)
          /\ chat RecipeChatbot data env_key instance tr
             = (ChatReply response, 200, instance', tr ++ calls)
          /\ match instance' with
             | Some chatbot =>
                 exists model_calls : list event,
                   calls
                   = EvChainInvoke (_enhance_user_query (PyStr.strip message))
                     :: model_calls
                   /\ Forall (fun ev => is_retrieval ev = false) model_calls
             | None =>
                 calls = [] /\ exists e : exn, response = fallback_response e
             end
  | Some _ =>
      chat RecipeChatbot data env_key instance tr = (chat_failure, 500, instance, tr)
  end.
Proof.
  destruct data as [d |]; [| reflexivity].
  cbn [mbind option_bind]. unfold chat.
  destruct (d !! "message") as [v |] eqn:Hv.
  2: { unfold Py.has_key. rewrite Hv. rewrite orb_true_r. reflexivity. }
  assert (Hne : bool_decide (d = ∅) = false).
  { apply bool_decide_eq_false. intros ->. rewrite lookup_empty in Hv.
    discriminate Hv. }
  unfold Py.has_key, Py.getitem. rewrite Hne, Hv. cbn [orb negb rbind].
  destruct v as [| b | n | message | l]; try reflexivity.
  cbn [Py.as_str].
  destruct (all_space message) eqn:Hs.
  { rewrite (proj2 (strip_empty_iff message) Hs). reflexivity. }
  assert (Hstrip : PyStr.is_empty (PyStr.strip message) = false).
  { destruct (PyStr.is_empty (PyStr.strip message)) eqn:He; [| reflexivity].
    apply strip_empty_iff in He. congruence. }
  rewrite Hstrip.
  assert (Hs' : all_space (PyStr.strip message) = false)
    by (rewrite all_space_strip; exact Hs).
  assert (Hinst : forall chatbot,
            exists response calls,
              chatbot_response RecipeChatbot (PyStr.strip message) env_key
                (Some chatbot) tr
              = (response, Some chatbot, tr ++ calls)
              /\ exists model_calls,
                   calls
                   = EvChainInvoke (_enhance_user_query (PyStr.strip message))
                     :: model_calls
                   /\ Forall (fun ev => is_retrieval ev = false) model_calls).
  { intros chatbot.
    destruct (chatbot_response_instance RecipeChatbot (PyStr.strip message)
                env_key chatbot tr)
      as (response & calls & _ & Hresp & _ & Hcalls).
    destruct (Hcalls Hs') as (model_calls & -> & Hall & _).
    exists response, (EvChainInvoke (_enhance_user_query (PyStr.strip message))
                      :: model_calls).
    split; [exact Hresp |]. exists model_calls. split; [reflexivity | exact Hall]. }
  destruct instance as [chatbot |].
  - destruct (Hinst chatbot) as (response & calls & Hresp & Hcalls).
    exists response, (Some chatbot), calls. rewrite Hresp.
    repeat split. exact Hcalls.
  - pose proof (chatbot_response_first RecipeChatbot (PyStr.strip message)
                  env_key tr) as Hfirst.
    assert (Hfail : forall e,
              chatbot_response RecipeChatbot (PyStr.strip message) env_key
                None tr
              = (fallback_response e, None, tr) ->
              exists (response : Response) (instance' : option Chatbot)
                     (calls : list event),
                chatbot_response RecipeChatbot (PyStr.strip message) env_key
                  None tr
                = (response, instance', tr ++ calls)
                /\ (let '(response, instance', tr') :=
                      chatbot_response RecipeChatbot (PyStr.strip message)
                        env_key None tr in
                    (ChatReply response, 200, instance', tr'))
                   = (ChatReply response, 200, instance', tr ++ calls)
                /\ match instance' with
                   | Some chatbot =>
                       exists model_calls : list event,
                         calls
                         = EvChainInvoke
                             (_enhance_user_query (PyStr.strip message))
                           :: model_calls
                         /\ Forall (fun ev => is_retrieval ev = false)
                              model_calls
                   | None =>
                       calls = []
                       /\ exists e : exn, response = fallback_response e
                   end).
    { intros e He. exists (fallback_response e), None, []. rewrite He.
      rewrite app_nil_r. repeat split. exists e. reflexivity. }
    destruct env_key as [key |]; [| exact (Hfail _ Hfirst)].
    revert Hfirst. destruct (PyStr.is_empty key); intros Hfirst;
      [exact (Hfail _ Hfirst) |].
    revert Hfirst. destruct (RecipeChatbot key) as [chatbot | e]; intros Hfirst;
      [| exact (Hfail _ Hfirst)].
    destruct (Hinst chatbot) as (response & calls & Hresp & Hcalls).
    exists response, (Some chatbot), calls. rewrite Hfirst, Hresp.
    repeat split. exact Hcalls.
Qed.

Example chat_blank_message :
  chat sample_constructor (Some {["message" := PStr "   "]}) (Some "valid-key")
    None []
  = (ChatError "Empty message", 400, None, []).
Proof. vm_compute. reflexivity. Qed.

Example chat_without_key :
  chat sample_constructor (Some {["message" := PStr " any soup? "]}) None None []
  = (ChatReply (fallback_response missing_key), 200, None, []).
Proof. vm_compute. reflexivity. Qed.

Lemma lower_app (a b : string) :
  PyStr.lower (a +:+ b) = PyStr.lower a +:+ PyStr.lower b.
Proof.
  induction a as [|c a IH]; [reflexivity |].
  rewrite append_cons. cbn [PyStr.lower]. rewrite IH, append_cons. reflexivity.
Qed.

(** A query that starts with 'recipes with ' always gets the keywords of
    the ingredients. *)
Lemma enhance_recipes_with (x : string) :
  PyStr.startswith (("recipes with " +:+ x) +:+ " recipe ingredients")
    (_enhance_user_query ("recipes with " +:+ x)) = true.
Proof.
  rewrite enhance_unfold. unfold enhancements_of.
  assert (Hw : PyStr.any_in ingredient_words
                 (PyStr.lower ("recipes with " +:+ x)) = true).
  { rewrite lower_app. unfold PyStr.any_in, ingredient_words.
    cbn [existsb].
    rewrite (contains_app_l "with" (PyStr.lower "recipes with ")
               (PyStr.lower x)) by (vm_compute; reflexivity).
    rewrite !orb_true_r. apply orb_true_l || reflexivity. }
  rewrite Hw.
  set (rest := (if PyStr.any_in time_words _ then _ else _) ++ _).
  change (["recipe ingredients"] ++ rest) with ("recipe ingredients" :: rest).
  cbv iota beta.
  destruct rest as [|kw rest].
  - cbn [PyStr.join]. apply startswith_refl.
  - change (PyStr.join " " ("recipe ingredients" :: kw :: rest))
      with ("recipe ingredients" +:+ " " +:+ PyStr.join " " (kw :: rest)).
    change (" " +:+ "recipe ingredients" +:+ " " +:+ PyStr.join " " (kw :: rest))
      with (" recipe ingredients" +:+ " " +:+ PyStr.join " " (kw :: rest)).
    rewrite <- string_app_assoc. apply startswith_app.
Qed.

(** X24. [POST /suggest] with a non-empty list of ingredients, once the
    chatbot exists: the answer has status 200; the chain is asked once, with
    a question that starts with 'recipes with ', the ingredients joined by
    commas, and ' recipe ingredients', since the word 'with' of the built
    query always counts as a mention of ingredients; the suggestions are
    the recipes of the response, at most six, and the count is their
    number. *)
Theorem suggest_endpoint
  (RecipeChatbot : string -> result Chatbot)
  (data : gmap string pyval) (ingredients : list string)
  (env_key : option string) (chatbot : Chatbot) (tr : trace) :
  data !! "ingredients" = Some (PList ingredients) ->
  ingredients <> [] ->
  let ingredient_query := "recipes with " +:+ PyStr.join ", " ingredients in
  exists (response : Response) (model_calls : list event),
    get_response (cb_chain_invoke chatbot) (cb_llm_invoke chatbot)
      ingredient_query tr
    = (Ok response,
       tr ++ EvChainInvoke (_enhance_user_query ingredient_query) :: model_calls)
    /\ suggest_by_ingredients RecipeChatbot (Some data) env_key (Some chatbot) tr
       = (SuggestReply (resp_recipes response) (resp_answer response)
            (length (resp_recipes response)),
          200, Some chatbot,
          tr ++ EvChainInvoke (_enhance_user_query ingredient_query)
                :: model_calls)
    /\ PyStr.startswith (ingredient_query +:+ " recipe ingredients")
         (_enhance_user_query ingredient_query) = true
    /\ Forall (fun ev => is_retrieval ev = false) model_calls
    /\ (length (resp_recipes response) <= 6)%nat.
Proof.
  intros Hdata Hne ingredient_query.
  destruct (chatbot_response_instance RecipeChatbot ingredient_query env_key
              chatbot tr)
    as (response & calls & Hget & Hresp & Hsix & Hcalls).
  destruct (Hcalls eq_refl) as (model_calls & -> & Hall & _).
  exists response, model_calls. split; [exact Hget |]. split.
  - unfold suggest_by_ingredients, Py.get. rewrite Hdata.
    destruct ingredients as [|i rest]; [congruence |].
    cbn [Py.truthy negb join_value].
    fold ingredient_query. rewrite Hresp. reflexivity.
  - split; [apply enhance_recipes_with |]. split; assumption.
Qed.

Lemma suggest_endpoint_witness :
  exists (response : Response) (model_calls : list event),
    suggest_by_ingredients sample_constructor
      (Some sample_suggest_data) None (Some sample_chatbot) []
    = (SuggestReply (resp_recipes response) (resp_answer response)
         (length (resp_recipes response)),
       200, Some sample_chatbot,
       [] ++ EvChainInvoke "recipes with eggs, rice recipe ingredients"
             :: model_calls)
    /\ length (resp_recipes response) = 2%nat.
Proof.
  destruct (suggest_endpoint sample_constructor sample_suggest_data
              ["eggs"; "rice"] None sample_chatbot []
              ltac:(vm_compute; reflexivity) ltac:(discriminate))
    as (response & model_calls & Hget & Hrun & _).
  exists response, model_calls. split; [exact Hrun |].
  vm_compute in Hget. injection Hget as <- _. reflexivity.
Defined.

(** A string sent in place of the list is joined character by character;
    a number is refused as an error of the server. *)
Example suggest_other_values :
  (suggest_by_ingredients sample_constructor
     (Some {["ingredients" := PStr "egg"]}) None (Some sample_chatbot) []).2
  = [EvChainInvoke "recipes with e, g, g recipe ingredients";
     EvLLMInvoke (description_prompt (recipe_info_of sample_dal));
     EvLLMInvoke (description_prompt (recipe_info_of sample_pho))]
  /\ suggest_by_ingredients sample_constructor
       (Some {["ingredients" := PInt 3]}) None (Some sample_chatbot) []
     = (SuggestFailure "Suggestion failed" [], 500, Some sample_chatbot, [])
  /\ suggest_by_ingredients sample_constructor (Some ∅) None
       (Some sample_chatbot) []
     = (SuggestError "No ingredients provided", 400, Some sample_chatbot, []).
Proof. repeat split; vm_compute; reflexivity. Qed.

(** ** The endpoints on the chatbot of [app.py] *)

Lemma passing_cards_no_filter batch cooking_time :
  passing_cards batch [] cooking_time
  = flat_map (fun '(doc, md) => card_of doc md []) batch.
Proof.
  induction batch as [|[doc md] rest IH]; [reflexivity |].
  cbn [passing_cards flat_map]. fold (passing_cards rest [] cooking_time).
  rewrite IH. reflexivity.
Qed.

Section AppProps.

Variable collection_query : trace -> string -> nat -> result query_result.

(** X25. [POST /search] with a JSON object whose fields have the expected
    types always answers with status 200 and at most ten recipes, after one
    query to the collection, for twenty documents.  When the key 'filters'
    is left out the filters are the empty list and no recipe is filtered
    out: with complete metadata the recipes are the cards of the first ten
    documents.  When 'filters' is [null] the list of recipes is empty. *)
Theorem search_endpoint (data : SearchRequest) (tr : trace) :
  let query := default "" (sq_query data) in
  exists recipes : list RecipeCard,
    search collection_query (Some data) tr
    = (SearchReply recipes, 200, tr ++ [EvCollectionQuery query 20])
    /\ (length recipes <= 10)%nat
    /\ (sq_filters data = Some None -> recipes = [])
    /\ (sq_filters data = None ->
        forall batch : list (string * gmap string pyval),
          first_batch (collection_query tr query 20) = Some batch ->
          forallb (fun '(doc, md) => card_ready md) batch = true ->
          recipes
          = take 10 (flat_map (fun '(doc, md) => card_of doc md []) batch)).
Proof.
  intros query. unfold search. fold query.
  set (filters := default (Some []) (sq_filters data)).
  set (cooking_time := default 30 (sq_cooking_time data)).
  rewrite search_recipes_eq. eexists. split; [reflexivity |].
  destruct (first_batch (collection_query tr query 20)) as [batch |].
  2: { repeat split; [cbn; lia |]. intros _ batch H. discriminate H. }
  split; [| split].
  - destruct (filter_loop batch filters cooking_time);
      [rewrite length_take; lia | cbn; lia].
  - intros Hnull. subst filters. rewrite Hnull. cbn [from_option id].
    destruct (filter_loop batch None cooking_time) as [cards |] eqn:Hloop;
      [| reflexivity].
    destruct cards as [|card cards]; [reflexivity |].
    destruct (filter_loop_card_type _ _ _ _ card Hloop (or_introl eq_refl))
      as (fl & Hfl & _).
    discriminate Hfl.
  - intros Habsent batch' Hbatch Hready. injection Hbatch as <-.
    subst filters. rewrite Habsent. cbn [from_option id].
    rewrite (filter_loop_ready batch [] cooking_time Hready),
      passing_cards_no_filter.
    reflexivity.
Qed.

End AppProps.

Example search_without_filters :
  search (sample_collection sample_batch) (Some (mkSearchRequest None None None)) []
  = (SearchReply
       (take 10 (flat_map (fun '(doc, md) => card_of doc md []) sample_batch)),
     200, [EvCollectionQuery "" 20])
  /\ length (flat_map (fun '(doc, md) => card_of doc md []) sample_batch) = 3%nat
  /\ search (sample_collection sample_batch)
       (Some (mkSearchRequest (Some "stew") (Some None) (Some 60))) []
     = (SearchReply [], 200, [EvCollectionQuery "stew" 20]).
Proof. repeat split; vm_compute; reflexivity. Qed.

(** X26. [GET /health] always answers with status 200, 'healthy' and
    'connected': the statistics are computed by a method that swallows
    every error, so the branch that reports 'unhealthy' is not reached.
    The count it reports is the number of ids of the collection, and 0
    when the collection cannot be read or when its first document has no
    metadata; [GET /stats] answers with status 200 too, and its body then
    holds the text of the error. *)
Theorem health_check_always_healthy (got : result collection_data) :
  exists count : Z,
    health_check got
    = (<["status" := PStr "healthy"]>
         (<["database_status" := PStr "connected"]>
            (<["recipe_count" := PInt count]>
               (<["timestamp" := PStr "2024-01-01"]> ∅))),
       200)
    /\ (get_stats got).2 = 200
    /\ match got with
       | Raise e =>
           count = 0 /\ (get_stats got).1 = [("error", PStr (exn_msg e))]
       | Ok collection_data =>
           match cd_metadatas collection_data with
           | Some (None :: _) =>
               count = 0
               /\ exists text : string,
                    (get_stats got).1 = [("error", PStr text)]
           | _ =>
               count = Z.of_nat (length (cd_ids collection_data))
               /\ exists metadata_fields : list string,
                    (get_stats got).1
                    = [("total_recipes", PInt count);
                       ("metadata_fields", PList metadata_fields)]
           end
       end.
Proof.
  unfold health_check, get_stats, get_collection_stats, dm_get_collection_stats.
  cbn [rcatch rbind fst snd].
  destruct got as [[ids metadatas] | e]; cbn [rcatch rbind cd_ids cd_metadatas].
  - destruct metadatas as [[|[md |] rest] |]; cbn [rcatch rbind];
      eexists; (split; [reflexivity |]); (split; [reflexivity |]);
      (split; [reflexivity |]); eexists; reflexivity.
  - exists 0. repeat split.
Qed.

Example health_of_unreachable_collection :
  (health_check collection_unreachable).1 !! "status" = Some (PStr "healthy")
  /\ (health_check collection_unreachable).1 !! "recipe_count" = Some (PInt 0)
  /\ (health_check collection_bare).1 !! "recipe_count" = Some (PInt 0)
  /\ (health_check collection_filled).1 !! "recipe_count" = Some (PInt 2)
  /\ (get_stats collection_filled).1
     = [("total_recipes", PInt 2); ("metadata_fields", PList ["name"; "rating"])].
Proof. repeat split; vm_compute; reflexivity. Qed.

(** X27. The answers of [POST /clear] and [GET /filters] do not depend on
    the services: [/clear] reports that the memory was cleared also when
    clearing it raised and [clear_memory] returned [False]; [/filters]
    always sends empty lists of cuisines and of categories, since the
    statistics never hold these keys, with the fixed difficulty levels,
    dietary options and time ranges. *)
Theorem clear_and_filters_fixed
  (got : result collection_data) (cleared : result unit) :
  clear_conversation cleared
  = (<["status" := PStr "Memory cleared successfully"]> ∅, 200)
  /\ (clear_memory cleared = false <-> exists e : exn, cleared = Raise e)
  /\ get_available_filters got
     = (FiltersReply
          {| fo_cuisine_types := [];
             fo_categories := [];
             fo_difficulty_levels := ["Easy"; "Medium"; "Hard"];
             fo_dietary_options :=
               ["vegetarian-friendly"; "dairy-free-option";
                "gluten-free-option"; "low-fat"; "low-sodium"; "high-fiber"];
             fo_time_ranges :=
               [("Quick (under 30 min)", 30); ("Medium (30-60 min)", 60);
                ("Long (1-2 hours)", 120); ("Extended (2+ hours)", 240)] |},
        200).
Proof.
  split; [reflexivity |]. split.
  - unfold clear_memory. destruct cleared as [[] | e]; cbn [rcatch rbind].
    + split; [discriminate | intros [e H]; discriminate H].
    + split; [intros _; exists e; reflexivity | reflexivity].
  - unfold get_available_filters, get_collection_stats, dm_get_collection_stats,
      keys_of_entry.
    cbn [rcatch rbind].
    destruct got as [[ids metadatas] | e]; cbn [rcatch rbind cd_ids cd_metadatas].
    + destruct metadatas as [[|[md |] rest] |]; reflexivity.
    + reflexivity.
Qed.

(** ** The console session *)

Lemma filter_no_retrieval (calls : list event) :
  Forall (fun ev => is_retrieval ev = false) calls ->
  List.filter is_retrieval calls = [].
Proof.
  induction 1 as [|ev calls Hev _ IH]; [reflexivity |].
  cbn [List.filter]. rewrite Hev. exact IH.
Qed.

Lemma last_cons_some {A} (x y : A) (l : list A) :
  last l = Some y -> last (x :: l) = Some y.
Proof. intros H. rewrite last_cons, H. reflexivity. Qed.

Lemma last_app_some {A} (y : A) (l k : list A) :
  last k = Some y -> last (l ++ k) = Some y.
Proof. intros H. rewrite last_app, H. reflexivity. Qed.

Lemma questions_quit line rest :
  is_quit line = true -> questions (line :: rest) = [].
Proof. intros H. unfold questions. cbn [before_quit]. rewrite H. reflexivity. Qed.

Lemma questions_skip line rest :
  is_quit line = false -> is_command line || all_space line = true ->
  questions (line :: rest) = questions rest.
Proof.
  intros Hq Hc. unfold questions. cbn [before_quit]. rewrite Hq.
  cbn [List.filter]. rewrite Hc. reflexivity.
Qed.

Lemma questions_keep line rest :
  is_quit line = false -> is_command line || all_space line = false ->
  questions (line :: rest) = line :: questions rest.
Proof.
  intros Hq Hc. unfold questions. cbn [before_quit]. rewrite Hq.
  cbn [List.filter]. rewrite Hc. reflexivity.
Qed.

(** The loop of the session, from any state. *)
Lemma main_loop_session chatbot lines now tr :
  exists (out : list output) (calls : list event),
    main_loop chatbot lines now tr = (out, tr ++ calls)
    /\ List.filter is_retrieval calls
       = map (fun line =>
                EvChainInvoke (_enhance_user_query (PyStr.strip line)))
           (questions lines)
    /\ (length calls <= 4 * length (questions lines))%nat
    /\ last out
       = Some (if existsb is_quit lines then goodbye
               else error_line end_of_input).
Proof.
  revert now tr. induction lines as [|line rest IH]; intros now tr.
  - exists [you_prompt; error_line end_of_input], [].
    rewrite app_nil_r. repeat split. cbn. lia.
  - cbn [main_loop existsb]. fold (is_quit line).
    destruct (is_quit line) eqn:Hq.
    + exists [you_prompt; goodbye], []. rewrite app_nil_r.
      rewrite (questions_quit line rest Hq). repeat split. cbn. lia.
    + cbn [orb].
      destruct (String.eqb (PyStr.lower (PyStr.strip line)) "clear") eqn:Hc.
      { destruct (IH (S now) tr) as (out & calls & -> & Hf & Hl & Hlast).
        exists (you_prompt
                :: Printed "🧹 Conversation cleared! What would you like to cook today?"
                :: out), calls.
        rewrite questions_skip
          by (try exact Hq; unfold is_command; rewrite Hc; reflexivity).
        repeat split; try assumption.
        do 2 apply last_cons_some. exact Hlast. }
      destruct (String.eqb (PyStr.lower (PyStr.strip line)) "stats") eqn:Hs.
      { destruct (IH (S now) tr) as (out & calls & -> & Hf & Hl & Hlast).
        eexists _, calls.
        rewrite questions_skip
          by (try exact Hq; unfold is_command; rewrite Hc, Hs; reflexivity).
        split; [reflexivity |]. repeat split; try assumption.
        apply last_cons_some, last_app_some. exact Hlast. }
      destruct (PyStr.is_empty (PyStr.strip line)) eqn:He.
      { destruct (IH (S now) tr) as (out & calls & -> & Hf & Hl & Hlast).
        exists (you_prompt :: out), calls.
        rewrite questions_skip
          by (try exact Hq; unfold is_command; rewrite Hc, Hs;
              rewrite (proj1 (strip_empty_iff line) He); reflexivity).
        repeat split; try assumption.
        apply last_cons_some. exact Hlast. }
      assert (Hblank : all_space line = false).
      { destruct (all_space line) eqn:Hb; [| reflexivity].
        apply strip_empty_iff in Hb. congruence. }
      rewrite questions_keep
        by (try exact Hq; unfold is_command; rewrite Hc, Hs, Hblank; reflexivity).
      destruct (get_response_returns (cb_chain_invoke chatbot)
                  (cb_llm_invoke chatbot) (PyStr.strip line) tr)
        as (response & calls1 & -> & _ & _ & Hcalls).
      rewrite all_space_strip in Hcalls.
      destruct (Hcalls Hblank) as (model_calls & -> & Hall & Hlen).
      destruct (IH (S now)
                  (tr ++ EvChainInvoke (_enhance_user_query (PyStr.strip line))
                         :: model_calls))
        as (out & calls2 & -> & Hf & Hl & Hlast).
      eexists _, ((EvChainInvoke (_enhance_user_query (PyStr.strip line))
                   :: model_calls) ++ calls2).
      rewrite app_assoc. split; [reflexivity |]. split; [| split].
      * cbn [app List.filter is_retrieval map].
        rewrite List.filter_app, (filter_no_retrieval model_calls Hall), Hf.
        reflexivity.
      * rewrite length_app. cbn [length]. lia.
      * apply last_cons_some, last_app_some. exact Hlast.
Qed.

Lemma categories_line_none got :
  categories_line (get_collection_stats got) = Ok [].
Proof.
  unfold get_collection_stats, dm_get_collection_stats.
  destruct got as [[ids metadatas] | e]; [| reflexivity].
  destruct metadatas as [[|[md |] rest] |]; reflexivity.
Qed.

(** X28. The console session, once its chatbot is built: the chain is asked
    once for each line before the first that quits ('quit', 'exit' or 'q')
    which is neither 'clear', 'stats' nor blank, in the order of the lines
    and with the enhanced form of the stripped line; the commands are
    recognised in any letter case and between blanks.  No other retrieval
    is made, the trace holds at most four calls for each question (the one
    to the chain and those to the model), and what is read after the line
    that quits has no effect.  The session ends with the goodbye when a
    line quits, and otherwise with the error line of the end of the
    input. *)
Theorem main_session
  (RecipeChatbot : string -> result Chatbot) (key : string)
  (chatbot : Chatbot) (lines : list string) :
  PyStr.is_empty key = false ->
  RecipeChatbot key = Ok chatbot ->
  exists (out : list output) (tr : trace),
    main RecipeChatbot (Some key) lines = (out, tr)
    /\ List.filter is_retrieval tr
       = map (fun line =>
                EvChainInvoke (_enhance_user_query (PyStr.strip line)))
           (questions lines)
    /\ (length tr <= 4 * length (questions lines))%nat
    /\ last out
       = Some (if existsb is_quit lines then goodbye
               else error_line end_of_input).
Proof.
  intros Hkey Hnew. unfold main. rewrite Hkey, Hnew, categories_line_none.
  destruct (main_loop_session chatbot lines 0 []) as (out & calls & -> & Hf & Hl & Hlast).
  eexists _, _. split; [reflexivity |]. cbn [app].
  repeat split; try assumption.
  do 2 apply last_cons_some. apply last_app_some. exact Hlast.
Qed.

Lemma main_session_witness :
  exists (out : list output) (tr : trace),
    main sample_constructor (Some "valid-key") sample_session = (out, tr)
    /\ List.filter is_retrieval tr
       = [EvChainInvoke "any soup for a cold day?";
          EvChainInvoke "what can I make with eggs recipe ingredients"]
    /\ last out = Some goodbye.
Proof.
  destruct (main_session sample_constructor "valid-key" sample_chatbot
              sample_session eq_refl eq_refl)
    as (out & tr & Hrun & Hf & _ & Hlast).
  exists out, tr. split; [exact Hrun |]. split; [exact Hf | exact Hlast].
Defined.

(** Without a key the session writes one line and calls nothing; when the
    constructor raises, the error is written after the line that announces
    the chatbot. *)
Example main_without_chatbot :
  main sample_constructor None sample_session
  = ([Printed "Error: GOOGLE_API_KEY environment variable is not set"], [])
  /\ main sample_constructor (Some "other-key") sample_session
     = ([Printed "🍳 Initializing Enhanced Recipe Chatbot...";
         Printed "❌ An error occurred: API key not valid"], []).
Proof. split; vm_compute; reflexivity. Qed.

(** ** The claims on the filtered search as a whole *)


Lemma passing_cards_app pre post fl cooking_time :
  passing_cards (pre ++ post) fl cooking_time
  = passing_cards pre fl cooking_time ++ passing_cards post fl cooking_time.
Proof. unfold passing_cards. apply flat_map_app. Qed.

Section FilteredSearch.

Variable collection_query : trace -> string -> nat -> result query_result.



(** C7, amended.  A recipe on which the tests of [_apply_filters] raise
    passes the filter, and the loop goes on: when the metadata of every
    document of the batch hold a name and a rating, the search returns the
    first ten cards of the passing recipes in the order of the batch, the
    recipes before and after that one being filtered as they are on their
    own.  The card of the recipe is in the result, at the place that the
    number of recipes passed before it gives, when fewer than ten passed
    before it; otherwise the limit of ten cuts it off. *)
Theorem filter_error_passes
  (pre post : list (string * gmap string pyval)) (doc : string)
  (md : gmap string pyval) (fl : list string) (cooking_time : Z) (e : exn)
  (query : string) (tr : trace) :
  apply_filters_body (_parse_recipe_document doc) fl cooking_time = Raise e ->
  first_batch (collection_query tr query 20) = Some (pre ++ (doc, md) :: post) ->
  forallb (fun '(d, m) => card_ready m) (pre ++ (doc, md) :: post) = true ->
  exists card : RecipeCard,
    let cards :=
      passing_cards pre fl cooking_time
      ++ card :: passing_cards post fl cooking_time in
    make_card (_parse_recipe_document doc) md (Some fl) = Ok card
    /\ _apply_filters (_parse_recipe_document doc) (Some fl) cooking_time = true
    /\ search_recipes collection_query query (Some fl) cooking_time tr
       = (Ok (take 10 cards), tr ++ [EvCollectionQuery query 20])
    /\ ((length (passing_cards pre fl cooking_time) < 10)%nat ->
        take 10 cards !! length (passing_cards pre fl cooking_time) = Some card)
    /\ ((10 <= length (passing_cards pre fl cooking_time))%nat ->
        take 10 cards = take 10 (passing_cards pre fl cooking_time)).
Proof.
  intros Hraise Hbatch Hready.
  assert (Hpass : _apply_filters (_parse_recipe_document doc) (Some fl)
                    cooking_time = true)
    by (eapply apply_filters_raise_passes; exact Hraise).
  assert (Hmd : card_ready md = true).
  { rewrite forallb_app in Hready. apply andb_prop in Hready as [_ Hready].
    cbn [forallb] in Hready. apply andb_prop in Hready as [Hmd _]. exact Hmd. }
  destruct (make_card_ready (_parse_recipe_document doc) md fl Hmd)
    as [card Hcard].
  exists card. cbv zeta. split; [exact Hcard |]. split; [exact Hpass |].
  split; [| split].
  - rewrite search_recipes_eq, Hbatch, (filter_loop_ready _ fl _ Hready).
    rewrite passing_cards_app.
    change (passing_cards ((doc, md) :: post) fl cooking_time)
      with ((if _apply_filters (_parse_recipe_document doc) (Some fl) cooking_time
             then card_of doc md fl else [])
            ++ passing_cards post fl cooking_time).
    rewrite Hpass. unfold card_of. rewrite Hcard. reflexivity.
  - intros Hlen. rewrite lookup_take_lt by exact Hlen.
    apply list_lookup_middle. reflexivity.
  - intros Hlen. rewrite take_app_le by exact Hlen. reflexivity.
Qed.

End FilteredSearch.


(** The limit has no effect on the sample batch either. *)
Example cooking_time_search_demo :
  search_recipes (sample_collection sample_batch) "stew" (Some ["veg"]) 30 []
  = search_recipes (sample_collection sample_batch) "stew" (Some ["veg"]) 5 []
  /\ length (passing_cards sample_batch ["veg"] 5) = 3%nat.
Proof. split; vm_compute; reflexivity. Qed.

(** C7, as stated: a recipe on which the filters raise would always be in
    the result.  Of eleven stews that 'serve four', all of which pass a
    servings filter by default, the search returns ten: the eleventh is not
    in the result. *)
Lemma erroring_recipe_cut_off :
  ~ (forall (collection_query : trace -> string -> nat -> result query_result)
            (query : string) (fl : list string) (cooking_time : Z) (tr : trace)
            (batch : list (string * gmap string pyval)) (doc : string)
            (md : gmap string pyval) (e : exn) (card : RecipeCard)
            (cards : list RecipeCard),
       first_batch (collection_query tr query 20%nat) = Some batch ->
       In (doc, md) batch ->
       apply_filters_body (_parse_recipe_document doc) fl cooking_time
       = Raise e ->
       make_card (_parse_recipe_document doc) md (Some fl) = Ok card ->
       (search_recipes collection_query query (Some fl) cooking_time tr).1
       = Ok cards ->
       In card cards).
Proof.
  intros H.
  specialize (H (sample_collection stew_batch) "stew" ["servings-1-2"] 30 []
                stew_batch stew_text (card_metadata "Stew 11" "4")
                (Exn ValueError "invalid literal for int() with base 10: 'four'")).
  specialize (H _ _ ltac:(vm_compute; reflexivity)
                ltac:(do 10 right; left; vm_compute; reflexivity)
                ltac:(vm_compute; reflexivity)
                ltac:(vm_compute; reflexivity)
                ltac:(vm_compute; reflexivity)).
  vm_compute in H.
  repeat (destruct H as [H | H]; [discriminate H |]). exact H.
Qed.

(** A later document whose metadata lack the name empties the result, the
    recipe that passed by default included. *)
Example erroring_recipe_lost :
  apply_filters_body (_parse_recipe_document stew_text) ["servings-5+"] 30
  = Raise (Exn ValueError "invalid literal for int() with base 10: 'four'")
  /\ search_recipes (sample_collection lost_batch) "stew"
       (Some ["servings-5+"]) 30 []
     = (Ok [], [EvCollectionQuery "stew" 20])
  /\ search_recipes (sample_collection (take 1 lost_batch)) "stew"
       (Some ["servings-5+"]) 30 []
     = (Ok (card_of stew_text (card_metadata "Family Stew" "4") ["servings-5+"]),
        [EvCollectionQuery "stew" 20]).
Proof. repeat split; vm_compute; reflexivity. Qed.

Lemma filter_error_passes_witness :
  apply_filters_body (_parse_recipe_document stew_text) ["servings-1-2"] 30
  = Raise (Exn ValueError "invalid literal for int() with base 10: 'four'")
  /\ exists card : RecipeCard,
       search_recipes (sample_collection sample_batch) "stew"
         (Some ["servings-1-2"]) 30 []
       = (Ok (take 10
                (passing_cards
                   [(burrito_text, card_metadata "Breakfast Burrito" "4.5")]
                   ["servings-1-2"] 30
                 ++ card
                 :: passing_cards [(salad_text, card_metadata "Big Salad" "3.5")]
                      ["servings-1-2"] 30)),
          [] ++ [EvCollectionQuery "stew" 20])
       /\ card_name card = PStr "Family Stew"
       /\ card_servings card = PStr "four".
Proof.
  split; [vm_compute; reflexivity |].
  destruct (filter_error_passes (sample_collection sample_batch)
              [(burrito_text, card_metadata "Breakfast Burrito" "4.5")]
              [(salad_text, card_metadata "Big Salad" "3.5")]
              stew_text (card_metadata "Family Stew" "4") ["servings-1-2"] 30
              (Exn ValueError "invalid literal for int() with base 10: 'four'")
              "stew" []
              ltac:(vm_compute; reflexivity) ltac:(vm_compute; reflexivity)
              ltac:(vm_compute; reflexivity))
    as (card & Hcard & _ & Hrun & _).
  exists card. split; [exact Hrun |].
  vm_compute in Hcard. injection Hcard as <-. split; reflexivity.
Defined.
